(** * seo_blog_generator.py: the outline-driven article pipeline

    A shallow embedding of [src/seo_blog_generator.py]: the response
    parsers of [SEOBlogGenerator] (regular-expression extraction over
    model output), input validation, the three generation wrappers and
    the two button handlers of [main] (title generation and article
    generation), followed by the properties of the pipeline.

    Conventions.
    - A Python [str] is a list of Unicode code points ([pystr]); [len]
      is [length].  Literals of the source are written as UTF-8 Rocq
      strings and decoded by [U].
    - [Optional[str]] is [option pystr]; such a value is true in a test
      when it is [Some (c :: text)] ([None] and the empty string are
      false).
    - The generation API and the UI host are an environment [env]: an
      oracle answering each API call, and a fault index saying which host
      call inside [main]'s [try] block raises (if any).  The state that
      the handlers thread is [world]: the Streamlit session state and the
      logs of API calls and host calls. *)

From Stdlib Require Import String Ascii.
From Stdlib Require Import List NArith ZArith QArith Qround Bool Lia.
From Stdlib Require Floats Uint63.
Import ListNotations.

(* ================================================================= *)
(** ** Python strings *)

Module PyStr.

Open Scope N_scope.

(** A code point. *)
Definition char := N.
Definition pystr := list char.

(** UTF-8 decoding of a source literal: [need] continuation bytes are
    still expected for the code point whose high bits are [cp]. *)
Fixpoint utf8_go (s : string) (need : nat) (cp : N) : pystr :=
  match s with
  | EmptyString => []
  | String a rest =>
      let b := N_of_ascii a in
      match need with
      | O => if b <? 128 then b :: utf8_go rest 0 0
             else if b <? 224 then utf8_go rest 1 (b - 192)
             else if b <? 240 then utf8_go rest 2 (b - 224)
             else utf8_go rest 3 (b - 240)
      | S O => (cp * 64 + (b - 128)) :: utf8_go rest 0 0
      | S n => utf8_go rest n (cp * 64 + (b - 128))
      end
  end.

Definition U (s : string) : pystr := utf8_go s 0 0.

Definition NL : char := 10.
Definition DOT : char := 46.
Definition SPACE : char := 32.

(** [str.isspace] on one character, which is also what [\s] matches in a
    [str] pattern: the code points CPython lists as whitespace. *)
Definition isspace (c : char) : bool :=
  ((9 <=? c) && (c <=? 13)) || ((28 <=? c) && (c <=? 32))
  || (c =? 133) || (c =? 160) || (c =? 5760)
  || ((8192 <=? c) && (c <=? 8202))
  || (c =? 8232) || (c =? 8233) || (c =? 8239) || (c =? 8287)
  || (c =? 12288).

Fixpoint eqb (a b : pystr) : bool :=
  match a, b with
  | [], [] => true
  | x :: a', y :: b' => (x =? y) && eqb a' b'
  | _, _ => false
  end.

(** [s.startswith(p)]. *)
Fixpoint startswith (p s : pystr) : bool :=
  match p, s with
  | [], _ => true
  | x :: p', y :: s' => (x =? y) && startswith p' s'
  | _ :: _, [] => false
  end.

Fixpoint lstrip (s : pystr) : pystr :=
  match s with
  | [] => []
  | c :: rest => if isspace c then lstrip rest else s
  end.

Definition rstrip (s : pystr) : pystr := rev (lstrip (rev s)).

(** [s.strip()]: leading and trailing whitespace removed. *)
Definition strip (s : pystr) : pystr := rstrip (lstrip s).

(** [s.replace(old, new)] for a non-empty [old]: occurrences are found
    left to right and do not overlap; [skip] characters of the
    occurrence just replaced are still to be dropped. *)
Fixpoint replace_go (old new s : pystr) (skip : nat) : pystr :=
  match s with
  | [] => []
  | c :: rest =>
      match skip with
      | S k => replace_go old new rest k
      | O => if startswith old s
             then new ++ replace_go old new rest (length old - 1)
             else c :: replace_go old new rest 0
      end
  end.

Definition replace (old new s : pystr) : pystr :=
  match old with
  | [] => new ++ flat_map (fun c => c :: new) s
  | _ :: _ => replace_go old new s 0
  end.

(** [s.split('\n')]: never empty, [['']] for the empty string. *)
Fixpoint split_lines (s : pystr) : list pystr :=
  match s with
  | [] => [[]]
  | c :: rest =>
      if c =? NL then [] :: split_lines rest
      else match split_lines rest with
           | l :: ls => (c :: l) :: ls
           | [] => [[c]]
           end
  end.

(** [sep.join(parts)]. *)
Fixpoint join (sep : pystr) (parts : list pystr) : pystr :=
  match parts with
  | [] => []
  | [p] => p
  | p :: ps => p ++ sep ++ join sep ps
  end.

Definition digit_char (d : N) : char := 48 + d.

Fixpoint uint_chars (u : Decimal.uint) : pystr :=
  match u with
  | Decimal.Nil => []
  | Decimal.D0 u' => digit_char 0 :: uint_chars u'
  | Decimal.D1 u' => digit_char 1 :: uint_chars u'
  | Decimal.D2 u' => digit_char 2 :: uint_chars u'
  | Decimal.D3 u' => digit_char 3 :: uint_chars u'
  | Decimal.D4 u' => digit_char 4 :: uint_chars u'
  | Decimal.D5 u' => digit_char 5 :: uint_chars u'
  | Decimal.D6 u' => digit_char 6 :: uint_chars u'
  | Decimal.D7 u' => digit_char 7 :: uint_chars u'
  | Decimal.D8 u' => digit_char 8 :: uint_chars u'
  | Decimal.D9 u' => digit_char 9 :: uint_chars u'
  end.

(** [str(n)] for a natural number. *)
Definition str_of_nat (n : nat) : pystr := uint_chars (Nat.to_uint n).

(** Truthiness of a [str]. *)
Definition nonempty (s : pystr) : bool :=
  match s with [] => false | _ :: _ => true end.

(** [needle in s]: the needle occurs as a contiguous run. *)
Fixpoint contains (needle s : pystr) : bool :=
  startswith needle s ||
  match s with
  | [] => false
  | _ :: rest => contains needle rest
  end.

End PyStr.

Import PyStr.

(* ================================================================= *)
(** ** The regular expressions of the parsers

    All three patterns of the source have the shape
    [LIT\s*(.+?)(?:\n|$)] with a literal prefix [LIT]:
    - [rf'{i}\.\s*(.+?)(?:\n|$)]            (LIT = the digit [i] and a dot),
    - [r'\*\*推奨タイトル:\*\*\s*(.+?)(?:\n|$)'],
    - [r'\*\*導入文:\*\*\s*(.+?)(?:\n|$)'].
    The functions below follow the backtracking matcher of [re] on that
    shape and return group 1 of the leftmost match. *)

Module Re.

Open Scope N_scope.

(** The characters up to, not including, the first newline: what the
    lazy [.+?] has consumed when [(?:\n|$)] first succeeds ([.] does not
    match a newline, so the run of [.] ends at a newline or at the end of
    the text, where [\n] respectively [$] match). *)
Fixpoint line_prefix (s : pystr) : pystr :=
  match s with
  | [] => []
  | c :: rest => if c =? NL then [] else c :: line_prefix rest
  end.

(** [(.+?)(?:\n|$)] at the start of [s]: [.+?] needs one character that
    is not a newline. *)
Definition group_tail (s : pystr) : option pystr :=
  match s with
  | [] => None
  | c :: _ => if c =? NL then None else Some (line_prefix s)
  end.

(** [\s*(.+?)(?:\n|$)] at the start of [s].  [\s*] is greedy: it first
    takes every whitespace character and gives them back one at a time
    while the rest of the pattern fails. *)
Fixpoint ws_group_tail (s : pystr) : option pystr :=
  match s with
  | [] => None
  | c :: rest =>
      if isspace c
      then match ws_group_tail rest with
           | Some g => Some g
           | None => group_tail s
           end
      else group_tail s
  end.

(** The whole pattern anchored at the start of [s]. *)
Definition match_here (lit s : pystr) : option pystr :=
  if startswith lit s then ws_group_tail (skipn (length lit) s) else None.

(** [re.search(pattern, s)], then [.group(1)]: the leftmost start
    position at which the pattern matches. *)
Fixpoint search (lit s : pystr) : option pystr :=
  match match_here lit s with
  | Some g => Some g
  | None => match s with
            | [] => None
            | _ :: rest => search lit rest
            end
  end.

End Re.

(* ================================================================= *)
(** ** class SEOBlogGenerator: parsers, validation, prompts *)

Module Generator.

(** The dict returned by [extract_titles_only]. *)
Record titles := {
  title_candidates : list pystr;
  recommended_title : pystr
}.

(** One entry of ['sections']: the dict [{'title': ..., 'subsections': [...]}]. *)
Record section := {
  title : pystr;
  subsections : list pystr
}.

(** The dict returned by [extract_outline_structure]. *)
Record outline_structure := {
  intro : pystr;
  sections : list section
}.

(** The dict returned by [validate_inputs]. *)
Record validation := {
  is_valid : bool;
  errors : list pystr
}.

Definition ERR_KEYWORD : pystr := U "メインキーワードは2文字以上で入力してください".
Definition ERR_GENRE : pystr := U "記事のジャンルを選択してください".
Definition ERR_AUDIENCE : pystr := U "想定読者層を選択してください".

(** [not keyword or len(keyword.strip()) < 2]. *)
Definition keyword_too_short (keyword : pystr) : bool :=
  negb (nonempty keyword) || (length (strip keyword) <? 2)%nat.

(** [validate_inputs] (lines 76-92). *)
Definition validate_inputs (keyword genre target_audience : pystr) : validation :=
  let errors := [] in
  let errors := if keyword_too_short keyword
                then errors ++ [ERR_KEYWORD] else errors in
  let errors := if negb (nonempty genre)
                then errors ++ [ERR_GENRE] else errors in
  let errors := if negb (nonempty target_audience)
                then errors ++ [ERR_AUDIENCE] else errors in
  {| is_valid := (length errors =? 0)%nat; errors := errors |}.

(** The literal prefix of [rf'{i}\.\s*(.+?)(?:\n|$)']. *)
Definition item_literal (i : nat) : pystr := str_of_nat i ++ [DOT].

(** The literal prefix of [r'\*\*推奨タイトル:\*\*\s*(.+?)(?:\n|$)']. *)
Definition RECOMMENDED_LABEL : pystr := Eval vm_compute in U "**推奨タイトル:**".

(** The literal prefix of [r'\*\*導入文:\*\*\s*(.+?)(?:\n|$)']. *)
Definition INTRO_LABEL : pystr := Eval vm_compute in U "**導入文:**".

(** One round of [for i in range(1, 6)] (lines 149-152). *)
Definition titles_step (response : pystr) (title_candidates : list pystr)
    (i : nat) : list pystr :=
  match Re.search (item_literal i) response with
  | Some g => title_candidates ++ [strip g]
  | None => title_candidates
  end.

(** [extract_titles_only] (lines 145-160). *)
Definition extract_titles_only (response : pystr) : titles :=
  let title_candidates := fold_left (titles_step response) (seq 1 5) [] in
  let recommended_title :=
    match Re.search RECOMMENDED_LABEL response with
    | Some g => strip g
    | None => []
    end in
  {| title_candidates := title_candidates;
     recommended_title := recommended_title |}.

Definition H2 : pystr := Eval vm_compute in U "## ".
Definition H2_SUMMARY : pystr := Eval vm_compute in U "## まとめ".
Definition H3 : pystr := Eval vm_compute in U "### ".

(** One round of [for line in lines] (lines 305-318); the state is
    [sections] and [current_section] ([None] before the first heading). *)
Definition outline_step (st : list section * option section) (raw : pystr)
    : list section * option section :=
  let '(sections, current_section) := st in
  let line := strip raw in
  if startswith H2 line && negb (startswith H2_SUMMARY line) then
    let sections :=
      match current_section with
      | Some cs => sections ++ [cs]
      | None => sections
      end in
    (sections, Some {| title := replace H2 [] line; subsections := [] |})
  else if startswith H3 line then
    match current_section with
    | Some cs =>
        (sections,
         Some {| title := title cs;
                 subsections := subsections cs ++ [replace H3 [] line] |})
    | None => (sections, None)
    end
  else (sections, current_section).

(** [extract_outline_structure] (lines 298-331). *)
Definition extract_outline_structure (outline : pystr) : outline_structure :=
  let lines := split_lines outline in
  let '(sections, current_section) := fold_left outline_step lines ([], None) in
  let sections :=
    match current_section with
    | Some cs => sections ++ [cs]
    | None => sections
    end in
  let intro :=
    match Re.search INTRO_LABEL outline with
    | Some g => strip g
    | None => []
    end in
  {| intro := intro; sections := sections |}.

Definition INTRO_NOT_FOUND : pystr := Eval vm_compute in U "導入文が見つかりません".

(** [extract_title_and_meta] (lines 333-339): the dict has the single
    key ['intro']. *)
Definition extract_title_and_meta (article : pystr) : pystr :=
  match Re.search INTRO_LABEL article with
  | Some g => strip g
  | None => INTRO_NOT_FOUND
  end.

(** *** Prompts *)

(** The prompt of [generate_titles] (lines 99-129). *)
Definition titles_prompt (keyword genre target_audience : pystr) : pystr :=
  let genre_text :=
    if nonempty genre then U "- ジャンル: " ++ genre ++ [NL] else [] in
  let audience_text :=
    if nonempty target_audience
    then U "- 想定読者: " ++ target_audience ++ [NL] else [] in
  U "
あなたはSEO対策に精通したプロのライターです。以下のキーワードに基づいて、SEO最適化されたタイトル候補を5つ作成してください。

## 条件
- メインキーワード: " ++
  keyword ++
  U "
" ++
  genre_text ++
  audience_text ++
  U "

## タイトル作成要件
- SEOを意識したキーワード配置
- クリックされやすい魅力的なタイトル
- 検索意図に合致した内容
- 文字数は28-32文字程度を推奨
- 数字や年号、記号の活用
- 図解、画像、動画等の視覚要素は含めない（テキストのみの記事のため）
- 実際に提供できる内容のみをタイトルに含める

## 出力形式
**タイトル候補:**
1. [SEO最適化されたタイトル1]
2. [SEO最適化されたタイトル2] 
3. [SEO最適化されたタイトル3]
4. [SEO最適化されたタイトル4]
5. [SEO最適化されたタイトル5]

**推奨タイトル:** [上記の中で最もSEO効果が高いと思われるタイトル]

タイトル候補を作成してください。
".

(** [length_guide.get(article_length, "3000-5000文字程度（6-8セクション）")]
    (lines 169-173, 182). *)
Definition length_guide (article_length : pystr) : pystr :=
  if PyStr.eqb article_length (U "短め")
  then U "2000-3000文字程度（5-6セクション）"
  else if PyStr.eqb article_length (U "標準")
  then U "3000-5000文字程度（6-8セクション）"
  else if PyStr.eqb article_length (U "長め")
  then U "5000-8000文字程度（8-10セクション）"
  else U "3000-5000文字程度（6-8セクション）".

(** The prompt of [generate_outline] (lines 175-223). *)
Definition outline_prompt (keyword genre target_audience sub_keywords
    article_length specific_approach : pystr) : pystr :=
  let prompt :=
  U "
あなたはSEO対策に精通したプロのライターです。以下の条件に基づいて、詳細な記事の目次・構成を作成してください。

## 作成条件
- メインキーワード: " ++
  keyword ++
  U "
- 記事ジャンル: " ++
  genre ++
  U "
- 想定読者層: " ++
  target_audience ++
  U "
- 記事の長さ: " ++
  length_guide article_length ++
  U "
" in
  let prompt :=
    if nonempty sub_keywords
    then prompt ++ U "- サブキーワード: " ++ sub_keywords ++ [NL]
    else prompt in
  let prompt :=
    if nonempty specific_approach
    then prompt ++ U "- 特定の観点: " ++ specific_approach ++ [NL]
    else prompt in
  prompt ++
  U "
## 構成要件
- 導入文（読者の関心を引く）
- 本文セクション（H2見出し）を6-10個程度
- 各セクションにH3サブセクションを2-3個含める
- まとめ・結論部分
- SEO効果の高い見出し構成

## 出力形式
**導入文:** [読者の関心を引く導入文・120-160文字程度]

**記事構成:**
## 1. [H2見出し1]
### 1-1. [H3サブ見出し1-1]
### 1-2. [H3サブ見出し1-2]

## 2. [H2見出し2]
### 2-1. [H3サブ見出し2-1]
### 2-2. [H3サブ見出し2-2]
### 2-3. [H3サブ見出し2-3]

## 3. [H2見出し3]
### 3-1. [H3サブ見出し3-1]
### 3-2. [H3サブ見出し3-2]

...

## まとめ
### まとめの要点1
### まとめの要点2

詳細な構成を作成してください。
".

(** The prompt of [generate_section] (lines 245-282). *)
Definition section_prompt (keyword section_title : pystr)
    (subsections : list pystr) (context : pystr) : pystr :=
  let subsection_text :=
    join [NL] (map (fun sub => U "- " ++ sub) subsections) in
  U "
あなたはSEO対策に精通したプロのライターです。以下の条件に基づいて、記事の1つのセクションを詳細に執筆してください。

## 執筆条件
- メインキーワード: " ++
  keyword ++
  U "
- セクションタイトル: " ++
  section_title ++
  U "
- サブセクション:
" ++
  subsection_text ++
  U "

## 記事の文脈
" ++
  context ++
  U "

## 執筆要件
- セクション全体で600-1000文字程度
- 各サブセクションを詳しく解説
- 具体例、手順、tips等を豊富に含める
- 読者が実際に行動できる実践的な情報
- 専門的な内容も分かりやすく説明
- SEOキーワードを自然に含める
- 図表や画像の代わりに、詳細な文字による説明を提供
- 視覚的要素が必要な場合は「図表のイメージ」として文字で説明

## 出力形式
## " ++
  section_title ++
  U "

### [サブセクション1]
[詳細な内容・具体例・手順等]

### [サブセクション2]  
[詳細な内容・具体例・手順等]

### [サブセクション3（あれば）]
[詳細な内容・具体例・手順等]

セクションを執筆してください。
".

End Generator.

Import Generator.

(* ================================================================= *)
(** ** The environment: generation API and UI host *)

Module App.

(** Which wrapper issued a call to [client.messages.create]. *)
Inductive stage := TitleStage | OutlineStage | SectionStage.

(** One call to [client.messages.create]: the model and the temperature
    are the same constants in all three wrappers and are left out. *)
Record api_call := {
  call_stage : stage;
  call_max_tokens : N;
  call_prompt : pystr
}.

(** What a call does: [response.content[0].text], or an exception, which
    each wrapper catches ([except Exception as e], [str(e)] is the
    message). *)
Inductive api_result :=
| Completion (text : pystr)
| ApiError (message : pystr).

(** - [api k c]: the answer to call [c] when [k] calls were issued before;
    - [client_init key]: [Some msg] when [anthropic.Anthropic(api_key=key)]
      raises with message [msg];
    - [host_fault]: [Some (k, msg)] when the host call number [k] made
      inside the [try] block of the article handler raises an exception
      with message [msg]; [None] when the host never raises. *)
Record env := {
  api : nat -> api_call -> api_result;
  client_init : pystr -> option pystr;
  host_fault : option (nat * pystr)
}.

(** [st.session_state], with the keys [main] initialises (lines 347-356);
    [generated_titles] is [None] for the empty dict. *)
Record session_state := {
  generated_article : pystr;
  generation_completed : bool;
  generated_titles : option titles;
  selected_title : pystr;
  generation_progress : Z
}.

Definition initial_session : session_state :=
  {| generated_article := [];
     generation_completed := false;
     generated_titles := None;
     selected_title := [];
     generation_progress := 0 |}.

(** The host calls that the handlers make. *)
Inductive ui_event :=
| StError (msg : pystr)
| StSuccess (msg : pystr)
| StInfo (msg : pystr)
| ProgressBar (percent : Z)
| StatusText (msg : pystr)
| ProgressEmpty
| StatusEmpty
| Sleep.

(** The state threaded through a script run: the session, every API
    call issued so far (oldest first), every host call made so far
    (oldest first), and the number of host calls attempted inside the
    [try] block. *)
Record world := {
  session : session_state;
  api_log : list api_call;
  ui_log : list ui_event;
  try_calls : nat
}.

Definition initial_world : world :=
  {| session := initial_session; api_log := []; ui_log := []; try_calls := 0 |}.

Definition log_ui (ev : ui_event) (w : world) : world :=
  {| session := session w; api_log := api_log w;
     ui_log := ui_log w ++ [ev]; try_calls := try_calls w |}.

Definition log_api (c : api_call) (w : world) : world :=
  {| session := session w; api_log := api_log w ++ [c];
     ui_log := ui_log w; try_calls := try_calls w |}.

Definition tick (w : world) : world :=
  {| session := session w; api_log := api_log w;
     ui_log := ui_log w; try_calls := S (try_calls w) |}.

Definition set_session (s : session_state) (w : world) : world :=
  {| session := s; api_log := api_log w;
     ui_log := ui_log w; try_calls := try_calls w |}.

Definition with_generated_article (a : pystr) (s : session_state) :=
  {| generated_article := a;
     generation_completed := generation_completed s;
     generated_titles := generated_titles s;
     selected_title := selected_title s;
     generation_progress := generation_progress s |}.

Definition with_generation_completed (b : bool) (s : session_state) :=
  {| generated_article := generated_article s;
     generation_completed := b;
     generated_titles := generated_titles s;
     selected_title := selected_title s;
     generation_progress := generation_progress s |}.

Definition with_generated_titles (t : titles) (s : session_state) :=
  {| generated_article := generated_article s;
     generation_completed := generation_completed s;
     generated_titles := Some t;
     selected_title := selected_title s;
     generation_progress := generation_progress s |}.

Definition with_selected_title (t : pystr) (s : session_state) :=
  {| generated_article := generated_article s;
     generation_completed := generation_completed s;
     generated_titles := generated_titles s;
     selected_title := t;
     generation_progress := generation_progress s |}.

(** The field values the widgets return in one script run. *)
Record form := {
  api_key : pystr;
  keyword : pystr;
  genre : pystr;
  target_audience : pystr;
  sub_keywords : pystr;
  article_length : pystr;
  specific_approach : pystr;
  title_selection : nat
}.

(** Exceptions that reach [except Exception as e] of the article
    handler (line 585). *)
Inductive exn :=
| ZeroDivisionError
| StreamlitAPIException
| HostError (msg : pystr).

(** [str(e)]. *)
Definition exn_message (x : exn) : pystr :=
  match x with
  | ZeroDivisionError => U "division by zero"
  | StreamlitAPIException => U "Progress Value has invalid value [0, 100]"
  | HostError msg => msg
  end.

(** *** State and exceptions *)

Definition M (A : Type) : Type := world -> (A + exn) * world.

Definition ret {A : Type} (a : A) : M A := fun w => (inl a, w).

Definition bind {A B : Type} (m : M A) (k : A -> M B) : M B :=
  fun w =>
    match m w with
    | (inl a, w') => k a w'
    | (inr x, w') => (inr x, w')
    end.

Definition raise {A : Type} (x : exn) : M A := fun w => (inr x, w).

Definition get_session : M session_state := fun w => (inl (session w), w).

Definition put_session (s : session_state) : M unit :=
  fun w => (inl tt, set_session s w).

Declare Scope pipeline_scope.
Delimit Scope pipeline_scope with pipeline.
Notation "x <- m ;; k" := (bind m (fun x => k))
  (at level 61, m at next level, right associativity) : pipeline_scope.
Notation "m ;; k" := (bind m (fun _ => k))
  (at level 61, right associativity) : pipeline_scope.

Open Scope pipeline_scope.

Section WithEnv.

Variable e : env.

(** The generator object: [self.api_key] and whether [self.client] was
    built. *)
Record generator := {
  gen_api_key : pystr;
  client : bool
}.

(** [SEOBlogGenerator.__init__] (lines 67-74). *)
Definition new_generator (key : pystr) (w : world) : generator * world :=
  if nonempty key then
    match client_init e key with
    | None => ({| gen_api_key := key; client := true |}, w)
    | Some msg =>
        ({| gen_api_key := key; client := false |},
         log_ui (StError (U "API初期化エラー: " ++ msg)) w)
    end
  else ({| gen_api_key := key; client := false |}, w).

(** [self.client.messages.create(...)]: the call is recorded and the
    environment answers it. *)
Definition messages_create (c : api_call) (w : world) : api_result * world :=
  (api e (length (api_log w)) c, log_api c w).

(** A host call made inside the [try] block (lines 510-588): it raises
    when the environment says that this call fails, and is recorded
    otherwise. *)
Definition host_call (ev : ui_event) : M unit :=
  fun w =>
    let w1 := tick w in
    match host_fault e with
    | Some (k, msg) =>
        if Nat.eqb k (try_calls w)
        then (inr (HostError msg), w1)
        else (inl tt, log_ui ev w1)
    | None => (inl tt, log_ui ev w1)
    end.

(** [generate_titles] (lines 94-143); it is called outside any [try]
    block. *)
Definition generate_titles (g : generator)
    (keyword genre target_audience : pystr) (w : world)
    : option pystr * world :=
  if negb (client g) then (None, w)
  else
    let prompt := titles_prompt keyword genre target_audience in
    let '(r, w) :=
      messages_create {| call_stage := TitleStage;
                         call_max_tokens := 1000;
                         call_prompt := prompt |} w in
    match r with
    | Completion text => (Some text, w)
    | ApiError msg =>
        (None, log_ui (StError (U "タイトル生成エラー: " ++ msg)) w)
    end.

(** [generate_outline] (lines 162-237). *)
Definition generate_outline (g : generator)
    (keyword genre target_audience sub_keywords article_length
       specific_approach : pystr) : M (option pystr) :=
  if negb (client g) then ret None
  else
    let prompt := outline_prompt keyword genre target_audience sub_keywords
                    article_length specific_approach in
    fun w =>
      let '(r, w) :=
        messages_create {| call_stage := OutlineStage;
                           call_max_tokens := 2000;
                           call_prompt := prompt |} w in
      match r with
      | Completion text => ret (Some text) w
      | ApiError msg =>
          (host_call (StError (U "構成生成エラー: " ++ msg)) ;; ret None) w
      end.

(** [generate_section] (lines 239-296). *)
Definition generate_section (g : generator) (keyword section_title : pystr)
    (subsections : list pystr) (context : pystr) : M (option pystr) :=
  if negb (client g) then ret None
  else
    let prompt := section_prompt keyword section_title subsections context in
    fun w =>
      let '(r, w) :=
        messages_create {| call_stage := SectionStage;
                           call_max_tokens := 3000;
                           call_prompt := prompt |} w in
      match r with
      | Completion text => ret (Some text) w
      | ApiError msg =>
          (host_call (StError (U "セクション生成エラー: " ++ msg)) ;; ret None) w
      end.

(** *** The title button (lines 422-435)

    [st.spinner] only decorates the page and is left out. *)

Definition main_titles (f : form) (w : world) : world :=
  if negb (nonempty (api_key f))
  then log_ui (StError (U "APIキーを入力してください")) w
  else if keyword_too_short (keyword f)
  then log_ui (StError (U "メインキーワードは2文字以上で入力してください")) w
  else
    let '(g, w) := new_generator (api_key f) w in
    let '(titles_response, w) :=
      generate_titles g (keyword f) (genre f) (target_audience f) w in
    match titles_response with
    | Some (c :: text) =>
        let t := extract_titles_only (c :: text) in
        let w := set_session (with_generated_titles t (session w)) w in
        log_ui (StSuccess (U "タイトル候補が生成されました！")) w
    | _ =>
        log_ui (StError (U "タイトル生成に失敗しました。APIキーを確認してください。")) w
    end.

(** *** The title radio (lines 438-469) *)

Definition select_title (f : form) (w : world) : world :=
  match generated_titles (session w) with
  | Some titles_data =>
      match title_candidates titles_data with
      | [] => w
      | _ :: _ =>
          let w :=
            match nth_error (title_candidates titles_data) (title_selection f) with
            | Some t =>
                log_ui (StSuccess (U "**選択されたタイトル:** " ++ t))
                  (set_session (with_selected_title t (session w)) w)
            | None => w
            end in
          if nonempty (recommended_title titles_data)
          then log_ui (StInfo (U "💡 **AI推奨:** " ++ recommended_title titles_data)) w
          else w
      end
  | None => w
  end.

(** *** The article button (lines 495-588) *)

(** [progress_bar.progress(value)]: Streamlit refuses an integer outside
    0..100. *)
Definition progress_bar_progress (value : Z) : M unit :=
  if ((0 <=? value) && (value <=? 100))%Z
  then host_call (ProgressBar value)
  else raise StreamlitAPIException.

(** [35 + (50 * (i + 1) / total_sections)] (line 536): [/] is true
    division and raises on a zero divisor.  The quotient is kept as an
    exact rational; Python rounds it to a binary64 float. *)
Definition section_progress (i total_sections : nat) : M Q :=
  if Nat.eqb total_sections 0 then raise ZeroDivisionError
  else ret (35 + inject_Z (50 * (Z.of_nat i + 1))
                 / inject_Z (Z.of_nat total_sections))%Q.

(** [int(x)]: truncation towards zero. *)
Definition py_int (x : Q) : Z :=
  if Qle_bool 0 x then Qfloor x else Qceiling x.

(** [f"記事テーマ: {keyword} ({genre})"] (line 544). *)
Definition section_context (keyword genre : pystr) : pystr :=
  U "記事テーマ: " ++ keyword ++ U " (" ++ genre ++ U ")".

(** The status text of line 538. *)
Definition section_status (i total_sections : nat) : pystr :=
  U "ステップ3/4: セクション " ++ str_of_nat (i + 1)
    ++ U "/" ++ str_of_nat total_sections ++ U " を生成中...".

(** The message of line 578. *)
Definition success_message (section_count : nat) : pystr :=
  U "記事が正常に生成されました！（総セクション数: "
    ++ str_of_nat section_count ++ U "）".

(** [for i, section in enumerate(structure['sections'])] (lines 535-548),
    from index [i] on, [secs] being the sections still to come. *)
Fixpoint section_loop (g : generator) (keyword genre : pystr)
    (total_sections i : nat) (secs : list section)
    (sections_content : list pystr) : M (list pystr) :=
  match secs with
  | [] => ret sections_content
  | section :: rest =>
      progress <- section_progress i total_sections ;;
      progress_bar_progress (py_int progress) ;;
      host_call (StatusText (section_status i total_sections)) ;;
      section_content <-
        generate_section g keyword (title section) (subsections section)
          (section_context keyword genre) ;;
      section_loop g keyword genre total_sections (S i) rest
        match section_content with
        | Some (c :: text) => sections_content ++ [c :: text]
        | _ => sections_content
        end
  end.

(** The final article (lines 555-571). *)
Definition assemble (structure : outline_structure) (selected : pystr)
    (sections_content : list pystr) (keyword target_audience : pystr) : pystr :=
  let final_article := U "**導入文:** " ++ intro structure ++ [NL; NL] in
  let final_article := final_article ++ (U "**記事本文:**" ++ [NL; NL]) in
  let final_article :=
    if nonempty selected
    then final_article ++ (U "# " ++ selected ++ [NL; NL])
    else final_article in
  let final_article := final_article ++ (intro structure ++ [NL; NL]) in
  let final_article :=
    fold_left (fun acc content => acc ++ (content ++ [NL; NL]))
      sections_content final_article in
  let final_article := final_article ++ (U "## まとめ" ++ [NL; NL]) in
  let final_article :=
    final_article ++ (U "本記事では、" ++ keyword ++ U "について詳しく解説しました。") in
  final_article ++
    (U "各ポイントを実践することで、" ++ target_audience
       ++ U "の方でも効果的に活用できるでしょう。").

(** The message of line 521. *)
Definition OUTLINE_FAILED : pystr := U "構成の生成に失敗しました。".

(** Lines 511-574 of the [try] block: outline, parsing, the section
    loop and the assembly.  [None] is the early [return] of line 522;
    otherwise the final article and [sections_content]. *)
Definition generation_steps (g : generator) (f : form)
    : M (option (pystr * list pystr)) :=
  host_call (StatusText (U "ステップ1/4: 記事構成を生成中...")) ;;
  progress_bar_progress 25 ;;
  outline <- generate_outline g (keyword f) (genre f) (target_audience f)
               (sub_keywords f) (article_length f) (specific_approach f) ;;
  match outline with
  | Some (c :: text) =>
      host_call (StatusText (U "ステップ2/4: 構成を解析中...")) ;;
      progress_bar_progress 35 ;;
      let structure := extract_outline_structure (c :: text) in
      host_call (StatusText (U "ステップ3/4: セクションを詳細生成中...")) ;;
      let total_sections := length (sections structure) in
      sections_content <-
        section_loop g (keyword f) (genre f) total_sections 0
          (sections structure) [] ;;
      host_call (StatusText (U "ステップ4/4: 記事を統合中...")) ;;
      progress_bar_progress 95 ;;
      s <- get_session ;;
      let final_article :=
        assemble structure (selected_title s) sections_content
          (keyword f) (target_audience f) in
      progress_bar_progress 100 ;;
      host_call (StatusText (U "✅ 記事生成完了！")) ;;
      ret (Some (final_article, sections_content))
  | _ =>
      host_call (StError OUTLINE_FAILED) ;;
      ret None
  end.

(** Lines 576-583 of the [try] block: the article is stored and the
    success is reported. *)
Definition publish_steps (final_article : pystr)
    (sections_content : list pystr) : M unit :=
  s <- get_session ;;
  put_session (with_generated_article final_article s) ;;
  s <- get_session ;;
  put_session (with_generation_completed true s) ;;
  host_call (StSuccess (success_message (length sections_content))) ;;
  host_call Sleep ;;
  host_call ProgressEmpty ;;
  host_call StatusEmpty.

(** The handler [except Exception as e] (lines 585-588); its own host
    calls are taken to succeed. *)
Definition on_exception (x : exn) (w : world) : world :=
  log_ui StatusEmpty
    (log_ui ProgressEmpty
       (log_ui (StError (U "記事生成中にエラーが発生しました: " ++ exn_message x)) w)).

(** How a run of the article button ended.  [Raised x stored]:
    an exception reached line 585, after ([stored = true]) or before
    ([stored = false]) lines 576-577 had run. *)
Inductive outcome :=
| NoApiKey
| Invalid (errors : list pystr)
| OutlineFailed
| Completed (section_count : nat)
| Raised (x : exn) (stored : bool).

(** The handler of the article button (lines 495-588).  The [try] block
    is [generation_steps] followed by [publish_steps]; an exception in
    either reaches the same handler.  [st.progress(0)] of line 507 is
    recorded as [ProgressBar 0]; [st.empty()] of line 508 only creates
    the placeholder of the status text and is not recorded. *)
Definition main_generate (f : form) (w : world) : outcome * world :=
  if negb (nonempty (api_key f))
  then (NoApiKey, log_ui (StError (U "APIキーを入力してください")) w)
  else
    let '(g, w) := new_generator (api_key f) w in
    let validation :=
      validate_inputs (keyword f) (genre f) (target_audience f) in
    if negb (is_valid validation)
    then (Invalid (errors validation),
          fold_left (fun w error => log_ui (StError error) w)
            (errors validation) w)
    else
      let w := log_ui (ProgressBar 0) w in
      match generation_steps g f w with
      | (inr x, w) => (Raised x false, on_exception x w)
      | (inl None, w) => (OutlineFailed, w)
      | (inl (Some (final_article, sections_content)), w) =>
          match publish_steps final_article sections_content w with
          | (inr x, w) => (Raised x true, on_exception x w)
          | (inl tt, w) => (Completed (length sections_content), w)
          end
      end.

(** *** One script run *)

Inductive click := NoClick | ClickTitles | ClickGenerate.

(** [main]: the title button, the title radio, then the article button.
    The page layout and the display of the stored article (lines
    590-658) change no state and issue no call. *)
Definition main (f : form) (c : click) (w : world) : option outcome * world :=
  let w := match c with ClickTitles => main_titles f w | _ => w end in
  let w := select_title f w in
  match c with
  | ClickGenerate => let '(o, w) := main_generate f w in (Some o, w)
  | _ => (None, w)
  end.

End WithEnv.

(** The states of the pipeline that a handler run ends in. *)
Inductive pipeline_state := Idle | Failed | Done.

Definition state_of (o : outcome) : pipeline_state :=
  match o with
  | NoApiKey | Invalid _ => Idle
  | OutlineFailed | Raised _ _ => Failed
  | Completed _ => Done
  end.

End App.

Import App.

(* ================================================================= *)
(** ** Notions used in the statements *)

Module Obs.

(** The call that [generate_outline] issues for a form. *)
Definition outline_call (f : form) : api_call :=
  {| call_stage := OutlineStage;
     call_max_tokens := 2000;
     call_prompt := outline_prompt (keyword f) (genre f) (target_audience f)
                      (sub_keywords f) (article_length f) (specific_approach f) |}.

(** The call that the section loop issues for one section. *)
Definition section_call (f : form) (s : section) : api_call :=
  {| call_stage := SectionStage;
     call_max_tokens := 3000;
     call_prompt := section_prompt (keyword f) (title s) (subsections s)
                      (section_context (keyword f) (genre f)) |}.

(** The call that [generate_titles] issues for a form. *)
Definition titles_call (f : form) : api_call :=
  {| call_stage := TitleStage;
     call_max_tokens := 1000;
     call_prompt := titles_prompt (keyword f) (genre f) (target_audience f) |}.

(** The answers of the environment to the section calls of [secs], the
    first of them being call number [k]. *)
Fixpoint section_answers (e : env) (f : form) (k : nat) (secs : list section)
    : list api_result :=
  match secs with
  | [] => []
  | s :: rest => api e k (section_call f s) :: section_answers e f (S k) rest
  end.

(** A call succeeded when it returned a non-empty text. *)
Definition succeeded (r : api_result) : bool :=
  match r with
  | Completion (_ :: _) => true
  | _ => false
  end.


(** The texts of the calls that succeeded, in call order. *)
Fixpoint bodies (rs : list api_result) : list pystr :=
  match rs with
  | [] => []
  | Completion (c :: text) :: rest => (c :: text) :: bodies rest
  | _ :: rest => bodies rest
  end.

(** The percentages passed to [progress_bar.progress], oldest first. *)
Fixpoint progress_values (log : list ui_event) : list Z :=
  match log with
  | [] => []
  | ProgressBar v :: rest => v :: progress_values rest
  | _ :: rest => progress_values rest
  end.

(** The text a call returned, if it returned. *)
Definition text_of (r : api_result) : option pystr :=
  match r with
  | Completion t => Some t
  | ApiError _ => None
  end.

(** The percentage shown for the section of index [i] (from 0) of [N]:
    35 plus the integer quotient of [50 * (i + 1)] by [N]. *)
Definition nth_progress (N i : nat) : Z :=
  (35 + 50 * (Z.of_nat i + 1) / Z.of_nat N)%Z.

(** The closing section of the article (lines 569-571). *)
Definition closing (keyword target_audience : pystr) : pystr :=
  U "## まとめ" ++ [NL; NL]
  ++ U "本記事では、" ++ keyword ++ U "について詳しく解説しました。"
  ++ U "各ポイントを実践することで、" ++ target_audience
  ++ U "の方でも効果的に活用できるでしょう。".

(** The heading of the selected title (line 560), empty without one. *)
Definition title_heading (selected : pystr) : pystr :=
  if nonempty selected then U "# " ++ selected ++ [NL; NL] else [].

(** The calls of the article pipeline: outline and section calls. *)
Definition generation_calls (calls : list api_call) : Prop :=
  Forall (fun c => call_stage c <> TitleStage) calls.

(** The session after lines 576-577. *)
Definition stored (art : pystr) (s : session_state) : session_state :=
  with_generation_completed true (with_generated_article art s).

(** The API key is present and the three required fields pass
    [validate_inputs]. *)
Definition input_ok (f : form) : Prop :=
  api_key f <> []
  /\ is_valid (validate_inputs (keyword f) (genre f) (target_audience f)) = true.

(** The article that a run started in [w] assembles from the outline
    text [o]: the section calls are numbered from the call after the
    outline call. *)
Definition article_of (e : env) (f : form) (w : world) (o : pystr) : pystr :=
  let structure := extract_outline_structure o in
  assemble structure (selected_title (session w))
    (bodies (section_answers e f (S (length (api_log w))) (sections structure)))
    (keyword f) (target_audience f).

(** The parts of the article in the order lines 555-571 append them. *)
Definition article_layout (intro_text selected : pystr) (contents : list pystr)
    (keyword target_audience : pystr) : pystr :=
  U "**導入文:** " ++ intro_text ++ [NL; NL]
  ++ U "**記事本文:**" ++ [NL; NL]
  ++ title_heading selected
  ++ intro_text ++ [NL; NL]
  ++ concat (map (fun body => body ++ [NL; NL]) contents)
  ++ closing keyword target_audience.

End Obs.

Import Obs.

(* ================================================================= *)
(** ** Texts in the formats the prompts ask for *)

Module TitleText.

Open Scope N_scope.









End TitleText.

Import TitleText.

Module Marks.



(** A line that opens a section (line 308). *)
Definition opens_section (line : pystr) : bool :=
  startswith H2 line && negb (startswith H2_SUMMARY line).

(** The titles of the sections collected so far, the open one last. *)
Definition titles_so_far (st : list section * option section) : list pystr :=
  map title (fst st ++ match snd st with Some cs => [cs] | None => [] end).

End Marks.

Import Marks.

(* ================================================================= *)
(** ** End-to-end scenarios *)

Module Scenario.

(** The request of the scenarios: keyword "time management", genre
    "business", audience "beginner", standard length. *)
Definition request : form :=
  {| api_key := U "sk-test";
     keyword := U "time management";
     genre := U "business";
     target_audience := U "beginner";
     sub_keywords := [];
     article_length := U "標準";
     specific_approach := [];
     title_selection := 0 |}.

(** An outline in the output format of the outline prompt, with three
    sections and the closing heading. *)
Definition outline_text : pystr := Eval vm_compute in U "**導入文:** Time is short.

**記事構成:**
## 1. Plan
### 1-1. Goals
### 1-2. Priorities

## 2. Focus
### 2-1. Blocks

## 3. Review
### 3-1. Notes

## まとめ
### Key point
".

(** A title response with items 1, 2 and 4 only. *)
Definition titles_1_2_4 : pystr := Eval vm_compute in U "1. Alpha
2. Beta
4. Delta
".

(** An answer without any list, heading or label. *)
Definition plain_text : pystr := Eval vm_compute in U "Sorry, I cannot help with this request".

(** An API that always answers: the outline above, a body naming the
    call number, a title list. *)
Definition answer (k : nat) (c : api_call) : api_result :=
  match call_stage c with
  | TitleStage => Completion titles_1_2_4
  | OutlineStage => Completion outline_text
  | SectionStage => Completion (U "BODY " ++ str_of_nat k)
  end.

(** Scenario A: every call succeeds. *)
Definition all_succeed : env :=
  {| api := answer; client_init := fun _ => None; host_fault := None |}.

(** Scenario B: the call for section 2 (call number 2) fails. *)
Definition section2_fails : env :=
  {| api := fun k c => if Nat.eqb k 2 then ApiError (U "overloaded")
                       else answer k c;
     client_init := fun _ => None;
     host_fault := None |}.

(** Scenario C: the outline call fails. *)
Definition outline_fails : env :=
  {| api := fun k c => match call_stage c with
                       | OutlineStage => ApiError (U "overloaded")
                       | _ => answer k c
                       end;
     client_init := fun _ => None;
     host_fault := None |}.

(** The outline has no heading at all. *)
Definition no_sections : env :=
  {| api := fun k c => match call_stage c with
                       | OutlineStage => Completion plain_text
                       | _ => answer k c
                       end;
     client_init := fun _ => None;
     host_fault := None |}.

(** The host raises at its fourth call inside the [try] block. *)
Definition host_raises : env :=
  {| api := answer;
     client_init := fun _ => None;
     host_fault := Some (3%nat, U "connection lost") |}.


(** A request whose keyword has one character. *)
Definition short_keyword : form :=
  {| api_key := U "sk-test";
     keyword := U " a ";
     genre := U "business";
     target_audience := U "beginner";
     sub_keywords := [];
     article_length := U "標準";
     specific_approach := [];
     title_selection := 0 |}.

(** A request whose keyword has two characters. *)
Definition two_char_keyword : form :=
  {| api_key := U "sk-test";
     keyword := U "時間";
     genre := U "business";
     target_audience := U "beginner";
     sub_keywords := [];
     article_length := U "標準";
     specific_approach := [];
     title_selection := 0 |}.

(** A session in which a title has been selected. *)
Definition titled_world : world :=
  set_session (with_selected_title (U "Time Management 101") initial_session)
    initial_world.

End Scenario.

(* ================================================================= *)
(** ** Line 536 in binary64 arithmetic *)

Module Binary64.

Import Floats.

(** [int(x)] of a binary64 value. *)
Definition trunc_float (x : float) : Z :=
  match Prim2SF x with
  | S754_finite s m e =>
      let a := if (0 <=? e)%Z then (Zpos m * 2 ^ e)%Z
               else (Zpos m / 2 ^ (- e))%Z in
      if s then (- a)%Z else a
  | _ => 0%Z
  end.

(** [int(35 + (50 * (i + 1) / total_sections))] as Python computes it:
    the two integers are converted exactly, the division and the
    addition round to binary64. *)
Definition float_progress (total_sections i : nat) : Z :=
  trunc_float
    (35 + PrimFloat.of_uint63 (Uint63.of_Z (50 * (Z.of_nat i + 1)))
          / PrimFloat.of_uint63 (Uint63.of_Z (Z.of_nat total_sections)))%float.

End Binary64.

(* ================================================================= *)
(** ** Shapes of parsed text *)

Module Shape.

Open Scope N_scope.

(** No whitespace at either end (the empty string included). *)
Definition trimmed (t : pystr) : bool :=
  match t with
  | [] => true
  | c :: _ => negb (isspace c) && negb (isspace (last t c))
  end.

(** No newline. *)
Definition single_line (t : pystr) : bool :=
  forallb (fun c => negb (c =? NL)) t.

End Shape.

(* ================================================================= *)
(** ** Outlines in the format the outline prompt asks for *)

Module OutlineText.

Import Shape.

Open Scope N_scope.

(** The word of the closing heading. *)
Definition SUMMARY_WORD : pystr := Eval vm_compute in U "まとめ".

(** The line [**記事構成:**] of the outline format. *)
Definition STRUCTURE_LABEL : pystr := Eval vm_compute in U "**記事構成:**".

(** A text that can stand on a line of its own: not empty, one line, no
    whitespace at either end. *)
Definition line_text (t : pystr) : bool :=
  nonempty t && trimmed t && single_line t.

(** A section title that the outline parser reads back unchanged: the
    second-level marker does not occur in it, and it does not start
    with the word of the closing heading. *)
Definition heading_text (t : pystr) : bool :=
  line_text t && negb (contains H2 t) && negb (startswith SUMMARY_WORD t).

(** A subsection title that the outline parser reads back unchanged. *)
Definition subheading_text (t : pystr) : bool :=
  line_text t && negb (contains H3 t).

Definition well_formed (o : outline_structure) : bool :=
  line_text (intro o)
  && forallb (fun s => heading_text (title s)
                       && forallb subheading_text (subsections s))
       (sections o).

(** The lines of one section in the outline format (lines 203-205):
    the heading, the subheadings, an empty line. *)
Definition section_lines (s : section) : list pystr :=
  (H2 ++ title s) :: map (fun sub => H3 ++ sub) (subsections s) ++ [[]].

(** The lines of an outline in the format of the outline prompt (lines
    200-220): the intro line, an empty line, the structure label, the
    sections, and the closing heading when [closing] is set. *)
Definition outline_lines (o : outline_structure) (closing : bool) : list pystr :=
  (INTRO_LABEL ++ SPACE :: intro o) :: [] :: STRUCTURE_LABEL
  :: flat_map section_lines (sections o)
  ++ (if closing then [H2_SUMMARY] else []).

(** The text of these lines, each ended by a newline. *)
Definition render_outline (o : outline_structure) (closing : bool) : pystr :=
  concat (map (fun l => l ++ [NL]) (outline_lines o closing)).

End OutlineText.

(* ================================================================= *)
(** ** The lines of an outline as the parser reads them *)

Module Lines.

(** The lines from the first one that opens a section on. *)
Fixpoint from_first_section (lines : list pystr) : list pystr :=
  match lines with
  | [] => []
  | l :: rest => if opens_section l then l :: rest else from_first_section rest
  end.

(** The sections that are closed or open in a state of the loop. *)
Definition collected (st : list section * option section) : list section :=
  fst st ++ match snd st with Some cs => [cs] | None => [] end.

(** The subsection titles collected so far, over all sections. *)
Definition subsections_so_far (st : list section * option section) : list pystr :=
  concat (map subsections (collected st)).

End Lines.

(* ================================================================= *)
(** ** The output column (lines 590-649) *)

Module Page.

Open Scope N_scope.

Definition ASCII_SPACE : pystr := Eval vm_compute in U " ".
Definition WIDE_SPACE : pystr := Eval vm_compute in U "　".
Definition UNDERSCORE : pystr := Eval vm_compute in U "_".
Definition FILE_STEM : pystr := Eval vm_compute in U "seo_article_".
Definition TXT : pystr := Eval vm_compute in U ".txt".
Definition MD : pystr := Eval vm_compute in U ".md".

(** [f"seo_article_{keyword.replace(' ', '_').replace('　', '_')}.txt"]
    (line 626) and the same with [.md] (line 634). *)
Definition download_name (keyword ext : pystr) : pystr :=
  FILE_STEM
  ++ replace WIDE_SPACE UNDERSCORE (replace ASCII_SPACE UNDERSCORE keyword)
  ++ ext.

(** The arguments of one [st.download_button]. *)
Record download_button := {
  label : pystr;
  data : pystr;
  file_name : pystr;
  mime : pystr
}.

(** What the column shows for a stored article (lines 595-644).
    [extracted_intro] is [extracted['intro']] of line 600, which the
    page computes and shows nowhere. *)
Record article_panel := {
  extracted_intro : pystr;
  title_line : pystr;
  markdown : pystr;
  text_download : download_button;
  markdown_download : download_button;
  copy_area : pystr
}.

Inductive column :=
| ArticlePanel (p : article_panel)
| Placeholder (msg : pystr).

(** The body label that [assemble] writes after the intro block. *)
Definition BODY_LABEL : pystr := Eval vm_compute in U "**記事本文:**".

(** [with col2:] (lines 590-649); [SEOBlogGenerator()] of line 599 is
    built without a key and makes no host call. *)
Definition output_column (f : form) (s : session_state) : column :=
  if generation_completed s && nonempty (generated_article s) then
    let article := generated_article s in
    let extracted := extract_title_and_meta article in
    ArticlePanel
      {| extracted_intro := extracted;
         title_line :=
           if nonempty (selected_title s)
           then U "**選択されたタイトル:** " ++ selected_title s
           else U "**タイトル:** タイトルが選択されていません";
         markdown := article;
         text_download :=
           {| label := U "📄 テキスト形式でダウンロード";
              data := article;
              file_name := download_name (keyword f) TXT;
              mime := U "text/plain" |};
         markdown_download :=
           {| label := U "📝 Markdown形式でダウンロード";
              data := article;
              file_name := download_name (keyword f) MD;
              mime := U "text/markdown" |};
         copy_area := article |}
  else
    Placeholder
      (U "左側の入力フォームに情報を入力して、「記事を生成」ボタンをクリックしてください。").

(** One run of the script: [main] as far as the input column goes, then
    the output column, which the [return] of line 522 skips. *)
Definition script_run (e : env) (f : form) (c : click) (w : world)
    : option outcome * world * option column :=
  let '(o, w) := main e f c w in
  match o with
  | Some OutlineFailed => (o, w, None)
  | _ => (o, w, Some (output_column f (session w)))
  end.

(** The world after a sequence of script runs, each with the field
    values and the button of that run. *)
Fixpoint runs (e : env) (steps : list (form * click)) (w : world) : world :=
  match steps with
  | [] => w
  | (f, c) :: rest => runs e rest (snd (fst (script_run e f c w)))
  end.

(** The character that takes the place of [c] in a file name. *)
Definition underscored (c : char) : char :=
  if (c =? 32) || (c =? 12288) then 95 else c.

End Page.

(* ================================================================= *)
(** ** Notions used in the statements about whole runs *)

Module Faults.

(** Each value is at most the next one. *)
Fixpoint nondecreasing (l : list Z) : bool :=
  match l with
  | a :: (b :: _) as rest => (a <=? b)%Z && nondecreasing rest
  | _ => true
  end.

(** The only exception that [m] raises is the fault of the host. *)
Definition host_only {A : Type} (e : env) (m : M A) : Prop :=
  forall w x w', m w = (inr x, w') ->
    exists k msg, host_fault e = Some (k, msg) /\ x = HostError msg.

(** [m] issues no API call. *)
Definition silent {A : Type} (m : M A) : Prop :=
  forall w, api_log (snd (m w)) = api_log w.

End Faults.

Module Invariant.

(** Two sessions with the same article, flag and progress key. *)
Definition same_article (s s' : session_state) : Prop :=
  generated_article s' = generated_article s
  /\ generation_completed s' = generation_completed s
  /\ generation_progress s' = generation_progress s.

(** What holds of the session between script runs. *)
Definition consistent (s : session_state) : Prop :=
  generation_progress s = 0%Z
  /\ (generation_completed s = true <-> generated_article s <> [])
  /\ (generation_completed s = true ->
      startswith (INTRO_LABEL ++ [SPACE]) (generated_article s) = true).

End Invariant.

(* ================================================================= *)
(** ** Further scenarios *)

Module Sample.

Import Scenario.

(** An outline with two sections, the second without subsections. *)
Definition sample_outline : outline_structure :=
  {| intro := U "Time is short.";
     sections := [ {| title := U "1. Plan";
                      subsections := [U "1-1. Goals"; U "1-2. Priorities"] |};
                   {| title := U "2. Focus"; subsections := [] |} ] |}.

(** The request of the scenarios with the second title picked. *)
Definition second_title : form :=
  {| api_key := U "sk-test";
     keyword := U "time management";
     genre := U "business";
     target_audience := U "beginner";
     sub_keywords := [];
     article_length := U "標準";
     specific_approach := [];
     title_selection := 1 |}.

(** The client cannot be built. *)
Definition no_client : env :=
  {| api := answer;
     client_init := fun _ => Some (U "invalid key");
     host_fault := None |}.

(** The world after the title button of scenario A. *)
Definition listed_world : world := main_titles all_succeed request initial_world.

(** The world after the article button of scenario A. *)
Definition completed_world : world :=
  snd (main_generate all_succeed request initial_world).

(** The host raises at the success message of line 578, its sixteenth
    call inside the [try] block of a run with three sections. *)
Definition late_fault : env :=
  {| api := answer;
     client_init := fun _ => None;
     host_fault := Some (15%nat, U "connection lost") |}.

(** One section with one subsection, and the same lines indented, with
    trailing blanks and with carriage returns. *)
Definition plain_outline : pystr :=
  H2 ++ [65%N; NL] ++ H3 ++ [98%N; NL].

Definition padded_outline : pystr :=
  [SPACE; SPACE] ++ H2 ++ [65%N; SPACE; 13%N; NL]
  ++ [9%N] ++ H3 ++ [98%N; 13%N; NL].

End Sample.

Arguments U : simpl never.
Arguments titles_prompt : simpl never.
Arguments outline_prompt : simpl never.
Arguments section_prompt : simpl never.
Arguments section_context : simpl never.
Arguments section_status : simpl never.
Arguments success_message : simpl never.
Arguments extract_outline_structure : simpl never.
Arguments extract_titles_only : simpl never.
Arguments assemble : simpl never.
Arguments str_of_nat : simpl never.
Arguments exn_message : simpl never.
Arguments Page.download_name : simpl never.

(* ================================================================= *)
(** ** Facts about strings *)

Section StringFacts.

Lemma lstrip_all_space (s : pystr) :
  forallb isspace s = true -> lstrip s = [].
Proof.
  induction s as [|c s IH]; simpl; [reflexivity|].
  intros H. apply andb_true_iff in H as [Hc Hs].
  rewrite Hc. now apply IH.
Qed.

Lemma strip_all_space (s : pystr) :
  forallb isspace s = true -> strip s = [].
Proof.
  intros H. unfold strip, rstrip. now rewrite (lstrip_all_space s H).
Qed.

End StringFacts.

(* ================================================================= *)
(** ** Validation *)

Section Validation.

Lemma validate_inputs_valid_iff (k g a : pystr) :
  is_valid (validate_inputs k g a) = true <->
  keyword_too_short k = false /\ g <> [] /\ a <> [].
Proof.
  unfold validate_inputs.
  destruct (keyword_too_short k), g, a; simpl; split; intros H;
    try discriminate; try (repeat split; congruence);
    destruct H as (H1 & H2 & H3); congruence.
Qed.

Lemma validate_inputs_errors_valid (k g a : pystr) :
  is_valid (validate_inputs k g a) = true <-> errors (validate_inputs k g a) = [].
Proof.
  unfold validate_inputs.
  destruct (keyword_too_short k), g, a; simpl; split; congruence.
Qed.

Lemma keyword_too_short_spec (k : pystr) :
  keyword_too_short k = true <-> (length (strip k) < 2)%nat.
Proof.
  unfold keyword_too_short. destruct k as [|c k].
  - simpl. split; [lia | reflexivity].
  - simpl negb. rewrite orb_false_l. apply Nat.ltb_lt.
Qed.

End Validation.

(* ================================================================= *)
(** ** The article pipeline, step by step *)

Section PipelineFacts.

Variable e : env.

Lemma progress_values_app (l1 l2 : list ui_event) :
  progress_values (l1 ++ l2) = progress_values l1 ++ progress_values l2.
Proof.
  induction l1 as [|ev l1 IH]; simpl; [reflexivity|].
  destruct ev; simpl; rewrite ?IH; reflexivity.
Qed.

Lemma progress_fraction (a : Z) (N : nat) :
  (0 < N)%nat -> (0 <= a)%Z ->
  py_int (35 + inject_Z a / inject_Z (Z.of_nat N))%Q = (35 + a / Z.of_nat N)%Z.
Proof.
  intros HN Ha.
  destruct N as [|n]; [lia|].
  set (p := Pos.of_succ_nat n).
  replace (Z.of_nat (S n)) with (Zpos p) by (unfold p; lia).
  assert (Hx : (35 + inject_Z a / inject_Z (Zpos p) == (35 * Zpos p + a) # p)%Q).
  { unfold Qeq, Qdiv, Qinv, Qmult, Qplus, inject_Z. cbn [Qnum Qden].
    rewrite ?Pos.mul_1_l. ring. }
  assert (Hnn : (0 <= 35 + inject_Z a / inject_Z (Zpos p))%Q).
  { rewrite Hx. unfold Qle. cbn [Qnum Qden]. nia. }
  unfold py_int.
  apply Qle_bool_iff in Hnn. rewrite Hnn.
  rewrite Hx. unfold Qfloor.
  rewrite Z.add_comm, Z.div_add by lia. lia.
Qed.


Lemma nth_progress_range (N i : nat) :
  (i < N)%nat -> (35 <= nth_progress N i <= 85)%Z.
Proof.
  intros H. unfold nth_progress.
  assert (0 <= 50 * (Z.of_nat i + 1) / Z.of_nat N <= 50)%Z; [|lia].
  split.
  - apply Z.div_pos; lia.
  - apply Z.div_le_upper_bound; lia.
Qed.

Lemma host_call_inv (ev : ui_event) (w : world) :
  (host_call e ev w = (inl tt, log_ui ev (tick w)))
  \/ (exists msg, host_call e ev w = (inr (HostError msg), tick w)
                  /\ host_fault e <> None).
Proof.
  unfold host_call. destruct (host_fault e) as [[k msg]|]; [|now left].
  destruct (Nat.eqb k (try_calls w)); [right|now left].
  exists msg. split; [reflexivity|discriminate].
Qed.



Lemma bodies_cons (acc : list pystr) (r : api_result) (rs : list api_result) :
  match text_of r with
  | Some (c :: t) => acc ++ [c :: t]
  | _ => acc
  end ++ bodies rs = acc ++ bodies (r :: rs).
Proof.
  destruct r as [[|c t]|m]; simpl; rewrite <- ?app_assoc, ?app_nil_r; reflexivity.
Qed.

Lemma generate_section_spec (g : generator) (f : form) (s : section) (w : world) :
  match generate_section e g (keyword f) (title s) (subsections s)
          (section_context (keyword f) (genre f)) w with
  | (inl res, w') =>
      session w' = session w
      /\ progress_values (ui_log w') = progress_values (ui_log w)
      /\ (if client g
          then api_log w' = api_log w ++ [section_call f s]
               /\ res = text_of (api e (length (api_log w)) (section_call f s))
          else api_log w' = api_log w /\ res = None)
  | (inr x, w') =>
      session w' = session w
      /\ api_log w' = api_log w ++ [section_call f s]
      /\ client g = true
      /\ host_fault e <> None
  end.
Proof.
  unfold generate_section. destruct (client g); cbn.
  2:{ auto. }
  fold (section_call f s).
  destruct (api e (length (api_log w)) (section_call f s)) as [t|m] eqn:Hr; cbn.
  - auto.
  - unfold bind.
    destruct (host_call_inv (StError (U "セクション生成エラー: " ++ m))
                (log_api (section_call f s) w)) as [-> | (msg & -> & Hf)]; cbn.
    + rewrite progress_values_app. cbn. rewrite app_nil_r. auto.
    + auto.
Qed.

Lemma progress_bar_progress_inv (v : Z) (w : world) :
  (0 <= v <= 100)%Z ->
  progress_bar_progress e v w = host_call e (ProgressBar v) w.
Proof.
  intros H. unfold progress_bar_progress.
  replace ((0 <=? v)%Z && (v <=? 100)%Z) with true; [reflexivity|].
  symmetry. apply andb_true_iff. split; apply Z.leb_le; lia.
Qed.

Lemma section_loop_spec (g : generator) (f : form) (N : nat) :
  forall (secs : list section) (i : nat) (acc : list pystr) (w : world),
    (i + length secs = N)%nat ->
    match section_loop e g (keyword f) (genre f) N i secs acc w with
    | (inl r, w') =>
        session w' = session w
        /\ (if client g
            then api_log w' = api_log w ++ map (section_call f) secs
                 /\ r = acc ++ bodies (section_answers e f (length (api_log w)) secs)
            else api_log w' = api_log w /\ r = acc)
        /\ progress_values (ui_log w')
           = progress_values (ui_log w) ++ map (nth_progress N) (seq i (length secs))
    | (inr x, w') =>
        session w' = session w
        /\ (exists k, api_log w' = api_log w
                       ++ if client g then map (section_call f) (firstn k secs) else [])
        /\ host_fault e <> None
    end.
Proof.
  induction secs as [|s rest IH]; intros i acc w HN.
  - cbn. rewrite !app_nil_r. destruct (client g); auto.
  - assert (HN' : (S i + length rest = N)%nat) by (cbn in HN; lia).
    assert (Hi : (i < N)%nat) by lia.
    cbn [section_loop]. unfold bind at 1.
    unfold section_progress.
    assert (HN0 : Nat.eqb N 0 = false) by (apply Nat.eqb_neq; lia).
    rewrite HN0. unfold ret at 1.
    unfold bind at 1.
    rewrite progress_fraction by lia.
    fold (nth_progress N i).
    rewrite progress_bar_progress_inv
      by (pose proof (@nth_progress_range N i); lia).
    destruct (host_call_inv (ProgressBar (nth_progress N i)) w)
      as [-> | (msg & -> & Hf)].
    2:{ cbn. repeat split; auto. exists 0%nat. cbn.
        destruct (client g); now rewrite app_nil_r. }
    unfold bind at 1.
    destruct (host_call_inv (StatusText (section_status i N))
                (log_ui (ProgressBar (nth_progress N i)) (tick w)))
      as [-> | (msg & -> & Hf)].
    2:{ cbn. repeat split; auto. exists 0%nat. cbn.
        destruct (client g); now rewrite app_nil_r. }
    unfold bind at 1.
    set (w1 := log_ui (StatusText (section_status i N))
                 (tick (log_ui (ProgressBar (nth_progress N i)) (tick w)))).
    pose proof (generate_section_spec g f s w1) as Hg.
    destruct (generate_section e g (keyword f) (title s) (subsections s)
                (section_context (keyword f) (genre f)) w1) as [[res|x] w2].
    2:{ destruct Hg as (Hs & Ha & Hc & Hf). repeat split; auto.
        exists 1%nat. rewrite Hc. cbn. exact Ha. }
    destruct Hg as (Hs & Hp & Hc).
    specialize (IH (S i)
                  (match res with Some (c :: text) => acc ++ [c :: text] | _ => acc end)
                  w2 HN').
    destruct (section_loop e g (keyword f) (genre f) N (S i) rest _ w2)
      as [[r|x] w3].
    + destruct IH as (Hs3 & Hc3 & Hp3).
      split; [rewrite Hs3, Hs; reflexivity|]. split.
      * destruct (client g).
        -- destruct Hc as (Ha & ->). destruct Hc3 as (Ha3 & ->).
           split.
           ++ rewrite Ha3, Ha. cbn. now rewrite <- app_assoc.
           ++ rewrite Ha, length_app. cbn [length section_answers].
              replace (length (api_log w1) + 1)%nat
                with (S (length (api_log w))) by (unfold w1; cbn; lia).
              apply bodies_cons.
        -- destruct Hc as (Ha & ->). destruct Hc3 as (Ha3 & ->).
           split; [rewrite Ha3, Ha; reflexivity | reflexivity].
      * rewrite Hp3, Hp. unfold w1. cbn.
        rewrite !progress_values_app. cbn.
        rewrite <- !app_assoc. reflexivity.
    + destruct IH as (Hs3 & (k & Ha3) & Hf).
      split; [rewrite Hs3, Hs; reflexivity|]. split; [|exact Hf].
      destruct (client g).
      * destruct Hc as (Ha & _). exists (S k). rewrite Ha3, Ha. cbn.
        now rewrite <- app_assoc.
      * destruct Hc as (Ha & _). exists 0%nat. rewrite Ha3, Ha. reflexivity.
Qed.


Ltac host_step :=
  try unfold bind at 1;
  match goal with
  | |- context [host_call e ?ev ?w] =>
      destruct (host_call_inv ev w) as [-> | (? & -> & ?)]
  end.

Lemma generate_outline_spec (g : generator) (f : form) (w : world) :
  match generate_outline e g (keyword f) (genre f) (target_audience f)
          (sub_keywords f) (article_length f) (specific_approach f) w with
  | (inl res, w') =>
      session w' = session w
      /\ progress_values (ui_log w') = progress_values (ui_log w)
      /\ (exists evs, ui_log w' = ui_log w ++ evs)
      /\ (if client g
          then api_log w' = api_log w ++ [outline_call f]
               /\ res = text_of (api e (length (api_log w)) (outline_call f))
          else api_log w' = api_log w /\ res = None)
  | (inr x, w') =>
      session w' = session w
      /\ api_log w' = api_log w ++ [outline_call f]
      /\ client g = true
      /\ host_fault e <> None
  end.
Proof.
  unfold generate_outline. destruct (client g); cbn.
  2:{ repeat split; auto. exists []. now rewrite app_nil_r. }
  fold (outline_call f).
  destruct (api e (length (api_log w)) (outline_call f)) as [t|m] eqn:Hr; cbn.
  - repeat split; auto. exists []. now rewrite app_nil_r.
  - host_step; cbn.
    + rewrite progress_values_app. cbn. rewrite app_nil_r.
      repeat split; auto. eexists. reflexivity.
    + auto.
Qed.



Lemma generation_calls_sections (f : form) (secs : list section) :
  generation_calls (map (section_call f) secs).
Proof.
  unfold generation_calls. apply Forall_forall. intros c Hc.
  apply in_map_iff in Hc as (s & <- & _). discriminate.
Qed.

Lemma generation_steps_spec (g : generator) (f : form) (w : world) :
  match generation_steps e g f w with
  | (inl (Some (art, contents)), w') =>
      session w' = session w
      /\ client g = true
      /\ exists c text,
           api e (length (api_log w)) (outline_call f) = Completion (c :: text)
           /\ let structure := extract_outline_structure (c :: text) in
              contents = bodies (section_answers e f (S (length (api_log w)))
                                   (sections structure))
              /\ art = assemble structure (selected_title (session w)) contents
                         (keyword f) (target_audience f)
              /\ api_log w' = api_log w ++ outline_call f
                                :: map (section_call f) (sections structure)
              /\ progress_values (ui_log w')
                 = progress_values (ui_log w)
                   ++ 25%Z :: 35%Z
                      :: map (nth_progress (length (sections structure)))
                           (seq 0 (length (sections structure)))
                   ++ [95%Z; 100%Z]
  | (inl None, w') =>
      session w' = session w
      /\ (client g = false
          \/ succeeded (api e (length (api_log w)) (outline_call f)) = false)
      /\ api_log w' = api_log w ++ (if client g then [outline_call f] else [])
      /\ exists evs, ui_log w' = ui_log w ++ evs ++ [StError OUTLINE_FAILED]
  | (inr x, w') =>
      session w' = session w
      /\ host_fault e <> None
      /\ exists calls, api_log w' = api_log w ++ calls /\ generation_calls calls
  end.
Proof.
  unfold generation_steps.
  host_step.
  2:{ cbn [session api_log log_ui tick]. split; [reflexivity|].
      split; [assumption|].
      exists []. split; [now rewrite app_nil_r|constructor]. }
  unfold bind at 1. rewrite progress_bar_progress_inv by lia.
  host_step.
  2:{ cbn [session api_log log_ui tick]. split; [reflexivity|].
      split; [assumption|].
      exists []. split; [now rewrite app_nil_r|constructor]. }
  set (w1 := log_ui (ProgressBar 25) _).
  pose proof (generate_outline_spec g f w1) as Ho.
  destruct (generate_outline e g (keyword f) (genre f) (target_audience f)
              (sub_keywords f) (article_length f) (specific_approach f) w1)
    as [[outline|x] w2].
  2:{ destruct Ho as (Hs & Ha & Hc & Hf). split; [exact Hs|].
      split; [exact Hf|].
      exists [outline_call f]. split; [exact Ha|].
      constructor; [discriminate|constructor]. }
  destruct Ho as (Hs & Hp & (evs & Hu) & Hc).
  assert (Hfail : match outline with Some (_ :: _) => False | _ => True end ->
                  client g = false
                  \/ succeeded (api e (length (api_log w)) (outline_call f)) = false).
  { intros Ht. destruct (client g); [right|now left].
    destruct Hc as (_ & ->). unfold w1 in Ht. cbn [api_log log_ui tick] in Ht.
    destruct (api e (length (api_log w)) (outline_call f)) as [[|c t]|m];
      cbn [text_of succeeded] in *; auto; contradiction. }
  assert (Hlog : api_log w2 = api_log w ++ (if client g then [outline_call f] else [])).
  { destruct (client g); destruct Hc as (-> & _); unfold w1;
      cbn [api_log log_ui tick]; rewrite ?app_nil_r; reflexivity. }
  assert (Hnone :
    match (host_call e (StError OUTLINE_FAILED);; ret None)%pipeline w2
            : (option (pystr * list pystr) + exn) * world with
    | (inl (Some _), _) => False
    | (inl None, w') =>
        session w' = session w
        /\ api_log w' = api_log w ++ (if client g then [outline_call f] else [])
        /\ exists evs, ui_log w' = ui_log w ++ evs ++ [StError OUTLINE_FAILED]
    | (inr x, w') =>
        session w' = session w
        /\ host_fault e <> None
        /\ exists calls, api_log w' = api_log w ++ calls /\ generation_calls calls
    end).
  { host_step; cbn [session api_log ui_log log_ui tick ret].
    - split; [rewrite Hs; reflexivity|]. split; [exact Hlog|].
      rewrite Hu. unfold w1. cbn [ui_log log_ui tick].
      exists ([StatusText (U "ステップ1/4: 記事構成を生成中..."); ProgressBar 25] ++ evs).
      rewrite <- !app_assoc. reflexivity.
    - split; [rewrite Hs; reflexivity|]. split; [assumption|].
      exists (if client g then [outline_call f] else []). split; [exact Hlog|].
      destruct (client g); repeat constructor; discriminate. }
  destruct outline as [[|c text]|].
  1,3: (destruct ((host_call e (StError OUTLINE_FAILED);; ret None)%pipeline w2)
          as [[[?|]|?] ?]; [contradiction| |exact Hnone];
        destruct Hnone as (? & ? & ?); split; [assumption|]; split; [auto|];
        split; assumption).
  (* the outline was generated *)
  assert (Hcl : client g = true).
  { destruct (client g); [reflexivity|]. destruct Hc as (_ & Hc). discriminate. }
  rewrite Hcl in Hc, Hlog. destruct Hc as (Ha2 & Hans).
  unfold w1 in Hans. cbn [api_log log_ui tick] in Hans.
  assert (Hans' : api e (length (api_log w)) (outline_call f) = Completion (c :: text)).
  { destruct (api e (length (api_log w)) (outline_call f));
      cbn [text_of] in Hans; congruence. }
  set (structure := extract_outline_structure (c :: text)).
  host_step.
  2:{ cbn [session api_log log_ui tick]. split; [rewrite Hs; reflexivity|].
      split; [assumption|].
      exists [outline_call f]. split; [rewrite Hlog; reflexivity|].
      repeat constructor; discriminate. }
  unfold bind at 1. rewrite progress_bar_progress_inv by lia.
  host_step.
  2:{ cbn [session api_log log_ui tick]. split; [rewrite Hs; reflexivity|].
      split; [assumption|].
      exists [outline_call f]. split; [rewrite Hlog; reflexivity|].
      repeat constructor; discriminate. }
  host_step.
  2:{ cbn [session api_log log_ui tick]. split; [rewrite Hs; reflexivity|].
      split; [assumption|].
      exists [outline_call f]. split; [rewrite Hlog; reflexivity|].
      repeat constructor; discriminate. }
  unfold bind at 1.
  set (w3 := log_ui (StatusText _) _).
  pose proof (@section_loop_spec g f (length (sections structure))
                (sections structure) 0 [] w3 eq_refl) as Hl.
  destruct (section_loop e g (keyword f) (genre f) (length (sections structure)) 0
              (sections structure) [] w3) as [[contents|x] w4].
  2:{ destruct Hl as (Hs4 & (k & Ha4) & Hf). rewrite Hcl in Ha4.
      split; [|split; [exact Hf|]].
      - rewrite Hs4. unfold w3. cbn [session log_ui tick]. rewrite Hs. reflexivity.
      - exists (outline_call f :: map (section_call f) (firstn k (sections structure))).
        split.
        + rewrite Ha4. unfold w3. cbn [api_log log_ui tick].
          rewrite Hlog, <- app_assoc. reflexivity.
        + constructor; [discriminate|apply generation_calls_sections]. }
  rewrite Hcl in Hl. destruct Hl as (Hs4 & (Ha4 & Hr4) & Hp4).
  assert (Hs4' : session w4 = session w).
  { rewrite Hs4. unfold w3. cbn [session log_ui tick]. rewrite Hs. reflexivity. }
  assert (Ha4' : api_log w4 = api_log w ++ outline_call f
                               :: map (section_call f) (sections structure)).
  { rewrite Ha4. unfold w3. cbn [api_log log_ui tick].
    rewrite Hlog, <- app_assoc. reflexivity. }
  assert (Hfault : forall w', session w' = session w4 -> api_log w' = api_log w4 ->
            session w' = session w
            /\ host_fault e <> None -> 
            session w' = session w /\ host_fault e <> None
            /\ exists calls, api_log w' = api_log w ++ calls /\ generation_calls calls).
  { intros w' _ Ha' (Hs' & Hf). split; [exact Hs'|]. split; [exact Hf|].
    exists (outline_call f :: map (section_call f) (sections structure)).
    split; [rewrite Ha', Ha4'; reflexivity|].
    constructor; [discriminate|apply generation_calls_sections]. }
  host_step.
  2:{ apply Hfault; cbn [session api_log log_ui tick]; auto. }
  unfold bind at 1. rewrite progress_bar_progress_inv by lia.
  host_step.
  2:{ apply Hfault; cbn [session api_log log_ui tick]; auto. }
  unfold bind at 1. unfold get_session at 1. cbn [session log_ui tick].
  rewrite progress_bar_progress_inv by lia.
  host_step.
  2:{ apply Hfault; cbn [session api_log log_ui tick]; auto. }
  host_step.
  2:{ apply Hfault; cbn [session api_log log_ui tick]; auto. }
  cbn [ret session api_log ui_log log_ui tick].
  split; [exact Hs4'|]. split; [exact Hcl|].
  exists c, text. split; [exact Hans'|].
  fold structure. cbn zeta.
  assert (Hcontents : contents = bodies (section_answers e f (S (length (api_log w)))
                                          (sections structure))).
  { rewrite Hr4. cbn [app]. unfold w3. cbn [api_log log_ui tick].
    rewrite Hlog, length_app. cbn [length].
    replace (length (api_log w) + 1)%nat with (S (length (api_log w))) by lia.
    reflexivity. }
  split; [exact Hcontents|].
  split; [rewrite Hs4'; reflexivity|].
  split; [exact Ha4'|].
  rewrite !progress_values_app. cbn [progress_values app].
  rewrite Hp4. unfold w3. cbn [ui_log log_ui tick].
  rewrite !progress_values_app. cbn [progress_values app].
  rewrite Hp. unfold w1. cbn [ui_log log_ui tick].
  rewrite !progress_values_app. cbn [progress_values app].
  rewrite <- !app_assoc. cbn [app]. reflexivity.
Qed.



Lemma publish_steps_spec (art : pystr) (contents : list pystr) (w : world) :
  match publish_steps e art contents w with
  | (inl _, w') =>
      session w' = stored art (session w)
      /\ api_log w' = api_log w
      /\ ui_log w' = ui_log w ++ [StSuccess (success_message (length contents));
                                   Sleep; ProgressEmpty; StatusEmpty]
  | (inr x, w') =>
      session w' = stored art (session w)
      /\ api_log w' = api_log w
      /\ host_fault e <> None
  end.
Proof.
  unfold publish_steps.
  unfold bind at 1, get_session at 1.
  unfold bind at 1, put_session at 1.
  unfold bind at 1, get_session at 1.
  unfold bind at 1, put_session at 1.
  cbn [session set_session].
  host_step; [|cbn [session api_log tick set_session]; auto].
  host_step; [|cbn [session api_log tick log_ui set_session]; auto].
  host_step; [|cbn [session api_log tick log_ui set_session]; auto].
  host_step; [|cbn [session api_log tick log_ui set_session]; auto].
  cbn [session api_log ui_log tick log_ui set_session].
  rewrite <- !app_assoc. auto.
Qed.

Lemma fold_log_errors (errs : list pystr) (w : world) :
  let w' := fold_left (fun w error => log_ui (StError error) w) errs w in
  session w' = session w /\ api_log w' = api_log w
  /\ ui_log w' = ui_log w ++ map StError errs.
Proof.
  revert w. induction errs as [|m errs IH]; intros w; cbn.
  - now rewrite app_nil_r.
  - destruct (IH (log_ui (StError m) w)) as (-> & -> & ->). cbn.
    now rewrite <- app_assoc.
Qed.

Lemma new_generator_spec (key : pystr) (w : world) :
  let '(g, w') := new_generator e key w in
  session w' = session w /\ api_log w' = api_log w
  /\ progress_values (ui_log w') = progress_values (ui_log w)
  /\ (exists evs, ui_log w' = ui_log w ++ evs)
  /\ client g = match key, client_init e key with
                | _ :: _, None => true
                | _, _ => false
                end.
Proof.
  unfold new_generator. destruct key as [|c key]; cbn.
  - repeat split; auto. exists []. now rewrite app_nil_r.
  - destruct (client_init e (c :: key)); cbn.
    + rewrite progress_values_app. cbn. rewrite app_nil_r.
      repeat split; auto. eexists; reflexivity.
    + repeat split; auto. exists []. now rewrite app_nil_r.
Qed.




Lemma main_generate_spec (f : form) (w : world) :
  match main_generate e f w with
  | (NoApiKey, w') =>
      api_key f = [] /\ session w' = session w /\ api_log w' = api_log w
  | (Invalid errs, w') =>
      errs = errors (validate_inputs (keyword f) (genre f) (target_audience f))
      /\ is_valid (validate_inputs (keyword f) (genre f) (target_audience f)) = false
      /\ session w' = session w /\ api_log w' = api_log w
      /\ exists evs, ui_log w' = ui_log w ++ evs ++ map StError errs
  | (OutlineFailed, w') =>
      input_ok f
      /\ session w' = session w
      /\ (client_init e (api_key f) <> None
          \/ succeeded (api e (length (api_log w)) (outline_call f)) = false)
      /\ api_log w' = api_log w ++ match client_init e (api_key f) with
                                   | None => [outline_call f]
                                   | Some _ => []
                                   end
      /\ exists evs, ui_log w' = ui_log w ++ evs ++ [StError OUTLINE_FAILED]
  | (Completed n, w') =>
      input_ok f
      /\ client_init e (api_key f) = None
      /\ exists c text,
           api e (length (api_log w)) (outline_call f) = Completion (c :: text)
           /\ let structure := extract_outline_structure (c :: text) in
              let N := length (sections structure) in
              n = length (bodies (section_answers e f (S (length (api_log w)))
                                    (sections structure)))
              /\ session w' = stored (article_of e f w (c :: text)) (session w)
              /\ api_log w' = api_log w ++ outline_call f
                                :: map (section_call f) (sections structure)
              /\ progress_values (ui_log w')
                 = progress_values (ui_log w)
                   ++ 0%Z :: 25%Z :: 35%Z
                      :: map (nth_progress N) (seq 0 N) ++ [95%Z; 100%Z]
              /\ exists log, ui_log w' = log ++ [StSuccess (success_message n);
                                                  Sleep; ProgressEmpty; StatusEmpty]
  | (Raised x false, w') =>
      input_ok f
      /\ host_fault e <> None
      /\ session w' = session w
      /\ exists calls, api_log w' = api_log w ++ calls /\ generation_calls calls
  | (Raised x true, w') =>
      input_ok f
      /\ host_fault e <> None
      /\ exists c text,
           api e (length (api_log w)) (outline_call f) = Completion (c :: text)
           /\ session w' = stored (article_of e f w (c :: text)) (session w)
           /\ api_log w' = api_log w ++ outline_call f
                             :: map (section_call f)
                                  (sections (extract_outline_structure (c :: text)))
  end.
Proof.
  unfold main_generate.
  destruct (api_key f) as [|k0 key] eqn:Hkey; cbn [nonempty negb].
  { cbn. auto. }
  pose proof (new_generator_spec (k0 :: key) w) as Hg.
  destruct (new_generator e (k0 :: key) w) as [g w0].
  destruct Hg as (Hs0 & Ha0 & Hp0 & (evs0 & Hu0) & Hcl).
  destruct (is_valid (validate_inputs (keyword f) (genre f) (target_audience f)))
    eqn:Hv; cbn [negb].
  2:{ pose proof (fold_log_errors
                    (errors (validate_inputs (keyword f) (genre f) (target_audience f)))
                    w0) as (Hs1 & Ha1 & Hu1).
      split; [reflexivity|]. split; [reflexivity|].
      split; [rewrite Hs1; exact Hs0|]. split; [rewrite Ha1; exact Ha0|].
      exists evs0. rewrite Hu1, Hu0, <- app_assoc. reflexivity. }
  assert (Hok : input_ok f).
  { split; [rewrite Hkey; discriminate|exact Hv]. }
  set (w1 := log_ui (ProgressBar 0) w0).
  pose proof (generation_steps_spec g f w1) as Hgen.
  assert (Hlen : length (api_log w1) = length (api_log w)).
  { unfold w1. cbn [api_log log_ui]. now rewrite Ha0. }
  rewrite Hlen in Hgen.
  replace (api_log w1) with (api_log w) in Hgen
    by (unfold w1; cbn [api_log log_ui]; now rewrite Ha0).
  replace (session w1) with (session w) in Hgen
    by (unfold w1; cbn [session log_ui]; now rewrite Hs0).
  destruct (generation_steps e g f w1) as [[[[art contents]|]|x] w2].
  - (* assembled *)
    destruct Hgen as (Hs2 & Hc2 & c & text & Hans & Hcont & Hart & Ha2 & Hp2).
    cbn zeta in Hcont, Hart, Ha2, Hp2.
    assert (Hart' : art = article_of e f w (c :: text)).
    { unfold article_of. rewrite Hart, Hcont. reflexivity. }
    pose proof (publish_steps_spec art contents w2) as Hpub.
    destruct (publish_steps e art contents w2) as [[[]|x] w3].
    + destruct Hpub as (Hs3 & Ha3 & Hu3).
      split; [exact Hok|]. split.
      { rewrite Hc2 in Hcl. destruct (client_init e (k0 :: key)); congruence. }
      exists c, text. split; [exact Hans|]. cbn zeta.
      split; [rewrite Hcont; reflexivity|].
      split; [rewrite Hs3, Hs2, Hart'; reflexivity|].
      split; [rewrite Ha3; exact Ha2|].
      split.
      * rewrite Hu3, progress_values_app. cbn [progress_values].
        rewrite app_nil_r, Hp2. unfold w1. cbn [ui_log log_ui].
        rewrite progress_values_app, Hp0. cbn [progress_values].
        rewrite <- app_assoc. reflexivity.
      * exists (ui_log w2). exact Hu3.
    + destruct Hpub as (Hs3 & Ha3 & Hf).
      split; [exact Hok|]. split; [exact Hf|].
      exists c, text. split; [exact Hans|].
      cbn [session api_log on_exception log_ui].
      split; [rewrite Hs3, Hs2, Hart'; reflexivity|].
      rewrite Ha3. exact Ha2.
  - (* the outline failed *)
    destruct Hgen as (Hs2 & Hfail & Ha2 & (evs & Hu2)).
    split; [exact Hok|]. split; [exact Hs2|].
    rewrite Hcl in Hfail, Ha2.
    split; [|split].
    + destruct (client_init e (k0 :: key)); [left; discriminate|].
      destruct Hfail as [Hfail|Hfail]; [discriminate|now right].
    + rewrite Ha2. destruct (client_init e (k0 :: key)); reflexivity.
    + exists (evs0 ++ [ProgressBar 0%Z] ++ evs).
      rewrite Hu2. unfold w1. cbn [ui_log log_ui]. rewrite Hu0.
      rewrite <- !app_assoc. reflexivity.
  - (* an exception before the article is stored *)
    destruct Hgen as (Hs2 & Hf & calls & Ha2 & Hcalls).
    split; [exact Hok|]. split; [exact Hf|].
    cbn [session api_log on_exception log_ui].
    split; [exact Hs2|]. exists calls. auto.
Qed.

End PipelineFacts.

(* ================================================================= *)
(** ** Properties of the handlers *)

Section PipelineClaims.

Variable e : env.



Lemma select_title_api_log (f : form) (w : world) :
  api_log (select_title f w) = api_log w.
Proof.
  unfold select_title.
  destruct (generated_titles (session w)) as [td|]; [|reflexivity].
  destruct (title_candidates td) as [|t ts]; [reflexivity|].
  destruct (nth_error (t :: ts) (title_selection f));
    destruct (nonempty (recommended_title td)); reflexivity.
Qed.




(** C3.  A request whose keyword is empty, all whitespace or shorter
    than two characters after trimming, or whose genre or target audience
    is empty, gets a non-empty list of validation errors; the article
    handler then issues no generation call and stays Idle.  A keyword of
    exactly two characters after trimming, with genre and target audience
    present, passes validation. *)
Theorem C3_validation_gate (f : form) (w : world) :
  (keyword f = [] \/ forallb isspace (keyword f) = true
   \/ (length (strip (keyword f)) < 2)%nat
   \/ genre f = [] \/ target_audience f = [] ->
   errors (validate_inputs (keyword f) (genre f) (target_audience f)) <> []
   /\ state_of (fst (main_generate e f w)) = Idle
   /\ api_log (snd (main_generate e f w)) = api_log w)
  /\ (length (strip (keyword f)) = 2%nat ->
      genre f <> [] -> target_audience f <> [] ->
      is_valid (validate_inputs (keyword f) (genre f) (target_audience f)) = true
      /\ errors (validate_inputs (keyword f) (genre f) (target_audience f)) = []).
Proof.
  split.
  - intros H.
    assert (Hv : is_valid (validate_inputs (keyword f) (genre f) (target_audience f))
                 = false).
    { destruct (is_valid _) eqn:Hv; [|reflexivity].
      apply validate_inputs_valid_iff in Hv as (Hk & Hg & Ha).
      assert (Hlen : ~ (length (strip (keyword f)) < 2)%nat).
      { intros Hl. apply keyword_too_short_spec in Hl. congruence. }
      destruct H as [H | [H | [H | [H | H]]]]; try contradiction.
      - rewrite H in Hlen. cbn in Hlen. lia.
      - rewrite (strip_all_space _ H) in Hlen. cbn in Hlen. lia. }
    split.
    { intros He. apply validate_inputs_errors_valid in He. congruence. }
    pose proof (main_generate_spec e f w) as Hm.
    destruct (main_generate e f w) as [[| errs | | n | x [|]] w']; cbn [fst snd state_of].
    + split; [reflexivity|]. tauto.
    + split; [reflexivity|]. tauto.
    + destruct Hm as ((_ & Hok) & _). congruence.
    + destruct Hm as ((_ & Hok) & _). congruence.
    + destruct Hm as ((_ & Hok) & _). congruence.
    + destruct Hm as ((_ & Hok) & _). congruence.
  - intros Hlen Hg Ha.
    assert (Hv : is_valid (validate_inputs (keyword f) (genre f) (target_audience f))
                 = true).
    { apply validate_inputs_valid_iff. split; [|tauto].
      destruct (keyword_too_short (keyword f)) eqn:Hk; [|reflexivity].
      apply keyword_too_short_spec in Hk. lia. }
    split; [exact Hv|]. now apply validate_inputs_errors_valid.
Qed.

(** C2.  When the outline call fails or returns an empty text (or no
    client could be built), the run ends in Failed, the last message
    shown is the outline-stage error, the calls issued are outline calls
    only (no section call), and the session, with the stored article
    and the completion flag, is unchanged. *)
Theorem C2_outline_failure_ends_run (f : form) (w : world) :
  host_fault e = None ->
  input_ok f ->
  client_init e (api_key f) <> None
  \/ succeeded (api e (length (api_log w)) (outline_call f)) = false ->
  exists w',
    main_generate e f w = (OutlineFailed, w')
    /\ state_of OutlineFailed = Failed
    /\ (exists evs, ui_log w' = ui_log w ++ evs ++ [StError OUTLINE_FAILED])
    /\ (exists calls, api_log w' = api_log w ++ calls
                      /\ Forall (fun c => call_stage c = OutlineStage) calls)
    /\ session w' = session w.
Proof.
  intros Hnf (Hkey & Hv) Hfail.
  pose proof (main_generate_spec e f w) as Hm.
  destruct (main_generate e f w) as [[| errs | | n | x [|]] w'].
  - destruct Hm as (Hk & _). contradiction.
  - destruct Hm as (_ & Hv' & _). congruence.
  - destruct Hm as (_ & Hs & _ & Ha & Hu).
    exists w'. split; [reflexivity|]. split; [reflexivity|].
    split; [exact Hu|]. split; [|exact Hs].
    eexists. split; [exact Ha|].
    destruct (client_init e (api_key f)); repeat constructor.
  - destruct Hm as (_ & Hc & c & text & Hans & _).
    destruct Hfail as [Hfail|Hfail]; [contradiction|].
    rewrite Hans in Hfail. discriminate.
  - destruct Hm as (_ & Hf & _). contradiction.
  - destruct Hm as (_ & Hf & _). contradiction.
Qed.

(** A run with a working host, valid input, a client and a non-empty
    outline text completes. *)
Lemma main_generate_completes (f : form) (w : world) (c : char) (text : pystr) :
  host_fault e = None ->
  input_ok f ->
  client_init e (api_key f) = None ->
  api e (length (api_log w)) (outline_call f) = Completion (c :: text) ->
  let structure := extract_outline_structure (c :: text) in
  let N := length (sections structure) in
  let contents := bodies (section_answers e f (S (length (api_log w)))
                            (sections structure)) in
  exists w',
    main_generate e f w = (Completed (length contents), w')
    /\ session w' = stored (article_of e f w (c :: text)) (session w)
    /\ api_log w' = api_log w ++ outline_call f
                      :: map (section_call f) (sections structure)
    /\ progress_values (ui_log w')
       = progress_values (ui_log w)
         ++ 0%Z :: 25%Z :: 35%Z :: map (nth_progress N) (seq 0 N) ++ [95%Z; 100%Z]
    /\ exists log, ui_log w' = log ++ [StSuccess (success_message (length contents));
                                        Sleep; ProgressEmpty; StatusEmpty].
Proof.
  intros Hnf (Hkey & Hv) Hcl Hans structure N contents.
  pose proof (main_generate_spec e f w) as Hm.
  destruct (main_generate e f w) as [[| errs | | n | x [|]] w'].
  - destruct Hm as (Hk & _). contradiction.
  - destruct Hm as (_ & Hv' & _). congruence.
  - destruct Hm as (_ & _ & [Hf|Hf] & _); [contradiction|].
    rewrite Hans in Hf. discriminate.
  - destruct Hm as (_ & _ & c' & text' & Hans' & Hm).
    rewrite Hans in Hans'. injection Hans' as <- <-.
    cbn zeta in Hm. destruct Hm as (-> & Hs & Ha & Hp & Hl).
    exists w'. split; [reflexivity|]. split; [exact Hs|].
    split; [exact Ha|]. split; [exact Hp|exact Hl].
  - destruct Hm as (_ & Hf & _). contradiction.
  - destruct Hm as (_ & Hf & _). contradiction.
Qed.


Lemma fold_left_append (contents : list pystr) (acc : pystr) :
  fold_left (fun acc content => acc ++ (content ++ [NL; NL])) contents acc
  = acc ++ concat (map (fun body => body ++ [NL; NL]) contents).
Proof.
  revert acc. induction contents as [|b bs IH]; intros acc; cbn [fold_left map concat].
  - now rewrite app_nil_r.
  - rewrite IH, <- app_assoc. reflexivity.
Qed.

Lemma assemble_layout (structure : outline_structure) (selected : pystr)
    (contents : list pystr) (kw aud : pystr) :
  assemble structure selected contents kw aud
  = article_layout (intro structure) selected contents kw aud.
Proof.
  unfold assemble, article_layout, title_heading, closing.
  rewrite fold_left_append.
  destruct (nonempty selected); rewrite <- ?app_assoc; cbn [app];
    rewrite <- ?app_assoc; reflexivity.
Qed.







Lemma nth_progress_floor (N i : nat) :
  (0 < N)%nat ->
  nth_progress N i
  = Qfloor (35 + 50 * inject_Z (Z.of_nat (S i)) / inject_Z (Z.of_nat N))%Q.
Proof.
  intros HN. unfold nth_progress.
  destruct N as [|n]; [lia|].
  set (p := Pos.of_succ_nat n).
  replace (Z.of_nat (S n)) with (Zpos p) by (unfold p; lia).
  assert (Hx : (35 + 50 * inject_Z (Z.of_nat (S i)) / inject_Z (Zpos p)
                == (35 * Zpos p + 50 * (Z.of_nat i + 1)) # p)%Q).
  { unfold Qeq, Qdiv, Qinv, Qmult, Qplus, inject_Z. cbn [Qnum Qden].
    rewrite ?Pos.mul_1_l. rewrite Nat2Z.inj_succ. ring. }
  rewrite Hx. unfold Qfloor.
  rewrite (Z.add_comm (35 * Z.pos p)), Z.div_add by lia. lia.
Qed.

(** C9.  In a run that reaches the section loop with N sections, the
    percentages shown are 0, 25, 35, then for the sections i = 1..N the
    integer part of 35 + 50 * i / N, then 95 and 100.  When N = 0 the
    run still completes: no division by zero is raised, the only call
    issued is the outline call, and the article has no section
    body. *)
Theorem C9_section_progress (f : form) (w : world) (c : char) (text : pystr) :
  host_fault e = None ->
  input_ok f ->
  client_init e (api_key f) = None ->
  api e (length (api_log w)) (outline_call f) = Completion (c :: text) ->
  let structure := extract_outline_structure (c :: text) in
  let N := length (sections structure) in
  exists n w',
    main_generate e f w = (Completed n, w')
    /\ progress_values (ui_log w')
       = progress_values (ui_log w)
         ++ [0; 25; 35]%Z
         ++ map (fun i => Qfloor (35 + 50 * inject_Z (Z.of_nat i)
                                       / inject_Z (Z.of_nat N))%Q)
              (seq 1 N)
         ++ [95; 100]%Z
    /\ (N = 0%nat ->
        n = 0%nat
        /\ api_log w' = api_log w ++ [outline_call f]
        /\ generated_article (session w')
           = article_layout (intro structure) (selected_title (session w)) []
               (keyword f) (target_audience f)).
Proof.
  intros Hnf Hok Hcl Hans structure N.
  destruct (main_generate_completes f w c text Hnf Hok Hcl Hans)
    as (w' & Hm & Hs & Ha & Hp & _).
  fold structure in Hm, Ha, Hp. fold N in Hp.
  eexists. exists w'. split; [exact Hm|]. split.
  - rewrite Hp. cbn [app]. do 4 f_equal.
    rewrite <- seq_shift, map_map. f_equal. apply map_ext_in.
    intros i Hi. apply in_seq in Hi. apply nth_progress_floor. lia.
  - intros HN.
    assert (Hsec : sections structure = []).
    { destruct (sections structure); [reflexivity|discriminate]. }
    rewrite Hsec in *. cbn [section_answers bodies length map] in *.
    split; [reflexivity|]. split; [exact Ha|].
    rewrite Hs. unfold article_of. fold structure. rewrite Hsec.
    cbn [section_answers bodies]. rewrite assemble_layout. reflexivity.
Qed.

(** C7 (amended).  In every run that completes, the stored article is,
    in this order: the intro block (label and intro text), the body
    label, the heading of the selected title when there is one, the
    intro text again, each accumulated section body in call order
    followed by a blank line, and the closing section, which contains the
    keyword and the target audience verbatim. *)
Theorem C7_article_layout (f : form) (w w' : world) (n : nat) :
  main_generate e f w = (Completed n, w') ->
  exists c text,
    api e (length (api_log w)) (outline_call f) = Completion (c :: text)
    /\ let structure := extract_outline_structure (c :: text) in
       let contents := bodies (section_answers e f (S (length (api_log w)))
                                 (sections structure)) in
       n = length contents
       /\ generated_article (session w')
          = U "**導入文:** " ++ intro structure ++ [NL; NL]
            ++ U "**記事本文:**" ++ [NL; NL]
            ++ (if nonempty (selected_title (session w))
                then U "# " ++ selected_title (session w) ++ [NL; NL]
                else [])
            ++ intro structure ++ [NL; NL]
            ++ concat (map (fun body => body ++ [NL; NL]) contents)
            ++ U "## まとめ" ++ [NL; NL]
            ++ U "本記事では、" ++ keyword f ++ U "について詳しく解説しました。"
            ++ U "各ポイントを実践することで、" ++ target_audience f
            ++ U "の方でも効果的に活用できるでしょう。".
Proof.
  intros Hm.
  pose proof (main_generate_spec e f w) as H. rewrite Hm in H.
  destruct H as (_ & _ & c & text & Hans & H). cbn zeta in H.
  destruct H as (Hn & Hs & _).
  exists c, text. split; [exact Hans|]. cbn zeta. split; [exact Hn|].
  rewrite Hs. unfold article_of. cbn [stored with_generation_completed
    with_generated_article generated_article].
  rewrite assemble_layout. reflexivity.
Qed.


End PipelineClaims.

(* ================================================================= *)
(** ** The search of the title parser *)

Section SearchFacts.

Open Scope N_scope.

Lemma search_here (lit s g : pystr) :
  Re.match_here lit s = Some g -> Re.search lit s = Some g.
Proof. intros H. destruct s; cbn [Re.search]; now rewrite H. Qed.





Lemma startswith_app (lit s : pystr) : startswith lit (lit ++ s) = true.
Proof.
  induction lit as [|c lit IH]; [reflexivity|].
  cbn [app startswith]. now rewrite N.eqb_refl, IH.
Qed.

Lemma skipn_length_app (lit s : pystr) : skipn (length lit) (lit ++ s) = s.
Proof. induction lit as [|c lit IH]; [reflexivity|exact IH]. Qed.



Lemma line_prefix_line (t s : pystr) :
  forallb (fun c => negb (c =? NL)) t = true ->
  Re.line_prefix (t ++ NL :: s) = t.
Proof.
  induction t as [|c t IH]; cbn [app Re.line_prefix forallb].
  - now rewrite N.eqb_refl.
  - intros H. apply andb_true_iff in H as (Hc & Ht).
    apply negb_true_iff in Hc. rewrite Hc. now rewrite IH.
Qed.















Lemma fold_titles_step (response : pystr) (l : list nat) (acc : list pystr) :
  fold_left (titles_step response) l acc
  = acc ++ flat_map (fun i => match Re.search (item_literal i) response with
                              | Some g => [strip g]
                              | None => []
                              end) l.
Proof.
  revert acc. induction l as [|i l IH]; intros acc; cbn [fold_left flat_map].
  - now rewrite app_nil_r.
  - rewrite IH. unfold titles_step.
    destruct (Re.search (item_literal i) response);
      rewrite <- ?app_assoc; reflexivity.
Qed.



End SearchFacts.

(* ================================================================= *)
(** ** The parsers on texts without marks, and the outline parser *)

Section ParserFacts.

Open Scope N_scope.

Lemma startswith_spec (p s : pystr) :
  startswith p s = true <-> exists b, s = p ++ b.
Proof.
  revert s. induction p as [|x p IH]; intros s; cbn [startswith app].
  - split; [intros _; now exists s|reflexivity].
  - destruct s as [|y s].
    + split; [discriminate|intros (b & Hb); discriminate].
    + rewrite andb_true_iff, N.eqb_eq, IH. split.
      * intros (-> & b & ->). now exists b.
      * intros (b & Hb). injection Hb as -> ->. split; [reflexivity|now exists b].
Qed.

Lemma contains_spec (p s : pystr) :
  contains p s = true <-> exists a b, s = a ++ p ++ b.
Proof.
  induction s as [|c s IH]; cbn [contains].
  - rewrite orb_false_r, startswith_spec. split.
    + intros (b & Hb). now exists [], b.
    + intros (a & b & Hab). destruct a; [now exists b|discriminate].
  - rewrite orb_true_iff, startswith_spec, IH. split.
    + intros [(b & Hb) | (a & b & Hab)].
      * now exists [], b.
      * exists (c :: a), b. now rewrite Hab.
    + intros (a & b & Hab). destruct a as [|c' a].
      * left. now exists b.
      * right. injection Hab as _ ->. now exists a, b.
Qed.

Lemma contains_within (p s a b : pystr) :
  contains p s = true -> contains p (a ++ s ++ b) = true.
Proof.
  rewrite !contains_spec. intros (a' & b' & ->).
  exists (a ++ a'), (b' ++ b). now rewrite <- !app_assoc.
Qed.


Lemma lstrip_suffix (s : pystr) : exists ws, s = ws ++ lstrip s.
Proof.
  induction s as [|c s (ws & IH)]; [now exists []|].
  cbn [lstrip]. destruct (isspace c).
  - exists (c :: ws). cbn [app]. now rewrite <- IH.
  - now exists [].
Qed.

Lemma strip_within (s : pystr) : exists a b, s = a ++ strip s ++ b.
Proof.
  unfold strip, rstrip.
  destruct (lstrip_suffix s) as (a & Ha).
  destruct (lstrip_suffix (rev (lstrip s))) as (b & Hb).
  exists a, (rev b). rewrite <- rev_app_distr, <- Hb, rev_involutive. exact Ha.
Qed.








Lemma outline_step_titles (st : list section * option section) (raw : pystr) :
  titles_so_far (outline_step st raw)
  = titles_so_far st
    ++ if opens_section (strip raw) then [replace H2 [] (strip raw)] else [].
Proof.
  destruct st as [secs cur]. unfold outline_step, opens_section.
  destruct (startswith H2 (strip raw) && negb (startswith H2_SUMMARY (strip raw))).
  - unfold titles_so_far. cbn [fst snd].
    destruct cur; rewrite !map_app; cbn [map title app];
      rewrite ?app_nil_r; reflexivity.
  - rewrite app_nil_r.
    destruct (startswith H3 (strip raw)); [|reflexivity].
    destruct cur; [|reflexivity].
    unfold titles_so_far. cbn [fst snd]. rewrite !map_app. reflexivity.
Qed.

Lemma outline_fold_titles (lines : list pystr) :
  forall st,
    titles_so_far (fold_left outline_step lines st)
    = titles_so_far st
      ++ map (replace H2 []) (filter opens_section (map strip lines)).
Proof.
  induction lines as [|l lines IH]; intros st; cbn [fold_left map filter].
  - now rewrite app_nil_r.
  - rewrite IH, outline_step_titles, <- app_assoc.
    destruct (opens_section (strip l)); reflexivity.
Qed.

(** The sections of an outline are, in order, the stripped lines that
    start with the second-level marker and not with the closing heading:
    a closing heading never opens a section. *)
Lemma outline_section_titles (outline : pystr) :
  map title (sections (extract_outline_structure outline))
  = map (replace H2 [])
      (filter opens_section (map strip (split_lines outline))).
Proof.
  unfold extract_outline_structure.
  pose proof (outline_fold_titles (split_lines outline) ([], None)) as H.
  destruct (fold_left outline_step (split_lines outline) ([], None)) as [secs cur].
  cbn [sections]. unfold titles_so_far in H. cbn [fst snd app map] in H.
  rewrite <- H. destruct cur; rewrite ?app_nil_r; reflexivity.
Qed.

(** Before the first section is opened, a line that does not open one
    (a third-level heading included) is dropped. *)
Lemma outline_step_before_first_section (raw : pystr) :
  opens_section (strip raw) = false ->
  outline_step ([], None) raw = ([], None).
Proof.
  unfold outline_step, opens_section. intros ->.
  destruct (startswith H3 (strip raw)); reflexivity.
Qed.

(** A closing heading changes nothing: the section that was open stays
    open, so the third-level lines after it are still appended to
    it. *)
Lemma outline_step_closing_heading (st : list section * option section)
    (raw : pystr) :
  startswith H2_SUMMARY (strip raw) = true ->
  outline_step st raw = st.
Proof.
  intros H. destruct st as [secs cur]. unfold outline_step. rewrite H.
  rewrite andb_false_r.
  assert (H3' : startswith H3 (strip raw) = false).
  { apply startswith_spec in H as (b & ->). reflexivity. }
  now rewrite H3'.
Qed.

End ParserFacts.

(* ================================================================= *)
(** ** The rational model of line 536 against binary64 *)

(** For outlines of up to 120 sections the percentage computed in
    binary64 is the one computed with exact rationals. *)
Lemma float_progress_agrees :
  forallb (fun N => forallb (fun i => Z.eqb (Binary64.float_progress N i)
                                        (nth_progress N i))
                      (seq 0 N))
    (seq 1 120) = true.
Proof. vm_compute. reflexivity. Qed.

(* ================================================================= *)
(** ** The scenarios *)

Section Scenarios.

Import Scenario.

Lemma request_ok : input_ok request.
Proof. split; [discriminate|reflexivity]. Defined.



(** C2, at scenario C: the outline call fails. *)
Lemma C2_witness :
  (host_fault outline_fails = None
   /\ input_ok request
   /\ (client_init outline_fails (api_key request) <> None
       \/ succeeded (api outline_fails (length (api_log initial_world))
                       (outline_call request)) = false))
  /\ exists w',
       main_generate outline_fails request initial_world = (OutlineFailed, w')
       /\ state_of OutlineFailed = Failed
       /\ (exists evs, ui_log w' = ui_log initial_world ++ evs ++ [StError OUTLINE_FAILED])
       /\ (exists calls, api_log w' = api_log initial_world ++ calls
                         /\ Forall (fun c => call_stage c = OutlineStage) calls)
       /\ session w' = session initial_world.
Proof.
  split.
  - split; [reflexivity|]. split; [exact request_ok|]. right. reflexivity.
  - exact (C2_outline_failure_ends_run outline_fails request initial_world
             eq_refl request_ok (or_intror eq_refl)).
Defined.

(** C3, at two requests: a keyword of one character after trimming is
    refused; a keyword of two characters passes. *)
Lemma C3_witness :
  ((length (strip (keyword short_keyword)) < 2)%nat
   /\ errors (validate_inputs (keyword short_keyword) (genre short_keyword)
                (target_audience short_keyword)) <> []
   /\ state_of (fst (main_generate all_succeed short_keyword initial_world)) = Idle
   /\ api_log (snd (main_generate all_succeed short_keyword initial_world))
      = api_log initial_world)
  /\ (length (strip (keyword two_char_keyword)) = 2%nat
      /\ genre two_char_keyword <> []
      /\ target_audience two_char_keyword <> []
      /\ is_valid (validate_inputs (keyword two_char_keyword)
                     (genre two_char_keyword) (target_audience two_char_keyword))
         = true).
Proof.
  assert (H1 : (length (strip (keyword short_keyword)) < 2)%nat).
  { vm_compute. lia. }
  assert (H2 : length (strip (keyword two_char_keyword)) = 2%nat) by reflexivity.
  assert (Hg : genre two_char_keyword <> []) by discriminate.
  assert (Ha : target_audience two_char_keyword <> []) by discriminate.
  split.
  - split; [exact H1|].
    exact (proj1 (C3_validation_gate all_succeed short_keyword initial_world)
             (or_intror (or_intror (or_introl H1)))).
  - split; [exact H2|]. split; [exact Hg|]. split; [exact Ha|].
    exact (proj1 (proj2 (C3_validation_gate all_succeed two_char_keyword
                           initial_world) H2 Hg Ha)).
Defined.




(** C6, where the code departs from it.  The outline of the scenarios
    is in the format the outline prompt asks for (lines 200-220); the
    point under its closing heading ends up among the subsections of
    section 3, although a second-level heading line, the closing one,
    lies between them. *)
Theorem C6_closing_points_join_last_section :
  sections (extract_outline_structure outline_text)
  = [ {| title := U "1. Plan";
         subsections := [U "1-1. Goals"; U "1-2. Priorities"] |};
      {| title := U "2. Focus"; subsections := [U "2-1. Blocks"] |};
      {| title := U "3. Review";
         subsections := [U "3-1. Notes"; U "Key point"] |} ].
Proof. reflexivity. Qed.

(** C7 as stated fails: with a selected title the article does not
    start with the title heading but with the intro block and the body
    label; the heading comes after them. *)
Lemma C7_counterexample :
  selected_title (session titled_world) = U "Time Management 101"
  /\ fst (main_generate all_succeed request titled_world) = Completed 3
  /\ startswith (U "# Time Management 101")
       (generated_article
          (session (snd (main_generate all_succeed request titled_world))))
     = false
  /\ startswith (U "**導入文:** Time is short." ++ [NL; NL]
                 ++ U "**記事本文:**" ++ [NL; NL]
                 ++ U "# Time Management 101")
       (generated_article
          (session (snd (main_generate all_succeed request titled_world))))
     = true.
Proof. repeat split. Qed.

(** C7, at scenario A with a selected title. *)
Lemma C7_witness :
  main_generate all_succeed request titled_world
  = (Completed 3, snd (main_generate all_succeed request titled_world))
  /\ generated_article
       (session (snd (main_generate all_succeed request titled_world)))
     = U "**導入文:** " ++ U "Time is short." ++ [NL; NL]
       ++ U "**記事本文:**" ++ [NL; NL]
       ++ (U "# " ++ U "Time Management 101" ++ [NL; NL])
       ++ U "Time is short." ++ [NL; NL]
       ++ concat (map (fun body => body ++ [NL; NL])
                    [U "BODY 1"; U "BODY 2"; U "BODY 3"])
       ++ U "## まとめ" ++ [NL; NL]
       ++ U "本記事では、" ++ U "time management" ++ U "について詳しく解説しました。"
       ++ U "各ポイントを実践することで、" ++ U "beginner"
       ++ U "の方でも効果的に活用できるでしょう。".
Proof.
  assert (H : main_generate all_succeed request titled_world
              = (Completed 3, snd (main_generate all_succeed request titled_world))).
  { vm_compute. reflexivity. }
  split; [exact H|].
  destruct (C7_article_layout all_succeed request titled_world _ 3 H)
    as (c & text & Hans & _ & Hart).
  injection Hans as <- <-. exact Hart.
Defined.


(** C9, at scenario A, which shows 51, 68 and 85 percent for its three
    sections, and at an outline without headings, which leads straight
    to the assembly. *)
Lemma C9_witness :
  (host_fault no_sections = None
   /\ input_ok request
   /\ client_init no_sections (api_key request) = None
   /\ api no_sections (length (api_log initial_world)) (outline_call request)
      = Completion plain_text
   /\ api all_succeed (length (api_log initial_world)) (outline_call request)
      = Completion outline_text)
  /\ (exists n w',
        main_generate all_succeed request initial_world = (Completed n, w')
        /\ progress_values (ui_log w') = [0; 25; 35; 51; 68; 85; 95; 100]%Z)
  /\ (exists n w',
        main_generate no_sections request initial_world = (Completed n, w')
        /\ progress_values (ui_log w') = [0; 25; 35; 95; 100]%Z
        /\ n = 0%nat
        /\ api_log w' = [outline_call request]).
Proof.
  split; [repeat split; try reflexivity; discriminate|]. split.
  - destruct (C9_section_progress all_succeed request initial_world
                (hd 0%N outline_text) (tl outline_text)
                eq_refl request_ok eq_refl eq_refl) as (n & w' & Hm & Hp & _).
    exists n, w'. split; [exact Hm|]. exact Hp.
  - destruct (C9_section_progress no_sections request initial_world
                (hd 0%N plain_text) (tl plain_text)
                eq_refl request_ok eq_refl eq_refl) as (n & w' & Hm & Hp & H0).
    destruct (H0 eq_refl) as (Hn & Ha & _).
    exists n, w'. split; [exact Hm|]. split; [exact Hp|]. split; [exact Hn|exact Ha].
Defined.



End Scenarios.

(* ================================================================= *)
(** ** Further properties of the parsers, the handlers and the page *)

Import Shape OutlineText Lines Page Faults Invariant.

(* ================================================================= *)
(** ** Trimming *)

Section StripFacts.

Open Scope N_scope.

Lemma lstrip_head (s : pystr) :
  match lstrip s with
  | [] => True
  | c :: _ => isspace c = false
  end.
Proof.
  induction s as [|c s IH]; cbn [lstrip]; [exact I|].
  destruct (isspace c) eqn:Hc; [exact IH|exact Hc].
Qed.

Lemma lstrip_fixed (s : pystr) :
  match s with [] => True | c :: _ => isspace c = false end -> lstrip s = s.
Proof. destruct s as [|c s]; [reflexivity|]. cbn [lstrip]. now intros ->. Qed.

Lemma lstrip_spaces_app (ws s : pystr) :
  forallb isspace ws = true -> lstrip (ws ++ s) = lstrip s.
Proof.
  induction ws as [|c ws IH]; [reflexivity|].
  cbn [forallb app lstrip]. intros H. apply andb_true_iff in H as (-> & Hws).
  now apply IH.
Qed.

Lemma lstrip_app_kept (s t : pystr) :
  lstrip s <> [] -> lstrip (s ++ t) = lstrip s ++ t.
Proof.
  induction s as [|c s IH]; cbn [lstrip app]; [congruence|].
  destruct (isspace c); [exact IH|reflexivity].
Qed.

Lemma lstrip_app_gone (s t : pystr) :
  lstrip s = [] -> lstrip (s ++ t) = lstrip t.
Proof.
  induction s as [|c s IH]; cbn [lstrip app]; [reflexivity|].
  destruct (isspace c); [exact IH|discriminate].
Qed.

Lemma rstrip_prefix (s : pystr) : exists ws, s = rstrip s ++ ws /\ forallb isspace ws = true.
Proof.
  unfold rstrip.
  assert (H : forall r, exists ws, r = ws ++ lstrip r /\ forallb isspace ws = true).
  { induction r as [|c r (ws & IH & Hws)]; [now exists []|].
    cbn [lstrip]. destruct (isspace c) eqn:Hc.
    - exists (c :: ws). cbn [app forallb]. rewrite Hc, Hws. split; [now rewrite <- IH|reflexivity].
    - now exists []. }
  destruct (H (rev s)) as (ws & Hr & Hws).
  exists (rev ws). split.
  - rewrite <- rev_app_distr, <- Hr. now rewrite rev_involutive.
  - rewrite forallb_forall in *. intros x Hx. apply Hws. now apply in_rev.
Qed.

Lemma rstrip_last (s : pystr) (d : char) :
  rstrip s <> [] -> isspace (last (rstrip s) d) = false.
Proof.
  unfold rstrip. pose proof (lstrip_head (rev s)) as H.
  destruct (lstrip (rev s)) as [|c r]; [cbn; congruence|].
  intros _. cbn [rev]. now rewrite last_last.
Qed.

Lemma rstrip_spaces_app (s ws : pystr) :
  forallb isspace ws = true -> rstrip (s ++ ws) = rstrip s.
Proof.
  intros H. unfold rstrip. rewrite rev_app_distr.
  rewrite lstrip_spaces_app; [reflexivity|].
  rewrite forallb_forall in *. intros x Hx. apply H. now apply in_rev in Hx.
Qed.

Lemma strip_trimmed (s : pystr) : trimmed (strip s) = true.
Proof.
  unfold strip, trimmed.
  destruct (rstrip (lstrip s)) as [|c r] eqn:Hr; [reflexivity|].
  assert (Hne : rstrip (lstrip s) <> []) by (rewrite Hr; discriminate).
  pose proof (rstrip_last (lstrip s) c Hne) as Hl. rewrite Hr in Hl. rewrite Hl.
  destruct (rstrip_prefix (lstrip s)) as (ws & Hs & _). rewrite Hr in Hs.
  pose proof (lstrip_head s) as Hh. rewrite Hs in Hh. cbn [app] in Hh.
  now rewrite Hh.
Qed.

Lemma trimmed_strip (t : pystr) : trimmed t = true -> strip t = t.
Proof.
  destruct t as [|c t']; [reflexivity|].
  unfold trimmed. intros H. apply andb_true_iff in H as (Hc & Hl).
  apply negb_true_iff in Hc, Hl.
  unfold strip, rstrip. cbn [lstrip]. rewrite Hc.
  rewrite (app_removelast_last c (l := c :: t')) at 1 by discriminate.
  rewrite rev_app_distr. cbn [rev app lstrip]. rewrite Hl.
  change (last (c :: t') c :: rev (removelast (c :: t')))
    with (rev [last (c :: t') c] ++ rev (removelast (c :: t'))).
  rewrite <- rev_app_distr, rev_involutive.
  symmetry. apply app_removelast_last. discriminate.
Qed.

Lemma strip_idempotent (s : pystr) : strip (strip s) = strip s.
Proof. apply trimmed_strip, strip_trimmed. Qed.

(** Whitespace around a string does not change what [strip] returns. *)
Lemma strip_padding (ws1 ws2 s : pystr) :
  forallb isspace ws1 = true -> forallb isspace ws2 = true ->
  strip (ws1 ++ s ++ ws2) = strip s.
Proof.
  intros H1 H2. unfold strip. rewrite lstrip_spaces_app by assumption.
  destruct (lstrip s) as [|c r] eqn:Hs.
  - rewrite lstrip_app_gone by assumption.
    now rewrite (lstrip_all_space ws2 H2).
  - rewrite lstrip_app_kept by (rewrite Hs; discriminate).
    rewrite Hs. now apply rstrip_spaces_app.
Qed.

Lemma single_line_part (a s b : pystr) :
  single_line (a ++ s ++ b) = true -> single_line s = true.
Proof.
  unfold single_line. rewrite !forallb_app. intros H.
  apply andb_true_iff in H as (_ & H). now apply andb_true_iff in H as (H & _).
Qed.

Lemma strip_single_line (s : pystr) :
  single_line s = true -> single_line (strip s) = true.
Proof.
  intros H. destruct (strip_within s) as (a & b & Hs).
  rewrite Hs in H. now apply single_line_part in H.
Qed.

End StripFacts.

(* ================================================================= *)
(** ** What a match of the search pattern is *)

Section SearchSound.

Open Scope N_scope.

Lemma line_prefix_split (s : pystr) :
  exists b, s = Re.line_prefix s ++ b /\ single_line (Re.line_prefix s) = true.
Proof.
  induction s as [|c s (b & Hb & Hl)]; cbn [Re.line_prefix].
  - now exists [].
  - destruct (c =? NL) eqn:Hc.
    + now exists (c :: s).
    + exists b. cbn [app]. split; [now rewrite <- Hb|].
      unfold single_line in *. cbn [forallb]. now rewrite Hc, Hl.
Qed.

Lemma group_tail_sound (s g : pystr) :
  Re.group_tail s = Some g ->
  g <> [] /\ single_line g = true /\ exists b, s = g ++ b.
Proof.
  unfold Re.group_tail. destruct s as [|c s]; [discriminate|].
  destruct (c =? NL) eqn:Hc; [discriminate|]. intros H. injection H as <-.
  destruct (line_prefix_split (c :: s)) as (b & Hb & Hl).
  split; [cbn [Re.line_prefix]; rewrite Hc; discriminate|].
  split; [exact Hl|now exists b].
Qed.

Lemma ws_group_tail_sound (s g : pystr) :
  Re.ws_group_tail s = Some g ->
  g <> [] /\ single_line g = true
  /\ exists ws b, s = ws ++ g ++ b /\ forallb isspace ws = true.
Proof.
  induction s as [|c s IH]; cbn [Re.ws_group_tail]; [discriminate|].
  destruct (isspace c) eqn:Hc.
  - destruct (Re.ws_group_tail s) as [g'|].
    + intros H. injection H as <-.
      destruct (IH eq_refl) as (Hg & Hl & ws & b & Hs & Hws).
      split; [exact Hg|]. split; [exact Hl|].
      exists (c :: ws), b. cbn [app forallb]. rewrite Hc, Hws. now rewrite <- Hs.
    + intros H. apply group_tail_sound in H as (Hg & Hl & b & Hb).
      split; [exact Hg|]. split; [exact Hl|]. now exists [], b.
  - intros H. apply group_tail_sound in H as (Hg & Hl & b & Hb).
    split; [exact Hg|]. split; [exact Hl|]. now exists [], b.
Qed.

(** What [re.search] returns was matched: the literal, whitespace, then
    group 1, a non-empty run without a newline. *)
Lemma search_sound (lit s g : pystr) :
  Re.search lit s = Some g ->
  g <> [] /\ single_line g = true
  /\ exists a ws b, s = a ++ lit ++ ws ++ g ++ b /\ forallb isspace ws = true.
Proof.
  assert (Hhere : forall s, Re.match_here lit s = Some g ->
            g <> [] /\ single_line g = true
            /\ exists a ws b, s = a ++ lit ++ ws ++ g ++ b /\ forallb isspace ws = true).
  { intros s0. unfold Re.match_here.
    destruct (startswith lit s0) eqn:Hp; [|discriminate].
    apply startswith_spec in Hp as (rest & ->). rewrite skipn_length_app.
    intros H. apply ws_group_tail_sound in H as (Hg & Hl & ws & b & -> & Hws).
    split; [exact Hg|]. split; [exact Hl|]. now exists [], ws, b. }
  induction s as [|c s IH]; cbn [Re.search].
  - destruct (Re.match_here lit []) eqn:Hm; [|discriminate].
    intros H. injection H as ->. now apply Hhere.
  - destruct (Re.match_here lit (c :: s)) eqn:Hm.
    + intros H. injection H as ->. now apply Hhere.
    + intros H. destruct (IH H) as (Hg & Hl & a & ws & b & -> & Hws).
      split; [exact Hg|]. split; [exact Hl|]. now exists (c :: a), ws, b.
Qed.

Lemma contains_part (a s b : pystr) : contains s (a ++ s ++ b) = true.
Proof. apply contains_spec. now exists a, b. Qed.

Lemma contains_trans (p s t : pystr) :
  contains p s = true -> contains s t = true -> contains p t = true.
Proof.
  intros H1 H2. apply contains_spec in H2 as (a & b & ->).
  now apply contains_within.
Qed.

(** The stripped group of a match: one line, no whitespace at either
    end, and a part of the text. *)
Lemma search_strip_shape (lit s g : pystr) :
  Re.search lit s = Some g ->
  trimmed (strip g) = true /\ single_line (strip g) = true
  /\ contains (strip g) s = true.
Proof.
  intros H. apply search_sound in H as (_ & Hl & a & ws & b & -> & _).
  split; [apply strip_trimmed|]. split; [now apply strip_single_line|].
  destruct (strip_within g) as (a' & b' & Hg).
  apply contains_trans with (s := g).
  - rewrite Hg at 2. apply contains_part.
  - apply contains_spec. exists (a ++ lit ++ ws), b. now rewrite <- !app_assoc.
Qed.

End SearchSound.

(* ================================================================= *)
(** ** The shape of parsed titles *)

Section TitleShape.

Lemma flat_map_option_length {A B : Type} (f : A -> option B) (l : list A) :
  (length (flat_map (fun x => match f x with Some y => [y] | None => [] end) l)
   <= length l)%nat.
Proof.
  induction l as [|x l IH]; cbn [flat_map length]; [lia|].
  rewrite length_app. destruct (f x); cbn [length]; lia.
Qed.

Lemma titles_candidates_from (response : pystr) (c : pystr) :
  In c (title_candidates (extract_titles_only response)) ->
  exists i g, In i (seq 1 5) /\ Re.search (item_literal i) response = Some g
              /\ c = strip g.
Proof.
  unfold extract_titles_only. cbn [title_candidates].
  rewrite fold_titles_step. cbn [app]. intros H.
  apply in_flat_map in H as (i & Hi & Hc).
  destruct (Re.search (item_literal i) response) as [g|] eqn:Hs; [|destruct Hc].
  destruct Hc as [<- | []]. now exists i, g.
Qed.

(** X3.  Whatever the response, [extract_titles_only] returns at most
    five candidates, and every candidate and the recommended title is one
    line without whitespace at either end. *)
Theorem X3_titles_shape (response : pystr) :
  let found := extract_titles_only response in
  (length (title_candidates found) <= 5)%nat
  /\ Forall (fun c => trimmed c = true /\ single_line c = true)
       (title_candidates found)
  /\ trimmed (recommended_title found) = true
  /\ single_line (recommended_title found) = true.
Proof.
  cbn zeta. split; [|split].
  - unfold extract_titles_only. cbn [title_candidates].
    rewrite fold_titles_step. cbn [app].
    pose proof (flat_map_option_length
                  (fun i => match Re.search (item_literal i) response with
                            | Some g => Some (strip g)
                            | None => None
                            end) (seq 1 5)) as H.
    rewrite length_seq in H.
    erewrite flat_map_ext; [exact H|].
    intros i. cbn beta. now destruct (Re.search (item_literal i) response).
  - apply Forall_forall. intros c Hc.
    apply titles_candidates_from in Hc as (i & g & _ & Hs & ->).
    apply search_strip_shape in Hs as (Ht & Hl & _). auto.
  - unfold extract_titles_only. cbn [recommended_title].
    destruct (Re.search RECOMMENDED_LABEL response) as [g|] eqn:Hs; [|auto].
    apply search_strip_shape in Hs as (Ht & Hl & _). auto.
Qed.

(** X4.  The parsers return text of the response only: every title
    candidate, the recommended title and the intro of an outline occur in
    the text they were extracted from. *)
Theorem X4_parsed_text_occurs (text : pystr) :
  Forall (fun c => contains c text = true)
    (title_candidates (extract_titles_only text))
  /\ contains (recommended_title (extract_titles_only text)) text = true
  /\ contains (intro (extract_outline_structure text)) text = true.
Proof.
  assert (Hempty : contains [] text = true) by (destruct text; reflexivity).
  split; [|split].
  - apply Forall_forall. intros c Hc.
    apply titles_candidates_from in Hc as (i & g & _ & Hs & ->).
    now apply search_strip_shape in Hs as (_ & _ & Hc).
  - unfold extract_titles_only. cbn [recommended_title].
    destruct (Re.search RECOMMENDED_LABEL text) as [g|] eqn:Hs; [|exact Hempty].
    now apply search_strip_shape in Hs as (_ & _ & Hc).
  - unfold extract_outline_structure.
    destruct (fold_left outline_step (split_lines text) ([], None)) as [secs cur].
    cbn [intro].
    destruct (Re.search INTRO_LABEL text) as [g|] eqn:Hs; [|exact Hempty].
    now apply search_strip_shape in Hs as (_ & _ & Hc).
Qed.

End TitleShape.

(* ================================================================= *)
(** ** Reading back an outline in the prompt's format *)

Section OutlineRoundTrip.

Open Scope N_scope.

Lemma split_lines_line (l rest : pystr) :
  single_line l = true ->
  split_lines (l ++ NL :: rest) = l :: split_lines rest.
Proof.
  unfold single_line. induction l as [|c l IH]; cbn [app split_lines forallb].
  - now rewrite N.eqb_refl.
  - intros H. apply andb_true_iff in H as (Hc & Hl).
    apply negb_true_iff in Hc. rewrite Hc, (IH Hl). reflexivity.
Qed.

Lemma split_lines_rendered (ls : list pystr) :
  Forall (fun l => single_line l = true) ls ->
  split_lines (concat (map (fun l => l ++ [NL]) ls)) = ls ++ [[]].
Proof.
  induction 1 as [|l ls Hl _ IH]; [reflexivity|].
  cbn [map concat]. rewrite <- app_assoc. cbn [app].
  rewrite split_lines_line by assumption. now rewrite IH.
Qed.

Lemma replace_go_skip (old new p t : pystr) :
  replace_go old new (p ++ t) (length p) = replace_go old new t 0.
Proof.
  induction p as [|c p IH]; [reflexivity|]. cbn [app length replace_go]. exact IH.
Qed.

Lemma replace_go_absent (old new s : pystr) :
  contains old s = false -> replace_go old new s 0 = s.
Proof.
  induction s as [|c s IH]; [reflexivity|].
  cbn [contains replace_go]. intros H. apply orb_false_iff in H as (Hs & Hc).
  rewrite Hs. now rewrite IH.
Qed.

(** Removing a marker from a line that starts with it and has no other
    occurrence leaves the rest of the line. *)
Lemma replace_marker (old t : pystr) :
  old <> [] -> contains old t = false -> replace old [] (old ++ t) = t.
Proof.
  destruct old as [|c old]; [congruence|]. intros _ H.
  unfold replace. cbn [app replace_go].
  change (c :: old ++ t) with ((c :: old) ++ t). rewrite startswith_app.
  cbn [app length Nat.sub]. rewrite ?Nat.sub_0_r, replace_go_skip.
  now apply replace_go_absent.
Qed.

Lemma line_text_inv (t : pystr) :
  line_text t = true ->
  exists c t', t = c :: t' /\ isspace c = false
    /\ isspace (last t c) = false /\ single_line t = true.
Proof.
  unfold line_text, trimmed. destruct t as [|c t']; [discriminate|].
  cbn [nonempty andb]. intros H. apply andb_true_iff in H as (H & Hl).
  apply andb_true_iff in H as (Hc & Hlast). apply negb_true_iff in Hc, Hlast.
  exists c, t'. auto.
Qed.

Lemma last_app_cons (p t : pystr) (d x : char) :
  last (p ++ d :: t) x = last (d :: t) d.
Proof.
  induction p as [|y p IH].
  - cbn [app]. cbn [last]. destruct t; [reflexivity|].
    revert c. induction t as [|b t IHt]; intros c; [reflexivity|].
    change (last (c :: b :: t) x) with (last (b :: t) x).
    change (last (c :: b :: t) d) with (last (b :: t) d). apply IHt.
  - cbn [app]. destruct (p ++ d :: t) eqn:E.
    + now destruct p.
    + change (last (y :: c :: l) x) with (last (c :: l) x). exact IH.
Qed.

Lemma trimmed_marked (p t : pystr) (c : char) :
  p <> [] -> isspace (hd c p) = false -> line_text t = true ->
  trimmed (p ++ t) = true.
Proof.
  intros Hp Hh Ht. apply line_text_inv in Ht as (d & t' & -> & _ & Hl & _).
  destruct p as [|x p]; [congruence|]. cbn [hd] in Hh.
  unfold trimmed. cbn [app]. rewrite Hh. cbn [negb andb].
  change (x :: p ++ d :: t') with ((x :: p) ++ d :: t').
  rewrite last_app_cons. now rewrite Hl.
Qed.

Lemma heading_line_step (st : list section * option section) (t : pystr) :
  heading_text t = true ->
  outline_step st (H2 ++ t)
  = (fst st ++ match snd st with Some cs => [cs] | None => [] end,
     Some {| title := t; subsections := [] |}).
Proof.
  unfold heading_text. intros H. apply andb_true_iff in H as (H & Hsum).
  apply andb_true_iff in H as (Hline & Hno). apply negb_true_iff in Hsum, Hno.
  destruct st as [secs cur]. unfold outline_step.
  rewrite (trimmed_strip (H2 ++ t))
    by (apply (trimmed_marked H2 t 0); [discriminate|reflexivity|assumption]).
  rewrite startswith_app.
  assert (Hs : startswith H2_SUMMARY (H2 ++ t) = false).
  { change H2_SUMMARY with (H2 ++ SUMMARY_WORD).
    unfold H2. cbn [app startswith N.eqb Pos.eqb andb]. exact Hsum. }
  rewrite Hs. cbn [negb andb fst snd].
  rewrite replace_marker by (auto; discriminate).
  destruct cur; now rewrite ?app_nil_r.
Qed.

Lemma subheading_line_step (secs : list section) (cs : section) (t : pystr) :
  subheading_text t = true ->
  outline_step (secs, Some cs) (H3 ++ t)
  = (secs, Some {| title := title cs; subsections := subsections cs ++ [t] |}).
Proof.
  unfold subheading_text. intros H. apply andb_true_iff in H as (Hline & Hno).
  apply negb_true_iff in Hno. unfold outline_step.
  rewrite (trimmed_strip (H3 ++ t))
    by (apply (trimmed_marked H3 t 0); [discriminate|reflexivity|assumption]).
  assert (Hh2 : startswith H2 (H3 ++ t) = false) by reflexivity.
  rewrite Hh2, startswith_app. cbn [andb].
  rewrite replace_marker by (auto; discriminate). reflexivity.
Qed.

Lemma plain_line_step (st : list section * option section) (l : pystr) :
  startswith H2 (strip l) = false -> startswith H3 (strip l) = false ->
  outline_step st l = st.
Proof.
  intros H2' H3'. destruct st as [secs cur]. unfold outline_step.
  now rewrite H2', H3'.
Qed.

Lemma subheading_lines_fold (secs : list section) (t : pystr) :
  forall (subs acc : list pystr),
    forallb subheading_text subs = true ->
    fold_left outline_step (map (fun sub => H3 ++ sub) subs)
      (secs, Some {| title := t; subsections := acc |})
    = (secs, Some {| title := t; subsections := acc ++ subs |}).
Proof.
  induction subs as [|s subs IH]; intros acc H; cbn [map fold_left].
  - now rewrite app_nil_r.
  - cbn [forallb] in H. apply andb_true_iff in H as (Hs & Hsubs).
    rewrite subheading_line_step by assumption. cbn [title subsections].
    rewrite IH by assumption. now rewrite <- app_assoc.
Qed.

Lemma section_lines_fold (st : list section * option section) (s : section) :
  heading_text (title s) = true ->
  forallb subheading_text (subsections s) = true ->
  fold_left outline_step (section_lines s) st = (collected st, Some s).
Proof.
  intros Ht Hs. unfold section_lines. cbn [fold_left].
  rewrite heading_line_step by assumption.
  rewrite fold_left_app, subheading_lines_fold by assumption.
  cbn [fold_left app]. rewrite plain_line_step by reflexivity.
  destruct s; reflexivity.
Qed.

Lemma sections_lines_fold (secs : list section) :
  forall st,
    forallb (fun s => heading_text (title s)
                      && forallb subheading_text (subsections s)) secs = true ->
    collected (fold_left outline_step (flat_map section_lines secs) st)
    = collected st ++ secs.
Proof.
  induction secs as [|s secs IH]; intros st H; cbn [flat_map fold_left].
  - now rewrite app_nil_r.
  - cbn [forallb] in H. apply andb_true_iff in H as (Hs & Hsecs).
    apply andb_true_iff in Hs as (Ht & Hsub).
    rewrite fold_left_app, section_lines_fold by assumption.
    rewrite IH by assumption. unfold collected at 1. cbn [fst snd].
    now rewrite <- app_assoc.
Qed.

Lemma search_line_hit (lit t rest : pystr) :
  line_text t = true ->
  Re.search lit (lit ++ SPACE :: t ++ NL :: rest) = Some t.
Proof.
  intros H. apply line_text_inv in H as (c & t' & -> & Hc & _ & Hl).
  apply search_here. unfold Re.match_here.
  rewrite startswith_app, skipn_length_app. cbn [Re.ws_group_tail app].
  replace (isspace SPACE) with true by reflexivity. rewrite Hc.
  unfold Re.group_tail.
  assert (Hcn : (c =? NL) = false).
  { unfold single_line in Hl. cbn [forallb] in Hl.
    apply andb_true_iff in Hl as (Hcn & _). now apply negb_true_iff in Hcn. }
  rewrite Hcn. change (c :: t' ++ NL :: rest) with ((c :: t') ++ NL :: rest).
  now rewrite line_prefix_line.
Qed.

Lemma single_line_app (a b : pystr) :
  single_line a = true -> single_line b = true -> single_line (a ++ b) = true.
Proof.
  unfold single_line. intros Ha Hb. rewrite forallb_app.
  apply andb_true_iff; split; assumption.
Qed.

Lemma outline_lines_single (o : outline_structure) (closing : bool) :
  well_formed o = true ->
  Forall (fun l => single_line l = true) (outline_lines o closing).
Proof.
  unfold well_formed. intros H. apply andb_true_iff in H as (Hi & Hs).
  assert (Hline : forall t, line_text t = true -> single_line t = true).
  { intros t Ht. now apply line_text_inv in Ht as (? & ? & _ & _ & _ & Hl). }
  unfold outline_lines. constructor.
  { apply single_line_app; [reflexivity|].
    change (SPACE :: intro o) with ([SPACE] ++ intro o).
    apply single_line_app; [reflexivity|]. now apply Hline. }
  constructor; [reflexivity|]. constructor; [reflexivity|].
  apply Forall_app. split.
  - apply Forall_forall. intros l Hl. apply in_flat_map in Hl as (s & Hin & Hl).
    rewrite forallb_forall in Hs. specialize (Hs s Hin).
    apply andb_true_iff in Hs as (Ht & Hsub).
    unfold section_lines in Hl. destruct Hl as [<- | Hl].
    + unfold heading_text in Ht. apply andb_true_iff in Ht as (Ht & _).
      apply andb_true_iff in Ht as (Ht & _).
      apply single_line_app; [reflexivity|]. now apply Hline.
    + apply in_app_or in Hl as [Hl | [<- | []]]; [|reflexivity].
      apply in_map_iff in Hl as (sub & <- & Hsubin).
      rewrite forallb_forall in Hsub. specialize (Hsub sub Hsubin).
      unfold subheading_text in Hsub. apply andb_true_iff in Hsub as (Hsub & _).
      apply single_line_app; [reflexivity|]. now apply Hline.
  - destruct closing; repeat constructor.
Qed.

(** X1.  Parsing an outline written in the format of the outline prompt
    gives back its intro and its sections, titles and subsection lists
    in order, whether or not the closing heading line is there. *)
Theorem X1_outline_round_trip (o : outline_structure) (closing : bool) :
  well_formed o = true ->
  extract_outline_structure (render_outline o closing) = o.
Proof.
  intros Hwf. pose proof Hwf as Hwf'. unfold well_formed in Hwf'.
  apply andb_true_iff in Hwf' as (Hi & Hs).
  unfold extract_outline_structure, render_outline.
  rewrite split_lines_rendered by (now apply outline_lines_single).
  assert (Hsearch : Re.search INTRO_LABEL
                      (concat (map (fun l => l ++ [NL]) (outline_lines o closing)))
                    = Some (intro o)).
  { unfold outline_lines. cbn [map concat]. rewrite <- !app_assoc. cbn [app].
    now apply search_line_hit. }
  rewrite Hsearch.
  assert (Hfold : collected (fold_left outline_step (outline_lines o closing ++ [[]])
                               ([], None)) = sections o).
  { unfold outline_lines.
    cbn [app fold_left].
    assert (Hst : strip (INTRO_LABEL ++ SPACE :: intro o)
                  = INTRO_LABEL ++ SPACE :: intro o).
    { apply trimmed_strip.
      change (INTRO_LABEL ++ SPACE :: intro o)
        with (INTRO_LABEL ++ [SPACE] ++ intro o).
      rewrite app_assoc.
      apply (trimmed_marked _ _ 0); [discriminate|reflexivity|assumption]. }
    rewrite (plain_line_step _ (INTRO_LABEL ++ SPACE :: intro o))
      by (rewrite Hst; reflexivity).
    rewrite (plain_line_step _ []) by reflexivity.
    rewrite (plain_line_step _ STRUCTURE_LABEL) by reflexivity.
    rewrite !fold_left_app.
    pose proof (sections_lines_fold (sections o) ([], None) Hs) as Hsec.
    set (st := fold_left outline_step (flat_map section_lines (sections o)) ([], None))
      in *.
    assert (Hrest : fold_left outline_step [[]]
                      (fold_left outline_step (if closing then [H2_SUMMARY] else []) st)
                    = st).
    { destruct closing; cbn [fold_left].
      - rewrite (outline_step_closing_heading st H2_SUMMARY) by reflexivity.
        now rewrite plain_line_step by reflexivity.
      - now rewrite plain_line_step by reflexivity. }
    rewrite Hrest. exact Hsec. }
  destruct (fold_left outline_step (outline_lines o closing ++ [[]]) ([], None))
    as [secs cur].
  unfold collected in Hfold. cbn [fst snd] in Hfold.
  assert (Hstrip : strip (intro o) = intro o).
  { apply trimmed_strip. unfold line_text in Hi.
    apply andb_true_iff in Hi as (Hi & _). now apply andb_true_iff in Hi as (_ & Hi). }
  rewrite Hstrip.
  destruct o as [i ss]. cbn [intro sections] in *.
  destruct cur; rewrite ?app_nil_r in Hfold; now rewrite Hfold.
Qed.

End OutlineRoundTrip.

(* ================================================================= *)
(** ** Sections and subsections against the lines of the text *)

Section OutlineAccounting.

Open Scope N_scope.

Lemma opening_not_subheading (l : pystr) :
  startswith H2 l = true -> startswith H3 l = false.
Proof.
  intros H. apply startswith_spec in H as (b & ->). reflexivity.
Qed.

Lemma concat_map_snoc {A B : Type} (f : A -> list B) (l : list A) (x : A) :
  concat (map f (l ++ [x])) = concat (map f l) ++ f x.
Proof.
  rewrite map_app, concat_app. cbn [map concat]. now rewrite app_nil_r.
Qed.

Lemma outline_step_open (secs : list section) (cs : section) (raw : pystr) :
  exists secs' cs',
    outline_step (secs, Some cs) raw = (secs', Some cs')
    /\ subsections_so_far (secs', Some cs')
       = subsections_so_far (secs, Some cs)
         ++ if startswith H3 (strip raw) then [replace H3 [] (strip raw)] else [].
Proof.
  unfold outline_step, subsections_so_far, collected. cbn [fst snd].
  destruct (startswith H2 (strip raw)) eqn:E2.
  - rewrite (opening_not_subheading _ E2).
    destruct (startswith H2_SUMMARY (strip raw)); cbn [negb andb].
    + eexists _, _. split; [reflexivity|]. now rewrite app_nil_r.
    + eexists _, _. split; [reflexivity|].
      rewrite concat_map_snoc. cbn [subsections]. now rewrite !app_nil_r.
  - cbn [andb]. destruct (startswith H3 (strip raw)).
    + eexists _, _. split; [reflexivity|].
      rewrite !concat_map_snoc. cbn [subsections]. now rewrite app_assoc.
    + eexists _, _. split; [reflexivity|]. now rewrite app_nil_r.
Qed.

Lemma outline_fold_open (lines : list pystr) :
  forall (secs : list section) (cs : section),
    subsections_so_far (fold_left outline_step lines (secs, Some cs))
    = subsections_so_far (secs, Some cs)
      ++ map (replace H3 []) (filter (startswith H3) (map strip lines)).
Proof.
  induction lines as [|raw lines IH]; intros secs cs; cbn [fold_left map filter].
  - now rewrite app_nil_r.
  - destruct (outline_step_open secs cs raw) as (secs' & cs' & -> & Hs).
    rewrite IH, Hs, <- app_assoc. f_equal.
    now destruct (startswith H3 (strip raw)).
Qed.

Lemma outline_fold_subsections (lines : list pystr) :
  subsections_so_far (fold_left outline_step lines ([], None))
  = map (replace H3 [])
      (filter (startswith H3) (from_first_section (map strip lines))).
Proof.
  induction lines as [|raw lines IH]; [reflexivity|].
  cbn [fold_left map from_first_section].
  destruct (opens_section (strip raw)) eqn:E.
  - assert (Hstep : outline_step ([], None) raw
                    = ([], Some {| title := replace H2 [] (strip raw);
                                   subsections := [] |})).
    { unfold outline_step. unfold opens_section in E. now rewrite E. }
    rewrite Hstep, outline_fold_open. cbn [filter].
    unfold opens_section in E. apply andb_true_iff in E as (E & _).
    now rewrite (opening_not_subheading _ E).
  - now rewrite outline_step_before_first_section.
Qed.

(** X2.  The outline parser opens one section for each line that starts
    with the second-level marker and is not the closing heading, in the
    order of the lines; every third-level line after the first of these
    lines becomes a subsection, in order, the lines under the closing
    heading included; third-level lines before it are dropped. *)
Theorem X2_outline_accounting (outline : pystr) :
  let lines := map strip (split_lines outline) in
  let found := sections (extract_outline_structure outline) in
  map title found = map (replace H2 []) (filter opens_section lines)
  /\ length found = length (filter opens_section lines)
  /\ concat (map subsections found)
     = map (replace H3 []) (filter (startswith H3) (from_first_section lines)).
Proof.
  cbv zeta. split; [apply outline_section_titles|]. split.
  - rewrite <- (length_map title), outline_section_titles. apply length_map.
  - rewrite <- outline_fold_subsections.
    unfold extract_outline_structure, subsections_so_far, collected.
    destruct (fold_left outline_step (split_lines outline) ([], None))
      as [secs cur].
    cbn [sections fst snd]. destruct cur; now rewrite ?app_nil_r.
Qed.

End OutlineAccounting.

(* ================================================================= *)
(** ** Validation and whitespace around the keyword *)

Section ValidationPadding.

Open Scope N_scope.

(** X5.  Whitespace around the keyword does not change the verdict of
    [validate_inputs]: the keyword is judged by its trimmed text. *)
Theorem X5_validation_ignores_padding (ws1 ws2 keyword genre target_audience : pystr) :
  forallb isspace ws1 = true -> forallb isspace ws2 = true ->
  validate_inputs (ws1 ++ keyword ++ ws2) genre target_audience
  = validate_inputs keyword genre target_audience.
Proof.
  intros H1 H2. unfold validate_inputs.
  assert (Hk : keyword_too_short (ws1 ++ keyword ++ ws2) = keyword_too_short keyword).
  { unfold keyword_too_short. rewrite strip_padding by assumption.
    destruct keyword as [|c k].
    - cbn [nonempty negb orb]. rewrite orb_true_r. reflexivity.
    - destruct ws1; reflexivity. }
  now rewrite Hk.
Qed.

End ValidationPadding.

(* ================================================================= *)
(** ** The names of the downloads *)

Section FileName.

Open Scope N_scope.

Lemma replace_char (x y : char) (s : pystr) :
  replace [x] [y] s = map (fun c => if c =? x then y else c) s.
Proof.
  unfold replace. induction s as [|c s IH]; [reflexivity|].
  cbn [replace_go startswith length Nat.sub map app].
  rewrite andb_true_r, N.eqb_sym. rewrite IH.
  now destruct (c =? x).
Qed.

(** X6.  The file name of both downloads is the fixed stem, the keyword
    with every U+0020 and every U+3000 turned into an underscore and
    every other character kept, and the extension: its length is that of
    the keyword plus that of the stem and the extension. *)
Theorem X6_download_name (keyword ext : pystr) :
  download_name keyword ext = FILE_STEM ++ map underscored keyword ++ ext
  /\ length (download_name keyword ext)
     = (12 + length keyword + length ext)%nat
  /\ forallb (fun c => negb (c =? 32) && negb (c =? 12288))
       (map underscored keyword) = true.
Proof.
  assert (H : download_name keyword ext
              = FILE_STEM ++ map underscored keyword ++ ext).
  { unfold download_name, ASCII_SPACE, WIDE_SPACE, UNDERSCORE.
    rewrite !replace_char, map_map. do 2 f_equal.
    apply map_ext. intros c. unfold underscored.
    destruct (c =? 32) eqn:E1; cbn [orb].
    - reflexivity.
    - now destruct (c =? 12288). }
  split; [exact H|]. split.
  - rewrite H, !length_app, length_map. reflexivity.
  - apply forallb_forall. intros d Hd. apply in_map_iff in Hd as (c & <- & _).
    unfold underscored.
    destruct (c =? 32) eqn:E1; cbn [orb]; [reflexivity|].
    destruct (c =? 12288) eqn:E2; [reflexivity|]. now rewrite E1, E2.
Qed.

End FileName.

(* ================================================================= *)
(** ** The intro read back from an assembled article *)

Section StoredIntro.

Open Scope N_scope.

Variable e : env.

Lemma intro_label_prefix : U "**導入文:** " = INTRO_LABEL ++ [SPACE].
Proof. vm_compute. reflexivity. Qed.

Lemma body_label_literal : U "**記事本文:**" = BODY_LABEL.
Proof. vm_compute. reflexivity. Qed.

Lemma outline_intro_shape (outline : pystr) :
  trimmed (intro (extract_outline_structure outline)) = true
  /\ single_line (intro (extract_outline_structure outline)) = true.
Proof.
  unfold extract_outline_structure.
  destruct (fold_left outline_step (split_lines outline) ([], None)) as [secs cur].
  cbn [intro]. destruct (Re.search INTRO_LABEL outline) as [g|] eqn:E.
  - split; [apply strip_trimmed|]. apply strip_single_line.
    now apply search_sound in E as (_ & Hs & _).
  - split; reflexivity.
Qed.

Lemma article_layout_head (i selected : pystr) (contents : list pystr)
    (kw aud : pystr) :
  exists rest,
    article_layout i selected contents kw aud
    = INTRO_LABEL ++ SPACE :: i ++ NL :: NL :: BODY_LABEL ++ NL :: rest.
Proof.
  unfold article_layout. rewrite intro_label_prefix, body_label_literal.
  eexists. rewrite <- !app_assoc. cbn [app]. reflexivity.
Qed.

(** X7.  In the article that a run assembles, the search of
    [extract_title_and_meta] always finds the intro label, at the very
    start: it reads back the intro of the outline, and, when that intro
    is empty, the body label, which is then the first text after the
    intro label. *)
Theorem X7_intro_of_assembled_article (f : form) (w : world) (outline : pystr) :
  let i := intro (extract_outline_structure outline) in
  let shown := if nonempty i then i else BODY_LABEL in
  Re.search INTRO_LABEL (article_of e f w outline) = Some shown
  /\ extract_title_and_meta (article_of e f w outline) = shown.
Proof.
  cbv zeta. unfold article_of. rewrite assemble_layout.
  destruct (outline_intro_shape outline) as (Ht & Hs).
  set (i := intro (extract_outline_structure outline)) in *.
  destruct (article_layout_head i (selected_title (session w))
              (bodies (section_answers e f (S (length (api_log w)))
                         (sections (extract_outline_structure outline))))
              (keyword f) (target_audience f)) as (rest & ->).
  unfold extract_title_and_meta.
  destruct i as [|c i'] eqn:Ei.
  - cbn [app nonempty].
    assert (Hm : Re.search INTRO_LABEL
                   (INTRO_LABEL ++ SPACE :: NL :: NL :: BODY_LABEL ++ NL :: rest)
                 = Some BODY_LABEL).
    { apply search_here. unfold Re.match_here.
      rewrite startswith_app, skipn_length_app.
      cbn [Re.ws_group_tail].
      replace (isspace SPACE) with true by reflexivity.
      replace (isspace NL) with true by reflexivity.
      assert (Hb : Re.ws_group_tail (BODY_LABEL ++ NL :: rest) = Some BODY_LABEL).
      { unfold BODY_LABEL at 1. cbn [app Re.ws_group_tail].
        replace (isspace 42) with false by reflexivity.
        unfold Re.group_tail. replace (42 =? NL) with false by reflexivity.
        change (42 :: 42 :: 35352 :: 20107 :: 26412 :: 25991 :: 58 :: 42 :: 42
                :: NL :: rest) with (BODY_LABEL ++ NL :: rest).
        now rewrite line_prefix_line. }
      now rewrite Hb. }
    rewrite Hm. split; [reflexivity|].
    apply trimmed_strip. reflexivity.
  - assert (Hl : line_text (c :: i') = true).
    { unfold line_text. now rewrite Ht, Hs. }
    rewrite (search_line_hit INTRO_LABEL (c :: i')) by assumption.
    rewrite (trimmed_strip (c :: i')) by assumption.
    cbn [nonempty]. split; reflexivity.
Qed.

End StoredIntro.

(* ================================================================= *)
(** ** Progress values and the reported count *)

Section ProgressFacts.

Variable e : env.

Lemma nth_progress_step (N i : nat) :
  (0 < N)%nat -> (nth_progress N i <= nth_progress N (S i))%Z.
Proof.
  intros HN. unfold nth_progress.
  apply Z.add_le_mono_l, Z.div_le_mono; lia.
Qed.

Lemma nondecreasing_cons (a : Z) (l : list Z) :
  (forall b, hd_error l = Some b -> (a <= b)%Z) ->
  nondecreasing l = true -> nondecreasing (a :: l) = true.
Proof.
  destruct l as [|b l]; [reflexivity|]. intros Hb Hl.
  change (((a <=? b)%Z && nondecreasing (b :: l)) = true).
  rewrite Hl, andb_true_r. apply Z.leb_le, Hb. reflexivity.
Qed.

Lemma nondecreasing_sections (N : nat) :
  forall n i,
    (i + n <= N)%nat ->
    nondecreasing (map (nth_progress N) (seq i n) ++ [95; 100]%Z) = true.
Proof.
  induction n as [|n IH]; intros i Hi; [reflexivity|].
  cbn [seq map app].
  specialize (IH (S i) ltac:(lia)).
  destruct n as [|n'].
  - cbn [seq map app nondecreasing].
    pose proof (nth_progress_range N i ltac:(lia)).
    apply andb_true_iff; split; [apply Z.leb_le; lia|reflexivity].
  - cbn [seq map app] in *. cbn [nondecreasing].
    apply andb_true_iff; split; [|exact IH].
    apply Z.leb_le, nth_progress_step. lia.
Qed.

Lemma bounded_sections (N : nat) :
  forallb (fun v => (0 <=? v)%Z && (v <=? 100)%Z)
    (map (nth_progress N) (seq 0 N) ++ [95; 100]%Z) = true.
Proof.
  rewrite forallb_app. apply andb_true_iff; split; [|reflexivity].
  apply forallb_forall. intros v Hv. apply in_map_iff in Hv as (i & <- & Hi).
  apply in_seq in Hi. pose proof (nth_progress_range N i ltac:(lia)).
  apply andb_true_iff; split; apply Z.leb_le; lia.
Qed.

(** X8.  In a completed run the progress bar starts at 0, ends at 100,
    stays within 0..100 and never goes back. *)
Theorem X8_progress_never_goes_back (f : form) (w w' : world) (n : nat) :
  main_generate e f w = (Completed n, w') ->
  exists shown,
    progress_values (ui_log w') = progress_values (ui_log w) ++ shown
    /\ nondecreasing shown = true
    /\ forallb (fun v => (0 <=? v)%Z && (v <=? 100)%Z) shown = true
    /\ hd_error shown = Some 0%Z
    /\ last shown 0%Z = 100%Z.
Proof.
  intros Hrun. pose proof (main_generate_spec e f w) as H. rewrite Hrun in H.
  destruct H as (_ & _ & c & text & _ & H). cbv zeta in H.
  destruct H as (_ & _ & _ & Hp & _).
  set (N := length (sections (extract_outline_structure (c :: text)))) in *.
  exists (0 :: 25 :: 35 :: map (nth_progress N) (seq 0 N) ++ [95; 100])%Z.
  split; [exact Hp|]. split; [|split; [|split]].
  - apply nondecreasing_cons; [intros b Hb; injection Hb as <-; lia|].
    apply nondecreasing_cons; [intros b Hb; injection Hb as <-; lia|].
    apply nondecreasing_cons; [|apply (nondecreasing_sections N N 0); lia].
    intros b Hb. destruct N as [|N'].
    + injection Hb as <-. lia.
    + cbn [seq map app hd_error] in Hb. injection Hb as <-.
      pose proof (nth_progress_range (S N') 0 ltac:(lia)). lia.
  - cbn [forallb]. rewrite bounded_sections. reflexivity.
  - reflexivity.
  - change (0 :: 25 :: 35 :: map (nth_progress N) (seq 0 N) ++ [95; 100])%Z
      with ([0; 25; 35] ++ map (nth_progress N) (seq 0 N) ++ [95; 100])%Z.
    rewrite app_assoc.
    change [95; 100]%Z with ([95] ++ [100])%Z. rewrite app_assoc.
    apply last_last.
Qed.



(** X17.  For up to 120 sections, the percentage that binary64
    arithmetic gives for a section is the one of exact arithmetic. *)
Theorem X17_binary64_progress (N i : nat) :
  (1 <= N <= 120)%nat -> (i < N)%nat ->
  Binary64.float_progress N i = nth_progress N i.
Proof.
  intros HN Hi. pose proof float_progress_agrees as H.
  rewrite forallb_forall in H. specialize (H N ltac:(apply in_seq; lia)).
  rewrite forallb_forall in H. specialize (H i ltac:(apply in_seq; lia)).
  now apply Z.eqb_eq.
Qed.

End ProgressFacts.

(* ================================================================= *)
(** ** Which exceptions reach the handler *)

Section HostFaults.

Variable e : env.

Lemma host_only_ret {A : Type} (a : A) : host_only e (ret a).
Proof. intros w x w' H. discriminate H. Qed.

Lemma host_only_bind {A B : Type} (m : M A) (k : A -> M B) :
  host_only e m -> (forall a, host_only e (k a)) -> host_only e (bind m k).
Proof.
  intros Hm Hk w x w' H. unfold bind in H.
  destruct (m w) as [[a|y] w1] eqn:E.
  - exact (Hk a w1 x w' H).
  - injection H as <- <-. exact (Hm w y w1 E).
Qed.

Lemma host_only_host_call (ev : ui_event) : host_only e (host_call e ev).
Proof.
  intros w x w' H. unfold host_call in H.
  destruct (host_fault e) as [[k msg]|]; [|discriminate H].
  destruct (Nat.eqb k (try_calls w)); [|discriminate H].
  injection H as <- _. now exists k, msg.
Qed.

Lemma host_only_progress (v : Z) :
  (0 <= v <= 100)%Z -> host_only e (progress_bar_progress e v).
Proof.
  intros Hv w x w' H. rewrite progress_bar_progress_inv in H by assumption.
  exact (host_only_host_call _ w x w' H).
Qed.

Lemma host_only_get_session : host_only e get_session.
Proof. intros w x w' H. discriminate H. Qed.

Lemma host_only_put_session (s : session_state) : host_only e (put_session s).
Proof. intros w x w' H. discriminate H. Qed.

Lemma host_only_generate_section (g : generator) (kw t : pystr)
    (subs : list pystr) (ctx : pystr) :
  host_only e (generate_section e g kw t subs ctx).
Proof.
  unfold generate_section. destruct (client g); cbn [negb];
    [|apply host_only_ret].
  intros w x w' H. unfold messages_create in H.
  destruct (api e _ _) as [text|msg]; [discriminate H|].
  revert H. apply host_only_bind; [apply host_only_host_call|].
  intros _. apply host_only_ret.
Qed.

Lemma host_only_generate_outline (g : generator) (kw ge ta sk al sa : pystr) :
  host_only e (generate_outline e g kw ge ta sk al sa).
Proof.
  unfold generate_outline. destruct (client g); cbn [negb];
    [|apply host_only_ret].
  intros w x w' H. unfold messages_create in H.
  destruct (api e _ _) as [text|msg]; [discriminate H|].
  revert H. apply host_only_bind; [apply host_only_host_call|].
  intros _. apply host_only_ret.
Qed.

Lemma host_only_section_loop (g : generator) (kw ge : pystr) (N : nat) :
  forall (secs : list section) (i : nat) (acc : list pystr),
    (i + length secs = N)%nat ->
    host_only e (section_loop e g kw ge N i secs acc).
Proof.
  induction secs as [|s secs IH]; intros i acc HN; cbn [section_loop].
  - apply host_only_ret.
  - cbn [length] in HN. intros w x w' H.
    unfold bind at 1 in H. unfold section_progress in H.
    replace (Nat.eqb N 0) with false in H
      by (symmetry; apply Nat.eqb_neq; lia).
    cbn [ret] in H. revert H.
    rewrite (progress_fraction (50 * (Z.of_nat i + 1)) N) by lia.
    change (35 + 50 * (Z.of_nat i + 1) / Z.of_nat N)%Z with (nth_progress N i).
    apply host_only_bind.
    { apply host_only_progress.
      pose proof (nth_progress_range N i ltac:(lia)). lia. }
    intros _. apply host_only_bind; [apply host_only_host_call|].
    intros _. apply host_only_bind; [apply host_only_generate_section|].
    intros content. apply IH. lia.
Qed.

Lemma host_only_generation_steps (g : generator) (f : form) :
  host_only e (generation_steps e g f).
Proof.
  unfold generation_steps.
  apply host_only_bind; [apply host_only_host_call|]. intros _.
  apply host_only_bind; [apply host_only_progress; lia|]. intros _.
  apply host_only_bind; [apply host_only_generate_outline|]. intros outline.
  destruct outline as [[|c text]|].
  - apply host_only_bind; [apply host_only_host_call|]. intros _.
    apply host_only_ret.
  - apply host_only_bind; [apply host_only_host_call|]. intros _.
    apply host_only_bind; [apply host_only_progress; lia|]. intros _.
    apply host_only_bind; [apply host_only_host_call|]. intros _.
    apply host_only_bind; [now apply host_only_section_loop|]. intros contents.
    apply host_only_bind; [apply host_only_host_call|]. intros _.
    apply host_only_bind; [apply host_only_progress; lia|]. intros _.
    apply host_only_bind; [apply host_only_get_session|]. intros s.
    apply host_only_bind; [apply host_only_progress; lia|]. intros _.
    apply host_only_bind; [apply host_only_host_call|]. intros _.
    apply host_only_ret.
  - apply host_only_bind; [apply host_only_host_call|]. intros _.
    apply host_only_ret.
Qed.

Lemma host_only_publish_steps (art : pystr) (contents : list pystr) :
  host_only e (publish_steps e art contents).
Proof.
  unfold publish_steps.
  apply host_only_bind; [apply host_only_get_session|]. intros s.
  apply host_only_bind; [apply host_only_put_session|]. intros _.
  apply host_only_bind; [apply host_only_get_session|]. intros s'.
  apply host_only_bind; [apply host_only_put_session|]. intros _.
  apply host_only_bind; [apply host_only_host_call|]. intros _.
  apply host_only_bind; [apply host_only_host_call|]. intros _.
  apply host_only_bind; [apply host_only_host_call|]. intros _.
  apply host_only_host_call.
Qed.

(** X10.  The handler of line 585 is reached only by an exception of
    the host: neither the division of line 536 nor the range check of
    the progress bar ever raises, and the run then ends with the error
    message of line 586 and the two placeholders emptied. *)
Theorem X10_only_host_faults_raise (f : form) (w w' : world) (x : exn)
    (stored : bool) :
  main_generate e f w = (Raised x stored, w') ->
  exists k msg,
    host_fault e = Some (k, msg)
    /\ x = HostError msg
    /\ exists log,
         ui_log w' = log ++ [StError (U "記事生成中にエラーが発生しました: " ++ msg);
                             ProgressEmpty; StatusEmpty].
Proof.
  unfold main_generate. destruct (negb (nonempty (api_key f))); [discriminate|].
  destruct (new_generator e (api_key f) w) as [g w0].
  destruct (negb (is_valid _)); [discriminate|].
  destruct (generation_steps e g f (log_ui (ProgressBar 0) w0))
    as [[[[art contents]|]|y] w1] eqn:E1.
  - destruct (publish_steps e art contents w1) as [[[]|y] w2] eqn:E2;
      [discriminate|].
    intros H. injection H as <- <- <-.
    destruct (host_only_publish_steps art contents w1 y w2 E2)
      as (k & msg & Hf & ->).
    exists k, msg. split; [exact Hf|]. split; [reflexivity|].
    exists (ui_log w2). unfold on_exception, log_ui. cbn [ui_log exn_message].
    now rewrite <- !app_assoc.
  - discriminate.
  - intros H. injection H as <- <- <-.
    destruct (host_only_generation_steps g f _ y w1 E1) as (k & msg & Hf & ->).
    exists k, msg. split; [exact Hf|]. split; [reflexivity|].
    exists (ui_log w1). unfold on_exception, log_ui. cbn [ui_log exn_message].
    now rewrite <- !app_assoc.
Qed.

End HostFaults.

(* ================================================================= *)
(** ** The session between script runs *)

Section SessionFacts.

Variable e : env.

Lemma main_titles_frame (f : form) (w : world) :
  same_article (session w) (session (main_titles e f w))
  /\ selected_title (session (main_titles e f w)) = selected_title (session w).
Proof.
  unfold main_titles, same_article.
  destruct (negb (nonempty (api_key f))); [now repeat split|].
  destruct (keyword_too_short (keyword f)); [now repeat split|].
  pose proof (new_generator_spec e (api_key f) w) as Hg.
  destruct (new_generator e (api_key f) w) as [g w0].
  destruct Hg as (Hs & _).
  unfold generate_titles. destruct (negb (client g)).
  - cbn [log_ui session]. rewrite Hs. now repeat split.
  - unfold messages_create. destruct (api e _ _) as [[|c text]|msg];
      cbn [log_ui log_api set_session session with_generated_titles
           generated_article generation_completed generation_progress
           selected_title];
      rewrite Hs; now repeat split.
Qed.

Lemma select_title_session (f : form) (w : world) :
  session (select_title f w)
  = match generated_titles (session w) with
    | Some td =>
        match nth_error (title_candidates td) (title_selection f) with
        | Some t => with_selected_title t (session w)
        | None => session w
        end
    | None => session w
    end.
Proof.
  unfold select_title. destruct (generated_titles (session w)) as [td|]; [|reflexivity].
  destruct (title_candidates td) as [|t0 ts] eqn:E.
  - now destruct (title_selection f).
  - destruct (nth_error (t0 :: ts) (title_selection f));
      destruct (nonempty (recommended_title td)); reflexivity.
Qed.

Lemma select_title_frame (f : form) (w : world) :
  same_article (session w) (session (select_title f w))
  /\ generated_titles (session (select_title f w)) = generated_titles (session w).
Proof.
  rewrite select_title_session. unfold same_article.
  destruct (generated_titles (session w)) as [td|] eqn:E; [|now rewrite E].
  destruct (nth_error _ _); cbn; now rewrite ?E.
Qed.

Lemma article_of_head (f : form) (w : world) (o : pystr) :
  exists rest, article_of e f w o = INTRO_LABEL ++ SPACE :: rest.
Proof.
  unfold article_of. rewrite assemble_layout.
  destruct (article_layout_head (intro (extract_outline_structure o))
              (selected_title (session w))
              (bodies (section_answers e f (S (length (api_log w)))
                         (sections (extract_outline_structure o))))
              (keyword f) (target_audience f)) as (rest & ->).
  eexists. reflexivity.
Qed.

(** A run of the article button either leaves the stored article and
    its flag alone or stores an assembled article and sets the flag. *)
Lemma main_generate_article (f : form) (w : world) :
  let '(o, w') := main_generate e f w in
  generation_progress (session w') = generation_progress (session w)
  /\ selected_title (session w') = selected_title (session w)
  /\ generated_titles (session w') = generated_titles (session w)
  /\ match o with
     | Completed _ | Raised _ true =>
         generation_completed (session w') = true
         /\ exists o, generated_article (session w') = article_of e f w o
     | _ => session w' = session w
     end.
Proof.
  pose proof (main_generate_spec e f w) as H.
  destruct (main_generate e f w) as [o w'].
  destruct o as [|errs| |n|x [|]].
  - destruct H as (_ & -> & _). auto.
  - destruct H as (_ & _ & -> & _). auto.
  - destruct H as (_ & -> & _). auto.
  - destruct H as (_ & _ & c & text & _ & H). cbv zeta in H.
    destruct H as (_ & -> & _). repeat split. now exists (c :: text).
  - destruct H as (_ & _ & c & text & _ & -> & _). repeat split.
    now exists (c :: text).
  - destruct H as (_ & _ & -> & _). auto.
Qed.

Lemma main_world (f : form) (c : click) (w : world) :
  snd (main e f c w)
  = match c with
    | NoClick => select_title f w
    | ClickTitles => select_title f (main_titles e f w)
    | ClickGenerate => snd (main_generate e f (select_title f w))
    end.
Proof.
  unfold main. destruct c; try reflexivity.
  now destruct (main_generate e f (select_title f w)).
Qed.

Lemma script_run_world (f : form) (c : click) (w : world) :
  snd (fst (script_run e f c w)) = snd (main e f c w).
Proof.
  unfold script_run. destruct (main e f c w) as [[[| | | |]|] w']; reflexivity.
Qed.

Lemma main_article_cases (f : form) (c : click) (w : world) :
  let s := session w in
  let s' := session (snd (main e f c w)) in
  generation_progress s' = generation_progress s
  /\ ((generated_article s' = generated_article s
       /\ generation_completed s' = generation_completed s)
      \/ (generation_completed s' = true
          /\ exists rest, generated_article s' = INTRO_LABEL ++ SPACE :: rest)).
Proof.
  cbv zeta. rewrite main_world. destruct c.
  - destruct (select_title_frame f w) as ((Ha & Hc & Hp) & _). auto.
  - destruct (select_title_frame f (main_titles e f w)) as ((Ha & Hc & Hp) & _).
    destruct (main_titles_frame f w) as ((Ha' & Hc' & Hp') & _).
    rewrite Ha, Hc, Hp. auto.
  - destruct (select_title_frame f w) as ((Ha & Hc & Hp) & _).
    pose proof (main_generate_article f (select_title f w)) as H.
    destruct (main_generate e f (select_title f w)) as [o w'].
    cbn [snd]. destruct H as (Hp' & _ & _ & H). rewrite Hp', Hp.
    split; [reflexivity|].
    destruct o as [|errs| |n|x [|]]; try (rewrite H; auto).
    + right. destruct H as (Hf & o & ->). split; [exact Hf|]. apply article_of_head.
    + right. destruct H as (Hf & o & ->). split; [exact Hf|]. apply article_of_head.
Qed.

Lemma consistent_main (f : form) (c : click) (w : world) :
  consistent (session w) -> consistent (session (snd (main e f c w))).
Proof.
  unfold consistent. intros (Hp & Hiff & Hhead).
  destruct (main_article_cases f c w) as (Hp' & [(Ha & Hc) | (Hc & rest & Ha)]).
  - rewrite Hp', Ha, Hc. auto.
  - rewrite Hp', Ha, Hc. split; [exact Hp|]. split.
    + split; [intros _; destruct INTRO_LABEL; discriminate|reflexivity].
    + intros _.
      change (INTRO_LABEL ++ SPACE :: rest) with (INTRO_LABEL ++ [SPACE] ++ rest).
      rewrite app_assoc. apply startswith_app.
Qed.

Lemma consistent_runs (steps : list (form * click)) :
  forall w, consistent (session w) -> consistent (session (runs e steps w)).
Proof.
  induction steps as [|[f c] steps IH]; intros w Hw; [exact Hw|].
  cbn [runs]. apply IH. rewrite script_run_world. now apply consistent_main.
Qed.

(** X11.  After any sequence of script runs from a fresh session, the
    completion flag is set exactly when an article is stored, the
    stored article starts with the intro label, and the progress key
    of the session still has its initial value: no run writes it. *)
Theorem X11_session_between_runs (steps : list (form * click)) :
  let s := session (runs e steps initial_world) in
  generation_progress s = 0%Z
  /\ (generation_completed s = true <-> generated_article s <> [])
  /\ (generation_completed s = true ->
      startswith (INTRO_LABEL ++ [SPACE]) (generated_article s) = true)
  /\ (forall f,
        (exists p, output_column f s = ArticlePanel p)
        <-> generation_completed s = true).
Proof.
  cbv zeta.
  assert (H : consistent (session (runs e steps initial_world))).
  { apply consistent_runs. unfold consistent. cbn.
    repeat split; try discriminate. intros H. now contradiction H. }
  destruct H as (Hp & Hiff & Hhead). repeat split; auto.
  - apply Hiff.
  - apply Hiff.
  - intros (p & Hcol). unfold output_column in Hcol.
    destruct (generation_completed _); [reflexivity|discriminate Hcol].
  - intros Hc. unfold output_column. rewrite Hc.
    destruct (generated_article _) eqn:E.
    + apply Hiff in Hc. now contradiction Hc.
    + cbn [nonempty andb]. eexists. reflexivity.
Qed.

End SessionFacts.

(* ================================================================= *)
(** ** The output column after a run *)

Section PageFacts.

Variable e : env.

Lemma stored_article_main (f : form) (c : click) (w : world) :
  generation_completed (session w) = true ->
  generated_article (session w) <> [] ->
  generation_completed (session (snd (main e f c w))) = true
  /\ generated_article (session (snd (main e f c w))) <> [].
Proof.
  intros Hc Ha.
  destruct (main_article_cases e f c w) as (_ & [(Ha' & Hc') | (Hc' & rest & Ha')]).
  - now rewrite Ha', Hc'.
  - rewrite Ha', Hc'. split; [reflexivity|]. destruct INTRO_LABEL; discriminate.
Qed.

Lemma stored_article_runs (steps : list (form * click)) :
  forall w,
    generation_completed (session w) = true ->
    generated_article (session w) <> [] ->
    generation_completed (session (runs e steps w)) = true
    /\ generated_article (session (runs e steps w)) <> [].
Proof.
  induction steps as [|[f c] steps IH]; intros w Hc Ha; [now split|].
  cbn [runs]. rewrite script_run_world.
  destruct (stored_article_main f c w Hc Ha). now apply IH.
Qed.

Lemma output_column_panel (f : form) (s : session_state) :
  generation_completed s = true -> generated_article s <> [] ->
  exists p, output_column f s = ArticlePanel p
            /\ markdown p = generated_article s
            /\ data (text_download p) = generated_article s
            /\ data (markdown_download p) = generated_article s
            /\ copy_area p = generated_article s
            /\ file_name (text_download p) = download_name (keyword f) TXT
            /\ file_name (markdown_download p) = download_name (keyword f) MD
            /\ extracted_intro p = extract_title_and_meta (generated_article s).
Proof.
  intros Hc Ha. unfold output_column. rewrite Hc.
  destruct (generated_article s) as [|x a]; [now contradiction Ha|].
  cbn [nonempty andb]. eexists. split; [reflexivity|]. cbn. now repeat split.
Qed.

(** X12.  No run clears a stored article: once the flag is set and an
    article is stored, they stay so over any sequence of runs, and every
    later run shows an article panel with the stored article, except a
    run that ends at the [return] of line 522, which shows no output
    column at all. *)
Theorem X12_stored_article_stays (steps : list (form * click)) (w : world)
    (f : form) (c : click) :
  generation_completed (session w) = true ->
  generated_article (session w) <> [] ->
  let w1 := runs e steps w in
  generation_completed (session w1) = true
  /\ generated_article (session w1) <> []
  /\ match script_run e f c w1 with
     | (o, w2, None) => o = Some OutlineFailed
     | (o, w2, Some col) =>
         exists p, col = ArticlePanel p
                   /\ markdown p = generated_article (session w2)
     end.
Proof.
  intros Hc Ha. cbv zeta.
  destruct (stored_article_runs steps w Hc Ha) as (Hc1 & Ha1).
  split; [exact Hc1|]. split; [exact Ha1|].
  destruct (stored_article_main f c (runs e steps w) Hc1 Ha1) as (Hc2 & Ha2).
  unfold script_run.
  destruct (main e f c (runs e steps w)) as [o w2]. cbn [snd] in Hc2, Ha2.
  destruct (output_column_panel f (session w2) Hc2 Ha2) as (p & Hp & Hm & _).
  destruct o as [[| | | |]|]; try (exists p; now split). reflexivity.
Qed.

Lemma main_outcome (f : form) (c : click) (w : world) (o : outcome) (w' : world) :
  main e f c w = (Some o, w') ->
  c = ClickGenerate /\ main_generate e f (select_title f w) = (o, w').
Proof.
  unfold main. destruct c; try discriminate.
  destruct (main_generate e f (select_title f w)) as [o' w''].
  intros H. injection H as <- <-. now split.
Qed.

(** X15.  A run that completes shows, in the same run, the article it
    has just assembled: the panel, both downloads and the copy area
    carry that text, and the downloads are named after the keyword. *)
Theorem X15_page_after_completed_run (f : form) (c : click) (w w' : world)
    (n : nat) (col : option column) :
  script_run e f c w = (Some (Completed n), w', col) ->
  exists p ch text,
    col = Some (ArticlePanel p)
    /\ api e (length (api_log w)) (outline_call f) = Completion (ch :: text)
    /\ markdown p = article_of e f (select_title f w) (ch :: text)
    /\ data (text_download p) = markdown p
    /\ data (markdown_download p) = markdown p
    /\ copy_area p = markdown p
    /\ file_name (text_download p) = download_name (keyword f) TXT
    /\ file_name (markdown_download p) = download_name (keyword f) MD.
Proof.
  unfold script_run. destruct (main e f c w) as [o w1] eqn:Hmain.
  intros H.
  assert (Ho : o = Some (Completed n) /\ w1 = w'
               /\ col = Some (output_column f (session w1))).
  { destruct o as [[| | | |]|]; injection H; intros; subst; try discriminate;
      auto. }
  destruct Ho as (-> & -> & ->). clear H.
  apply main_outcome in Hmain as (-> & Hrun).
  pose proof (main_generate_spec e f (select_title f w)) as Hs.
  rewrite Hrun in Hs. destruct Hs as (_ & _ & ch & text & Hans & Hs).
  cbv zeta in Hs. destruct Hs as (_ & Hsess & _).
  rewrite select_title_api_log in Hans.
  assert (Hc : generation_completed (session w') = true) by now rewrite Hsess.
  assert (Ha : generated_article (session w')
               = article_of e f (select_title f w) (ch :: text))
    by now rewrite Hsess.
  assert (Hne : generated_article (session w') <> []).
  { rewrite Ha. destruct (article_of_head e f (select_title f w) (ch :: text))
      as (rest & ->). destruct INTRO_LABEL; discriminate. }
  destruct (output_column_panel f (session w') Hc Hne)
    as (p & Hp & Hm & Ht & Hd & Hcopy & Hn1 & Hn2 & _).
  exists p, ch, text. rewrite Hp, Hm, Ht, Hd, Hcopy, Ha. now repeat split.
Qed.

(** X16.  A run that ends at the [return] of line 522 shows no output
    column, although the article stored by an earlier run, and its
    flag, are still in the session. *)
Theorem X16_outline_failure_shows_no_column (f : form) (c : click)
    (w w' : world) (col : option column) :
  script_run e f c w = (Some OutlineFailed, w', col) ->
  col = None
  /\ c = ClickGenerate
  /\ generated_article (session w') = generated_article (session w)
  /\ generation_completed (session w') = generation_completed (session w).
Proof.
  unfold script_run. destruct (main e f c w) as [o w1] eqn:Hmain.
  intros H.
  assert (Ho : o = Some OutlineFailed /\ w1 = w' /\ col = None).
  { destruct o as [[| | | |]|]; injection H; intros; subst; try discriminate;
      auto. }
  destruct Ho as (-> & -> & ->). split; [reflexivity|].
  pose proof (main_article_cases e f c w) as Hcases. cbv zeta in Hcases.
  apply main_outcome in Hmain as (-> & Hrun). split; [reflexivity|].
  pose proof (main_generate_spec e f (select_title f w)) as Hs.
  rewrite Hrun in Hs. destruct Hs as (_ & Hsess & _).
  destruct (select_title_frame f w) as ((Ha & Hc & _) & _).
  now rewrite Hsess, Ha, Hc.
Qed.

(** X14.  The title button changes nothing of the session but the title
    candidates, and these only when the call succeeded: a failed title
    generation keeps the candidates of an earlier one. *)
Theorem X14_title_run_session (f : form) (w : world) :
  let s := session w in
  let s' := session (main_titles e f w) in
  generated_article s' = generated_article s
  /\ generation_completed s' = generation_completed s
  /\ selected_title s' = selected_title s
  /\ generation_progress s' = generation_progress s
  /\ generated_titles s'
     = if nonempty (api_key f) && negb (keyword_too_short (keyword f))
       then match client_init e (api_key f),
                  api e (length (api_log w)) (titles_call f) with
            | None, Completion (c :: text) => Some (extract_titles_only (c :: text))
            | _, _ => generated_titles s
            end
       else generated_titles s.
Proof.
  cbv zeta. destruct (main_titles_frame e f w) as ((Ha & Hc & Hp) & Hsel).
  repeat (split; [assumption|]).
  unfold main_titles. destruct (nonempty (api_key f)) eqn:Ek; cbn [negb andb];
    [|reflexivity].
  destruct (keyword_too_short (keyword f)); cbn [negb]; [reflexivity|].
  unfold new_generator. rewrite Ek.
  destruct (client_init e (api_key f)) as [msg|].
  - unfold generate_titles. cbn [client negb]. reflexivity.
  - unfold generate_titles. cbn [client negb]. unfold messages_create.
    change {| call_stage := TitleStage; call_max_tokens := 1000;
              call_prompt := titles_prompt (keyword f) (genre f) (target_audience f) |}
      with (titles_call f).
    destruct (api e (length (api_log w)) (titles_call f)) as [[|c text]|msg];
      reflexivity.
Qed.

(** X13.  The title picked by the radio in the run of the article
    button is the one that heads the article of that run, whatever title
    the session held before. *)
Theorem X13_selected_title_heads_article (f : form) (w w' : world) (n : nat)
    (td : titles) (t : pystr) :
  main e f ClickGenerate w = (Some (Completed n), w') ->
  generated_titles (session w) = Some td ->
  nth_error (title_candidates td) (title_selection f) = Some t ->
  selected_title (session w') = t
  /\ exists c text,
       api e (length (api_log w)) (outline_call f) = Completion (c :: text)
       /\ let structure := extract_outline_structure (c :: text) in
          generated_article (session w')
          = article_layout (intro structure) t
              (bodies (section_answers e f (S (length (api_log w)))
                         (sections structure)))
              (keyword f) (target_audience f).
Proof.
  intros Hmain Htd Hnth.
  apply main_outcome in Hmain as (_ & Hrun).
  pose proof (main_generate_spec e f (select_title f w)) as Hs.
  rewrite Hrun in Hs. destruct Hs as (_ & _ & c & text & Hans & Hs).
  cbv zeta in Hs. destruct Hs as (_ & Hsess & _).
  rewrite select_title_api_log in Hans.
  assert (Hsel : selected_title (session (select_title f w)) = t).
  { rewrite select_title_session, Htd, Hnth. reflexivity. }
  split.
  - rewrite Hsess. cbn. exact Hsel.
  - exists c, text. split; [exact Hans|]. cbv zeta. rewrite Hsess.
    unfold stored. cbn [generated_article with_generation_completed
                          with_generated_article].
    unfold article_of. rewrite assemble_layout, Hsel, select_title_api_log.
    reflexivity.
Qed.

End PageFacts.

(* ================================================================= *)
(** ** Runs without a client *)

Section NoClient.

Variable e : env.

Lemma silent_ret {A : Type} (a : A) : silent (ret a).
Proof. intros w. reflexivity. Qed.

Lemma silent_bind {A B : Type} (m : M A) (k : A -> M B) :
  silent m -> (forall a, silent (k a)) -> silent (bind m k).
Proof.
  intros Hm Hk w. unfold bind. specialize (Hm w).
  destruct (m w) as [[a|x] w1]; cbn [snd] in *.
  - now rewrite Hk.
  - exact Hm.
Qed.

Lemma silent_host_call (ev : ui_event) : silent (host_call e ev).
Proof.
  intros w. unfold host_call.
  destruct (host_fault e) as [[k msg]|]; [|reflexivity].
  now destruct (Nat.eqb k (try_calls w)).
Qed.

Lemma silent_progress (v : Z) : silent (progress_bar_progress e v).
Proof.
  unfold progress_bar_progress. destruct (_ && _); [apply silent_host_call|].
  intros w. reflexivity.
Qed.

Lemma silent_section_loop (g : generator) (kw ge : pystr) (N : nat) :
  client g = false ->
  forall (secs : list section) (i : nat) (acc : list pystr),
    silent (section_loop e g kw ge N i secs acc).
Proof.
  intros Hg. induction secs as [|s secs IH]; intros i acc; cbn [section_loop].
  - apply silent_ret.
  - apply silent_bind.
    { unfold section_progress. destruct (Nat.eqb N 0); intros w; reflexivity. }
    intros q. apply silent_bind; [apply silent_progress|]. intros _.
    apply silent_bind; [apply silent_host_call|]. intros _.
    apply silent_bind.
    { unfold generate_section. rewrite Hg. apply silent_ret. }
    intros content. apply IH.
Qed.

Lemma silent_generation_steps (g : generator) (f : form) :
  client g = false -> silent (generation_steps e g f).
Proof.
  intros Hg. unfold generation_steps.
  apply silent_bind; [apply silent_host_call|]. intros _.
  apply silent_bind; [apply silent_progress|]. intros _.
  apply silent_bind.
  { unfold generate_outline. rewrite Hg. apply silent_ret. }
  intros outline. destruct outline as [[|c text]|].
  - apply silent_bind; [apply silent_host_call|]. intros _. apply silent_ret.
  - apply silent_bind; [apply silent_host_call|]. intros _.
    apply silent_bind; [apply silent_progress|]. intros _.
    apply silent_bind; [apply silent_host_call|]. intros _.
    apply silent_bind; [now apply silent_section_loop|]. intros contents.
    apply silent_bind; [apply silent_host_call|]. intros _.
    apply silent_bind; [apply silent_progress|]. intros _.
    apply silent_bind; [intros w; reflexivity|]. intros s.
    apply silent_bind; [apply silent_progress|]. intros _.
    apply silent_bind; [apply silent_host_call|]. intros _.
    apply silent_ret.
  - apply silent_bind; [apply silent_host_call|]. intros _. apply silent_ret.
Qed.

Lemma silent_publish_steps (art : pystr) (contents : list pystr) :
  silent (publish_steps e art contents).
Proof.
  unfold publish_steps.
  apply silent_bind; [intros w; reflexivity|]. intros s.
  apply silent_bind; [intros w; reflexivity|]. intros _.
  apply silent_bind; [intros w; reflexivity|]. intros s'.
  apply silent_bind; [intros w; reflexivity|]. intros _.
  apply silent_bind; [apply silent_host_call|]. intros _.
  apply silent_bind; [apply silent_host_call|]. intros _.
  apply silent_bind; [apply silent_host_call|]. intros _.
  apply silent_host_call.
Qed.

Lemma no_client_main_generate (f : form) (w : world) :
  client_init e (api_key f) <> None ->
  api_log (snd (main_generate e f w)) = api_log w.
Proof.
  intros Hinit. unfold main_generate.
  destruct (negb (nonempty (api_key f))) eqn:Ek; [reflexivity|].
  pose proof (new_generator_spec e (api_key f) w) as Hg.
  destruct (new_generator e (api_key f) w) as [g w0].
  destruct Hg as (_ & Hlog & _ & _ & Hclient).
  assert (Hg : client g = false).
  { rewrite Hclient. destruct (api_key f); [reflexivity|].
    now destruct (client_init e _). }
  destruct (negb (is_valid _)).
  - cbn [snd]. destruct (fold_log_errors
      (errors (validate_inputs (keyword f) (genre f) (target_audience f))) w0)
      as (_ & -> & _). exact Hlog.
  - pose proof (silent_generation_steps g f Hg (log_ui (ProgressBar 0) w0)) as H1.
    cbn [log_ui api_log] in H1. rewrite Hlog in H1.
    destruct (generation_steps e g f (log_ui (ProgressBar 0) w0))
      as [[[[art contents]|]|x] w1]; cbn [snd] in H1.
    + pose proof (silent_publish_steps art contents w1) as H2.
      destruct (publish_steps e art contents w1) as [[[]|x] w2]; cbn [snd] in *.
      * now rewrite H2.
      * unfold on_exception, log_ui. cbn [api_log]. now rewrite H2.
    + exact H1.
    + unfold on_exception, log_ui. cbn [api_log]. exact H1.
Qed.

Lemma no_client_main_titles (f : form) (w : world) :
  client_init e (api_key f) <> None ->
  api_log (main_titles e f w) = api_log w.
Proof.
  intros Hinit. unfold main_titles.
  destruct (negb (nonempty (api_key f))) eqn:Ek; [reflexivity|].
  destruct (keyword_too_short (keyword f)); [reflexivity|].
  unfold new_generator. apply negb_false_iff in Ek. rewrite Ek.
  destruct (client_init e (api_key f)) as [msg|]; [|now contradiction Hinit].
  reflexivity.
Qed.

(** X18.  When the client cannot be built for the API key, no run
    issues an API call, whichever button is clicked: every wrapper
    returns before the call. *)
Theorem X18_no_client_no_call (f : form) (c : click) (w : world) :
  client_init e (api_key f) <> None ->
  api_log (snd (main e f c w)) = api_log w.
Proof.
  intros Hinit. rewrite main_world. destruct c.
  - apply select_title_api_log.
  - rewrite select_title_api_log. now apply no_client_main_titles.
  - rewrite no_client_main_generate by assumption. apply select_title_api_log.
Qed.

End NoClient.

(* ================================================================= *)
(** ** What the article button leaves alone *)

Section Independence.

Variable e : env.

(** X19.  The article button leaves the title candidates alone, and
    the selected title is the one the radio of that run stored. *)
Theorem X19_article_run_keeps_titles (f : form) (w : world) :
  let s' := session (snd (main e f ClickGenerate w)) in
  generated_titles s' = generated_titles (session w)
  /\ selected_title s' = selected_title (session (select_title f w))
  /\ generation_progress s' = generation_progress (session w).
Proof.
  cbv zeta. rewrite main_world.
  pose proof (main_generate_article e f (select_title f w)) as H.
  destruct (main_generate e f (select_title f w)) as [o w']. cbn [snd].
  destruct H as (Hp & Hsel & Ht & _).
  destruct (select_title_frame f w) as ((_ & _ & Hp') & Ht').
  rewrite Ht, Ht', Hsel, Hp, Hp'. now repeat split.
Qed.

Lemma main_generate_raised (f : form) (w w' : world) (x : exn) (stored : bool) :
  main_generate e f w = (Raised x stored, w') ->
  exists w1 k msg,
    w' = on_exception x w1
    /\ host_fault e = Some (k, msg)
    /\ x = HostError msg.
Proof.
  unfold main_generate. destruct (negb (nonempty (api_key f))); [discriminate|].
  destruct (new_generator e (api_key f) w) as [g w0].
  destruct (negb (is_valid _)); [discriminate|].
  destruct (generation_steps e g f (log_ui (ProgressBar 0) w0))
    as [[[[art contents]|]|y] w1] eqn:E1.
  - destruct (publish_steps e art contents w1) as [[[]|y] w2] eqn:E2;
      [discriminate|].
    intros H. injection H as <- <- <-.
    destruct (host_only_publish_steps e art contents w1 y w2 E2)
      as (k & msg & Hf & ->).
    now exists w2, k, msg.
  - discriminate.
  - intros H. injection H as <- <- <-.
    destruct (host_only_generation_steps e g f _ y w1 E1) as (k & msg & Hf & ->).
    now exists w1, k, msg.
Qed.

(** X21.  When the host raises after lines 576-577, the run shows the
    error message of line 586 and, in the output column of the same
    run, the article it has just stored. *)
Theorem X21_late_fault_shows_error_and_article (f : form) (c : click)
    (w w' : world) (x : exn) (col : option column) :
  script_run e f c w = (Some (Raised x true), w', col) ->
  exists p msg,
    col = Some (ArticlePanel p)
    /\ markdown p = generated_article (session w')
    /\ generation_completed (session w') = true
    /\ x = HostError msg
    /\ In (StError (U "記事生成中にエラーが発生しました: " ++ msg)) (ui_log w').
Proof.
  unfold script_run. destruct (main e f c w) as [o w1] eqn:Hmain.
  intros H.
  assert (Ho : o = Some (Raised x true) /\ w1 = w'
               /\ col = Some (output_column f (session w1))).
  { destruct o as [[| | | |]|]; injection H; intros; subst; try discriminate;
      auto. }
  destruct Ho as (-> & -> & ->). clear H.
  apply main_outcome in Hmain as (-> & Hrun).
  pose proof (main_generate_article e f (select_title f w)) as Hs.
  rewrite Hrun in Hs. destruct Hs as (_ & _ & _ & Hc & o & Ha).
  assert (Hne : generated_article (session w') <> []).
  { rewrite Ha. destruct (article_of_head e f (select_title f w) o) as (rest & ->).
    destruct INTRO_LABEL; discriminate. }
  destruct (output_column_panel f (session w') Hc Hne) as (p & Hp & Hm & _).
  destruct (main_generate_raised f _ _ _ _ Hrun) as (w1 & k & msg & Hw & _ & Hx).
  exists p, msg. rewrite Hp. repeat split; try assumption.
  rewrite Hw, Hx. unfold on_exception, log_ui. cbn [ui_log exn_message].
  apply in_or_app. left. apply in_or_app. left. apply in_or_app. right. now left.
Qed.

End Independence.

(* ================================================================= *)
(** ** The calls of a run against the answers *)

Section TwoEnvironments.

(** X20.  The section calls of a completed run are fixed by the answer
    to the outline call: two environments that give the same outline
    issue the same calls, whatever they answer to the section calls.  No
    section prompt depends on the text of an earlier section. *)
Theorem X20_calls_fixed_by_outline (e1 e2 : env) (f : form) (w w1 w2 : world)
    (n1 n2 : nat) :
  main_generate e1 f w = (Completed n1, w1) ->
  main_generate e2 f w = (Completed n2, w2) ->
  api e1 (length (api_log w)) (outline_call f)
  = api e2 (length (api_log w)) (outline_call f) ->
  api_log w1 = api_log w2.
Proof.
  intros H1 H2 Hsame.
  pose proof (main_generate_spec e1 f w) as S1. rewrite H1 in S1.
  pose proof (main_generate_spec e2 f w) as S2. rewrite H2 in S2.
  destruct S1 as (_ & _ & c1 & t1 & A1 & S1). cbv zeta in S1.
  destruct S1 as (_ & _ & L1 & _).
  destruct S2 as (_ & _ & c2 & t2 & A2 & S2). cbv zeta in S2.
  destruct S2 as (_ & _ & L2 & _).
  rewrite A1, A2 in Hsame. injection Hsame as <- <-.
  now rewrite L1, L2.
Qed.

End TwoEnvironments.

(* ================================================================= *)
(** ** Outlines up to the whitespace around their lines *)

Section TrimmedLines.

Lemma outline_step_strip (st : list section * option section) (a b : pystr) :
  strip a = strip b -> outline_step st a = outline_step st b.
Proof. intros H. destruct st as [secs cur]. unfold outline_step. now rewrite H. Qed.

Lemma outline_fold_strip (la : list pystr) :
  forall (lb : list pystr) (st : list section * option section),
    map strip la = map strip lb ->
    fold_left outline_step la st = fold_left outline_step lb st.
Proof.
  induction la as [|a la IH]; intros [|b lb] st H; try discriminate H;
    [reflexivity|].
  cbn [map] in H. injection H as Hab Hrest. cbn [fold_left].
  rewrite (outline_step_strip st a b Hab). now apply IH.
Qed.

(** X22.  The sections of an outline depend on its lines only up to
    the whitespace around each line: indentation, trailing blanks and
    carriage returns before the newline change nothing. *)
Theorem X22_sections_ignore_line_padding (a b : pystr) :
  map strip (split_lines a) = map strip (split_lines b) ->
  sections (extract_outline_structure a) = sections (extract_outline_structure b).
Proof.
  intros H. unfold extract_outline_structure.
  rewrite (outline_fold_strip (split_lines a) (split_lines b) ([], None) H).
  now destruct (fold_left outline_step (split_lines b) ([], None)).
Qed.

End TrimmedLines.

(* ================================================================= *)
(** ** The further properties at the scenarios *)

Section FurtherScenarios.

Import Scenario Sample.

(** X1, at an outline of two sections, with the closing heading. *)
Lemma X1_witness :
  well_formed sample_outline = true
  /\ extract_outline_structure (render_outline sample_outline true)
     = sample_outline.
Proof.
  assert (H : well_formed sample_outline = true) by (vm_compute; reflexivity).
  split; [exact H|]. exact (X1_outline_round_trip sample_outline true H).
Defined.

(** X5, at a keyword of two characters between two spaces and a
    newline. *)
Lemma X5_witness :
  forallb isspace [SPACE; SPACE] = true
  /\ forallb isspace [NL] = true
  /\ validate_inputs ([SPACE; SPACE] ++ [97; 98]%N ++ [NL]) [103%N] [104%N]
     = validate_inputs [97; 98]%N [103%N] [104%N].
Proof.
  assert (H1 : forallb isspace [SPACE; SPACE] = true) by reflexivity.
  assert (H2 : forallb isspace [NL] = true) by reflexivity.
  split; [exact H1|]. split; [exact H2|].
  exact (X5_validation_ignores_padding [SPACE; SPACE] [NL] [97; 98]%N
           [103%N] [104%N] H1 H2).
Defined.

(** X8, at scenario A. *)
Lemma X8_witness :
  main_generate all_succeed request initial_world = (Completed 3, completed_world)
  /\ exists shown,
       progress_values (ui_log completed_world)
       = progress_values (ui_log initial_world) ++ shown
       /\ nondecreasing shown = true
       /\ forallb (fun v => (0 <=? v)%Z && (v <=? 100)%Z) shown = true
       /\ hd_error shown = Some 0%Z
       /\ last shown 0%Z = 100%Z.
Proof.
  assert (H : main_generate all_succeed request initial_world
              = (Completed 3, completed_world)) by (vm_compute; reflexivity).
  split; [exact H|].
  exact (X8_progress_never_goes_back all_succeed request initial_world
           completed_world 3 H).
Defined.


(** X10, at the scenario in which the host raises. *)
Lemma X10_witness :
  main_generate host_raises request initial_world
  = (Raised (HostError (U "connection lost")) false,
     snd (main_generate host_raises request initial_world))
  /\ exists k msg,
       host_fault host_raises = Some (k, msg)
       /\ HostError (U "connection lost") = HostError msg
       /\ exists log,
            ui_log (snd (main_generate host_raises request initial_world))
            = log ++ [StError (U "記事生成中にエラーが発生しました: " ++ msg);
                      ProgressEmpty; StatusEmpty].
Proof.
  assert (H : main_generate host_raises request initial_world
              = (Raised (HostError (U "connection lost")) false,
                 snd (main_generate host_raises request initial_world)))
    by (vm_compute; reflexivity).
  split; [exact H|].
  exact (X10_only_host_faults_raise host_raises request initial_world _ _ _ H).
Defined.

(** X12, at the world after scenario A: a run with a short keyword, a
    run without a click, then a click on the title button. *)
Lemma X12_witness :
  generation_completed (session completed_world) = true
  /\ generated_article (session completed_world) <> []
  /\ let w1 := runs all_succeed
                 [(short_keyword, ClickGenerate); (request, NoClick)]
                 completed_world in
     generation_completed (session w1) = true
     /\ generated_article (session w1) <> []
     /\ match script_run all_succeed request ClickTitles w1 with
        | (o, w2, None) => o = Some OutlineFailed
        | (o, w2, Some col) =>
            exists p, col = ArticlePanel p
                      /\ markdown p = generated_article (session w2)
        end.
Proof.
  assert (H1 : generation_completed (session completed_world) = true)
    by (vm_compute; reflexivity).
  assert (H2 : generated_article (session completed_world) <> [])
    by (vm_compute; discriminate).
  split; [exact H1|]. split; [exact H2|].
  exact (X12_stored_article_stays all_succeed
           [(short_keyword, ClickGenerate); (request, NoClick)]
           completed_world request ClickTitles H1 H2).
Defined.

(** X13, at scenario A after the title button, with the second
    candidate picked. *)
Lemma X13_witness :
  main all_succeed second_title ClickGenerate listed_world
  = (Some (Completed 3),
     snd (main all_succeed second_title ClickGenerate listed_world))
  /\ generated_titles (session listed_world)
     = Some (extract_titles_only titles_1_2_4)
  /\ nth_error (title_candidates (extract_titles_only titles_1_2_4))
       (title_selection second_title) = Some (U "Beta")
  /\ selected_title
       (session (snd (main all_succeed second_title ClickGenerate listed_world)))
     = U "Beta".
Proof.
  assert (H1 : main all_succeed second_title ClickGenerate listed_world
               = (Some (Completed 3),
                  snd (main all_succeed second_title ClickGenerate listed_world)))
    by (vm_compute; reflexivity).
  assert (H2 : generated_titles (session listed_world)
               = Some (extract_titles_only titles_1_2_4))
    by (vm_compute; reflexivity).
  assert (H3 : nth_error (title_candidates (extract_titles_only titles_1_2_4))
                 (title_selection second_title) = Some (U "Beta"))
    by (vm_compute; reflexivity).
  split; [exact H1|]. split; [exact H2|]. split; [exact H3|].
  exact (proj1 (X13_selected_title_heads_article all_succeed second_title
                  listed_world _ 3 _ _ H1 H2 H3)).
Defined.

(** X15, at scenario A. *)
Lemma X15_witness :
  script_run all_succeed request ClickGenerate initial_world
  = (Some (Completed 3),
     snd (fst (script_run all_succeed request ClickGenerate initial_world)),
     snd (script_run all_succeed request ClickGenerate initial_world))
  /\ exists p ch text,
       snd (script_run all_succeed request ClickGenerate initial_world)
       = Some (ArticlePanel p)
       /\ api all_succeed (length (api_log initial_world)) (outline_call request)
          = Completion (ch :: text)
       /\ markdown p
          = article_of all_succeed request (select_title request initial_world)
              (ch :: text)
       /\ data (text_download p) = markdown p
       /\ data (markdown_download p) = markdown p
       /\ copy_area p = markdown p
       /\ file_name (text_download p) = download_name (keyword request) TXT
       /\ file_name (markdown_download p) = download_name (keyword request) MD.
Proof.
  assert (H : script_run all_succeed request ClickGenerate initial_world
              = (Some (Completed 3),
                 snd (fst (script_run all_succeed request ClickGenerate
                             initial_world)),
                 snd (script_run all_succeed request ClickGenerate initial_world)))
    by (vm_compute; reflexivity).
  split; [exact H|].
  exact (X15_page_after_completed_run all_succeed request ClickGenerate
           initial_world _ 3 _ H).
Defined.

(** X16, at the world after scenario A, when the outline call of the
    next run fails. *)
Lemma X16_witness :
  script_run outline_fails request ClickGenerate completed_world
  = (Some OutlineFailed,
     snd (fst (script_run outline_fails request ClickGenerate completed_world)),
     snd (script_run outline_fails request ClickGenerate completed_world))
  /\ snd (script_run outline_fails request ClickGenerate completed_world) = None
  /\ generation_completed
       (session (snd (fst (script_run outline_fails request ClickGenerate
                             completed_world))))
     = generation_completed (session completed_world).
Proof.
  assert (H : script_run outline_fails request ClickGenerate completed_world
              = (Some OutlineFailed,
                 snd (fst (script_run outline_fails request ClickGenerate
                             completed_world)),
                 snd (script_run outline_fails request ClickGenerate
                        completed_world)))
    by (vm_compute; reflexivity).
  split; [exact H|].
  destruct (X16_outline_failure_shows_no_column outline_fails request
              ClickGenerate completed_world _ _ H) as (Hcol & _ & _ & Hflag).
  split; [exact Hcol|exact Hflag].
Defined.

(** X17, at the fourth of seven sections. *)
Lemma X17_witness :
  (1 <= 7 <= 120)%nat /\ (3 < 7)%nat
  /\ Binary64.float_progress 7 3 = nth_progress 7 3.
Proof.
  assert (H1 : (1 <= 7 <= 120)%nat) by lia.
  assert (H2 : (3 < 7)%nat) by lia.
  split; [exact H1|]. split; [exact H2|].
  exact (X17_binary64_progress 7 3 H1 H2).
Defined.

(** X18, at a key for which the client cannot be built. *)
Lemma X18_witness :
  client_init no_client (api_key request) <> None
  /\ api_log (snd (main no_client request ClickGenerate initial_world))
     = api_log initial_world.
Proof.
  assert (H : client_init no_client (api_key request) <> None) by discriminate.
  split; [exact H|].
  exact (X18_no_client_no_call no_client request ClickGenerate initial_world H).
Defined.

(** X20, at scenarios A and B, which answer the section calls
    differently. *)
Lemma X20_witness :
  main_generate all_succeed request initial_world = (Completed 3, completed_world)
  /\ main_generate section2_fails request initial_world
     = (Completed 2, snd (main_generate section2_fails request initial_world))
  /\ api all_succeed (length (api_log initial_world)) (outline_call request)
     = api section2_fails (length (api_log initial_world)) (outline_call request)
  /\ api_log completed_world
     = api_log (snd (main_generate section2_fails request initial_world)).
Proof.
  assert (H1 : main_generate all_succeed request initial_world
               = (Completed 3, completed_world)) by (vm_compute; reflexivity).
  assert (H2 : main_generate section2_fails request initial_world
               = (Completed 2,
                  snd (main_generate section2_fails request initial_world)))
    by (vm_compute; reflexivity).
  assert (H3 : api all_succeed (length (api_log initial_world))
                 (outline_call request)
               = api section2_fails (length (api_log initial_world))
                   (outline_call request)) by reflexivity.
  split; [exact H1|]. split; [exact H2|]. split; [exact H3|].
  exact (X20_calls_fixed_by_outline all_succeed section2_fails request
           initial_world _ _ 3 2 H1 H2 H3).
Defined.

(** X21, at the scenario in which the host raises at the success
    message. *)
Lemma X21_witness :
  script_run late_fault request ClickGenerate initial_world
  = (Some (Raised (HostError (U "connection lost")) true),
     snd (fst (script_run late_fault request ClickGenerate initial_world)),
     snd (script_run late_fault request ClickGenerate initial_world))
  /\ exists p msg,
       snd (script_run late_fault request ClickGenerate initial_world)
       = Some (ArticlePanel p)
       /\ markdown p
          = generated_article
              (session (snd (fst (script_run late_fault request ClickGenerate
                                    initial_world))))
       /\ generation_completed
            (session (snd (fst (script_run late_fault request ClickGenerate
                                  initial_world)))) = true
       /\ HostError (U "connection lost") = HostError msg
       /\ In (StError (U "記事生成中にエラーが発生しました: " ++ msg))
            (ui_log (snd (fst (script_run late_fault request ClickGenerate
                                 initial_world)))).
Proof.
  assert (H : script_run late_fault request ClickGenerate initial_world
              = (Some (Raised (HostError (U "connection lost")) true),
                 snd (fst (script_run late_fault request ClickGenerate
                             initial_world)),
                 snd (script_run late_fault request ClickGenerate initial_world)))
    by (vm_compute; reflexivity).
  split; [exact H|].
  exact (X21_late_fault_shows_error_and_article late_fault request ClickGenerate
           initial_world _ _ _ H).
Defined.

(** X22, at an outline and the same outline indented, with trailing
    blanks and carriage returns. *)
Lemma X22_witness :
  map strip (split_lines padded_outline) = map strip (split_lines plain_outline)
  /\ sections (extract_outline_structure padded_outline)
     = sections (extract_outline_structure plain_outline).
Proof.
  assert (H : map strip (split_lines padded_outline)
              = map strip (split_lines plain_outline))
    by (vm_compute; reflexivity).
  split; [exact H|].
  exact (X22_sections_ignore_line_padding padded_outline plain_outline H).
Defined.

End FurtherScenarios.
